(** * Marvin IA: knowledge extraction, fact store and message orchestration

    A shallow embedding of the JavaScript sources
    - [src/services/keywordExtractor.js]  (keyword extractor),
    - [src/services/messageProcessor.js]  (fact translator, query analyser,
      answer synthesiser, message orchestrator),
    - [src/config/openai.js]              (classifier adapter),
    - [src/models/Response.js]            (fact store manager, response cache),
    together with the properties of the natural-language specification that
    are stated about them. *)

From Stdlib Require Import String Ascii DecimalString.
From Stdlib Require Import NArith ZArith Bool Arith Lia.
From Stdlib Require Import List Permutation Sorting.Sorted.
Import ListNotations.

Set Implicit Arguments.

(* ================================================================== *)
(** ** JavaScript strings *)
(* ================================================================== *)

(** A JavaScript string is a sequence of UTF-16 code units. *)
Definition jschar := N.
Definition jsstring := list jschar.

(** Source literals are written as Rocq strings (UTF-8 bytes) and decoded
    into code units; only the Basic Multilingual Plane occurs in the
    sources. *)
Fixpoint utf8_decode (l : list N) : jsstring :=
  match l with
  | [] => []
  | b :: r =>
      if (b <? 128)%N then b :: utf8_decode r
      else if ((192 <=? b) && (b <? 224))%N then
        match r with
        | c :: r' => ((b - 192) * 64 + (c - 128))%N :: utf8_decode r'
        | [] => [b]
        end
      else if ((224 <=? b) && (b <? 240))%N then
        match r with
        | c :: d :: r' =>
            ((b - 224) * 4096 + (c - 128) * 64 + (d - 128))%N :: utf8_decode r'
        | _ => b :: utf8_decode r
        end
      else b :: utf8_decode r
  end.

Definition js (s : string) : jsstring :=
  utf8_decode (map N_of_ascii (list_ascii_of_string s)).

Fixpoint streq (a b : jsstring) : bool :=
  match a, b with
  | [], [] => true
  | x :: a', y :: b' => (x =? y)%N && streq a' b'
  | _, _ => false
  end.

Definition inStr (c : jschar) (s : jsstring) : bool :=
  existsb (fun d => (c =? d)%N) s.

(** [Array.prototype.includes] on an array of strings. *)
Definition includes (l : list jsstring) (s : jsstring) : bool :=
  existsb (streq s) l.

(** ECMAScript [WhiteSpace] and [LineTerminator] code units: the class [\s]
    of regular expressions and the characters removed by [trim]. *)
Definition isWhite (c : jschar) : bool :=
  ((9 <=? c) && (c <=? 13) || (c =? 32) || (c =? 160) || (c =? 5760)
   || (8192 <=? c) && (c <=? 8202) || (c =? 8232) || (c =? 8233)
   || (c =? 8239) || (c =? 8287) || (c =? 12288) || (c =? 65279))%N.

Definition isDigit (c : jschar) : bool := ((48 <=? c) && (c <=? 57))%N.
Definition isUpperAZ (c : jschar) : bool := ((65 <=? c) && (c <=? 90))%N.
Definition isLowerAZ (c : jschar) : bool := ((97 <=? c) && (c <=? 122))%N.
Definition isAlpha (c : jschar) : bool := isUpperAZ c || isLowerAZ c.

(** The class [\w] (no [u] flag): [[A-Za-z0-9_]]. *)
Definition isWord (c : jschar) : bool :=
  isAlpha c || isDigit c || (c =? 95)%N.

Fixpoint dropWhile (p : jschar -> bool) (s : jsstring) : jsstring :=
  match s with
  | [] => []
  | c :: r => if p c then dropWhile p r else s
  end.

Definition dropWhileEnd (p : jschar -> bool) (s : jsstring) : jsstring :=
  rev (dropWhile p (rev s)).

(** [String.prototype.trim]. *)
Definition trim (s : jsstring) : jsstring :=
  dropWhileEnd isWhite (dropWhile isWhite s).

Fixpoint startsWith (p s : jsstring) : bool :=
  match p, s with
  | [], _ => true
  | c :: p', d :: s' => (c =? d)%N && startsWith p' s'
  | _ :: _, [] => false
  end.

(** [s.includes(p)] on strings. *)
Fixpoint strIncludes (p s : jsstring) : bool :=
  startsWith p s ||
  match s with
  | [] => false
  | _ :: r => strIncludes p r
  end.

(** [s.substring(a, b)] for [0 <= a <= b]; [s.substring(a)] is [skipn a s]. *)
Definition substring (a b : nat) (s : jsstring) : jsstring :=
  firstn (b - a) (skipn a s).

(** [s.split(sep)] for a non-empty separator: [skip] counts the code units
    of a separator occurrence that are still to be passed over, [cur] is the
    piece being collected. *)
Fixpoint splitAux (sep : jsstring) (s : jsstring) (skip : nat)
    (cur : jsstring) : list jsstring :=
  match s with
  | [] => [cur]
  | c :: r =>
      match skip with
      | S k => splitAux sep r k cur
      | O =>
          if startsWith sep s
          then cur :: splitAux sep r (length sep - 1) []
          else splitAux sep r 0 (cur ++ [c])
      end
  end.

Definition split (sep s : jsstring) : list jsstring := splitAux sep s 0 [].

(** [String(n)] for a non-negative integer, as in template literals. *)
Definition numToString (n : nat) : jsstring :=
  js (NilZero.string_of_uint (Nat.to_uint n)).

(** The lower-casing of the Basic Latin and Latin-1 Supplement blocks, the
    instance of [String.prototype.toLowerCase] at which the development is
    evaluated on concrete inputs. *)
Definition lowerLatin1Char (c : jschar) : jschar :=
  if (isUpperAZ c || (192 <=? c) && (c <=? 222) && negb (c =? 215))%N
  then (c + 32)%N else c.
Definition lowerLatin1 (s : jsstring) : jsstring := map lowerLatin1Char s.

Definition upperLatin1Char (c : jschar) : jschar :=
  if (isLowerAZ c || (224 <=? c) && (c <=? 254) && negb (c =? 247))%N
  then (c - 32)%N else c.
Definition upperLatin1 (s : jsstring) : jsstring := map upperLatin1Char s.

(** JavaScript values, as far as [typeof] and truthiness tell them apart. *)
Inductive jsval :=
| JUndefined
| JNull
| JBool (b : bool)
| JNum (z : Z)
| JStr (s : jsstring)
| JObject.

(* ================================================================== *)
(** ** Keyword extractor ([keywordExtractor.js]) *)
(* ================================================================== *)

Definition STOP_WORDS : list jsstring := map js
  [ "a"; "ao"; "aos"; "aquela"; "aquelas"; "aquele"; "aqueles"; "aquilo"; "as"; "até";
    "com"; "como"; "da"; "das"; "de"; "dela"; "delas"; "dele"; "deles"; "depois";
    "do"; "dos"; "e"; "ela"; "elas"; "ele"; "eles"; "em"; "entre"; "era";
    "eram"; "éramos"; "essa"; "essas"; "esse"; "esses"; "esta"; "estas"; "este";
    "estou"; "eu"; "foi"; "fomos"; "for"; "foram"; "fosse"; "fossem"; "fui";
    "há"; "isso"; "isto"; "já"; "lhe"; "lhes"; "me"; "mesmo"; "meu"; "meus";
    "minha"; "minhas"; "muito"; "muitos"; "na"; "não"; "nas"; "nem"; "no"; "nos";
    "nós"; "nossa"; "nossas"; "nosso"; "nossos"; "num"; "numa"; "o"; "os"; "ou";
    "para"; "pela"; "pelas"; "pelo"; "pelos"; "por"; "qual"; "quando"; "que";
    "quem"; "se"; "seja"; "sejam"; "sejamos"; "sem"; "será"; "serão"; "serei";
    "seremos"; "seria"; "seriam"; "seríamos"; "seu"; "seus"; "só"; "somos"; "sou";
    "sua"; "suas"; "também"; "te"; "tem"; "tém"; "temos"; "tenho"; "teu"; "teus";
    "tu"; "tua"; "tuas"; "um"; "uma"; "umas"; "uns"; "você"; "vocês"; "vos" ]%string.

(** The character class of [/[.,\/#!$%\^&\*;:{}=\-_`~()]/g]. *)
Definition pontuacao : jsstring := js ".,/#!$%^&*;:{}=-_`~()".

Definition removerPontuacao (s : jsstring) : jsstring :=
  filter (fun c => negb (inStr c pontuacao)) s.

(** [.replace(/\s{2,}/g, ' ')]: every maximal run of two or more white
    space code units becomes one space; a single one is kept as it is.
    [run] is the white space seen since the last other code unit, in
    reverse. *)
Definition fecharSequencia (run : jsstring) : jsstring :=
  match run with
  | [] => []
  | [c] => [c]
  | _ => [32%N]
  end.

Fixpoint colapsarAux (s : jsstring) (run : jsstring) : jsstring :=
  match s with
  | [] => fecharSequencia run
  | c :: r =>
      if isWhite c then colapsarAux r (c :: run)
      else fecharSequencia run ++ c :: colapsarAux r []
  end.

Definition colapsarEspacos (s : jsstring) : jsstring := colapsarAux s [].

(** *** The counting object

    [wordFrequency] is a plain object: its own properties, in creation
    order, and behind them the properties inherited from
    [Object.prototype]. *)

(** What a property of [wordFrequency] can hold: a count, or the string
    that [+ 1] makes of an inherited function (no number). *)
Inductive freqval :=
| FNum (n : nat)
| FTexto.

Definition objfreq := list (jsstring * freqval).

(** The names [Object.prototype] defines; each is bound to a function
    (a truthy value). *)
Definition objectPrototypeKeys : list jsstring := map js
  [ "constructor"; "hasOwnProperty"; "isPrototypeOf"; "propertyIsEnumerable";
    "toLocaleString"; "toString"; "valueOf";
    "__defineGetter__"; "__defineSetter__"; "__lookupGetter__";
    "__lookupSetter__"; "__proto__" ]%string.

Fixpoint getOwn (o : objfreq) (k : jsstring) : option freqval :=
  match o with
  | [] => None
  | (k', v) :: r => if streq k k' then Some v else getOwn r k
  end.

(** [(wordFrequency[word] || 0) + 1]. *)
Definition incrementar (o : objfreq) (word : jsstring) : freqval :=
  match getOwn o word with
  | Some (FNum n) => FNum (n + 1)
  | Some FTexto => FTexto
  | None => if includes objectPrototypeKeys word then FTexto else FNum 1
  end.

(** [o[k] = v]: an own property keeps its place, a new one goes last. *)
Fixpoint setOwn (o : objfreq) (k : jsstring) (v : freqval) : objfreq :=
  match o with
  | [] => [(k, v)]
  | (k', v') :: r =>
      if streq k k' then (k', v) :: r else (k', v') :: setOwn r k v
  end.

Definition contarPalavra (o : objfreq) (word : jsstring) : objfreq :=
  setOwn o word (incrementar o word).

(** A canonical array index: the decimal numeral, without sign or leading
    zero, of an integer below [2^32 - 1]. *)
Definition valorDecimal (s : jsstring) : N :=
  fold_left (fun acc c => (acc * 10 + (c - 48))%N) s 0%N.

Definition isArrayIndex (s : jsstring) : bool :=
  match s with
  | [] => false
  | c :: r =>
      forallb isDigit s
      && (negb (c =? 48)%N || match r with [] => true | _ => false end)
      && (length s <=? 10)%nat
      && (valorDecimal s <? 4294967295)%N
  end.

(** [Array.prototype.sort(cmp)]: the sort is stable, and [x] moves behind
    [y] only where [cmp x y > 0]. *)
Fixpoint inserir A (cmp : A -> A -> Z) (x : A) (l : list A) : list A :=
  match l with
  | [] => [x]
  | y :: r => if (cmp x y >? 0)%Z then y :: inserir cmp x r else x :: l
  end.

Definition arraySort A (cmp : A -> A -> Z) (l : list A) : list A :=
  fold_right (inserir cmp) [] l.

(** [Object.keys(o)]: array indices in ascending numeric order, then the
    other names in creation order. *)
Definition objectKeys (o : objfreq) : list jsstring :=
  let ks := map fst o in
  arraySort (fun a b => (Z.of_N (valorDecimal a) - Z.of_N (valorDecimal b))%Z)
            (filter isArrayIndex ks)
  ++ filter (fun k => negb (isArrayIndex k)) ks.

(** [wordFrequency[b] - wordFrequency[a]]; [NaN] counts as [0] in a sort. *)
Definition compararFrequencia (o : objfreq) (a b : jsstring) : Z :=
  match getOwn o a, getOwn o b with
  | Some (FNum x), Some (FNum y) => (Z.of_nat y - Z.of_nat x)%Z
  | _, _ => 0%Z
  end.

(* ================================================================== *)
(** ** Regular expressions *)
(* ================================================================== *)

(** The fragment of ECMAScript regular expressions the sources use, with
    the backtracking order of the language: alternatives left to right,
    quantifiers greedy. *)
Inductive regex :=
| RChar (p : jschar -> bool)
| REps
| RSeq (a b : regex)
| RAlt (a b : regex)
| ROpt (a : regex)
| RPlus (p : jschar -> bool)
| RStar (p : jschar -> bool)
| RGroup (n : nat) (a : regex)
| RBol
| REol.

Definition capturas := list (nat * jsstring).

Fixpoint captura (n : nat) (c : capturas) : option jsstring :=
  match c with
  | [] => None
  | (m, s) :: r => if (n =? m)%nat then Some s else captura n r
  end.

(** [p*] from the current position: the longest run first. *)
Fixpoint rstar (p : jschar -> bool) (pos : nat) (s : jsstring) (c : capturas)
    (k : nat -> jsstring -> capturas -> option capturas) : option capturas :=
  match s with
  | x :: s' =>
      if p x then
        match rstar p (S pos) s' c k with
        | Some r => Some r
        | None => k pos s c
        end
      else k pos s c
  | [] => k pos s c
  end.

Fixpoint rmatch (r : regex) (pos : nat) (s : jsstring) (c : capturas)
    (k : nat -> jsstring -> capturas -> option capturas) : option capturas :=
  match r with
  | RChar p =>
      match s with
      | x :: s' => if p x then k (S pos) s' c else None
      | [] => None
      end
  | REps => k pos s c
  | RSeq a b => rmatch a pos s c (fun pos' s' c' => rmatch b pos' s' c' k)
  | RAlt a b =>
      match rmatch a pos s c k with
      | Some r => Some r
      | None => rmatch b pos s c k
      end
  | ROpt a =>
      match rmatch a pos s c k with
      | Some r => Some r
      | None => k pos s c
      end
  | RPlus p =>
      match s with
      | x :: s' => if p x then rstar p (S pos) s' c k else None
      | [] => None
      end
  | RStar p => rstar p pos s c k
  | RGroup n a =>
      rmatch a pos s c
        (fun pos' s' c' => k pos' s' ((n, firstn (pos' - pos) s) :: c'))
  | RBol => if (pos =? 0)%nat then k pos s c else None
  | REol => match s with [] => k pos s c | _ => None end
  end.

(** [s.match(r)] without the [g] flag: the leftmost match. *)
Fixpoint rsearchFrom (r : regex) (pos : nat) (s : jsstring) : option capturas :=
  match rmatch r pos s [] (fun _ _ c => Some c) with
  | Some c => Some c
  | None =>
      match s with
      | [] => None
      | _ :: s' => rsearchFrom r (S pos) s'
      end
  end.

Definition strMatch (r : regex) (s : jsstring) : option capturas :=
  rsearchFrom r 0 s.

(** A pattern character under the [i] flag, for the letters of the
    patterns below (Basic Latin and Latin-1). *)
Definition ciChar (p c : jschar) : bool :=
  (upperLatin1Char c =? upperLatin1Char p)%N.

Fixpoint rlitCI (s : jsstring) : regex :=
  match s with
  | [] => REps
  | c :: r => RSeq (RChar (ciChar c)) (rlitCI r)
  end.

Definition rseq (l : list regex) : regex := fold_right RSeq REps l.

Definition ralts (l : list regex) : regex :=
  match l with
  | [] => REps
  | a :: r => fold_left RAlt r a
  end.

Definition notIn (s : jsstring) (c : jschar) : bool := negb (inStr c s).
Definition isAlnum (c : jschar) : bool := isAlpha c || isDigit c.
Definition isAlnumSpace (c : jschar) : bool := isAlnum c || (c =? 32)%N.

(** The outcome of code that may throw: [Lancou] stands for a thrown
    exception (a [TypeError] on a property of [undefined] or [null], a
    rejected store operation). *)
Inductive res (A : Type) :=
| Ok (a : A)
| Lancou.
Arguments Lancou {A}.

(* ================================================================== *)
(** ** Data model *)
(* ================================================================== *)

(** A property that may be absent is an [option]; [truthy] is the
    truthiness of an optional string. *)
Definition truthy (o : option jsstring) : bool :=
  match o with
  | Some (_ :: _) => true
  | _ => false
  end.

(** [o === s]. *)
Definition eqOpt (o : option jsstring) (s : jsstring) : bool :=
  match o with
  | Some x => streq x s
  | None => false
  end.

(** [o || d]. *)
Definition ouPadrao (o : option jsstring) (d : jsstring) : jsstring :=
  match o with
  | Some (c :: r) => c :: r
  | _ => d
  end.

(** The knowledge entries of the classifier's answer. Every field is a
    string or absent ([null], [undefined]): an answer whose JSON holds a
    number, a boolean or an object in one of these fields has no
    counterpart here, and no statement below speaks of it. *)
Record Sujeito := {
  suj_tipo : option jsstring;
  suj_valor : option jsstring;
  suj_categoria : option jsstring }.

Record Predicado := {
  pred_tipo : option jsstring;
  pred_valor : option jsstring }.

Record Objeto := {
  obj_tipo : option jsstring;
  obj_valor : option jsstring }.

Record Contexto := {
  ctx_certeza : option jsstring;
  ctx_fonte : option jsstring;
  ctx_temporalidade : option jsstring }.

Record Entrada := {
  ent_id : option jsstring;
  ent_tipo : option jsstring;
  ent_sujeito : option Sujeito;
  ent_predicado : option Predicado;
  ent_objeto : option Objeto;
  ent_contexto : option Contexto }.

(** [conhecimento]: an absent [armazenar] reads as [false]; the elements
    of [entradas] may be [null]. *)
Record Conhecimento := {
  armazenar : bool;
  entradas : option (list (option Entrada)) }.

Record Taxonomia := {
  tipo_interacao : option jsstring;
  sujeito_principal : option jsstring;
  categoria_conhecimento : option jsstring;
  contexto_aplicacao : option jsstring;
  nivel_certeza : option jsstring }.

(** The JSON object of the classifier's answer. *)
Record RespostaJson := {
  palavras_chave : option (list jsstring);
  resposta : option jsstring;
  classificacao : option jsstring;
  analise_taxonomica : option Taxonomia;
  conhecimento : option Conhecimento }.

(** Facts, as the translator builds them and the store manager receives
    them. *)
Record Relacionamento := {
  rel_tipo : jsstring;
  rel_entidade : jsstring;
  rel_descricao : jsstring }.

Record ContextoFato := {
  cf_certeza : jsstring;
  cf_fonte : jsstring;
  cf_timestamp : jsstring }.

Record Fato := {
  f_tipo : option jsstring;
  f_chave : option jsstring;
  f_entidade : option jsstring;
  f_valor : option jsstring;
  f_conceito : option jsstring;
  f_categoria : option jsstring;
  f_relacionamentos : list Relacionamento;
  f_contexto : option ContextoFato }.

Definition ALTA : jsstring := js "ALTA".
Definition USUARIO : jsstring := js "USUÁRIO".
Definition TERCEIRO : jsstring := js "TERCEIRO".
Definition CONCEITO : jsstring := js "CONCEITO".

Definition tiposPermitidos : list jsstring := map js
  [ "fato_identidade"; "fato_relacao"; "fato_definicao"; "fato_propriedade";
    "fato_entidade" ]%string.

Definition sujeitosPermitidos : list jsstring :=
  [USUARIO; TERCEIRO; CONCEITO].

(** [lista.includes(o)] for a property that may be absent. *)
Definition includesOpt (l : list jsstring) (o : option jsstring) : bool :=
  match o with
  | Some s => includes l s
  | None => false
  end.

(** [entrada.contexto?.certeza]. *)
Definition certezaDe (e : Entrada) : option jsstring :=
  match ent_contexto e with
  | Some c => ctx_certeza c
  | None => None
  end.

(** [/[^\w\s]/i.test(s)]. *)
Definition temSimbolo (s : jsstring) : bool :=
  existsb (fun c => negb (isWord c || isWhite c)) s.

(** [normalizarValor] on a string:
    [valor.trim().replace(/^[^\w]+|[^\w]+$/g, '')]. The first line of the
    source, [if (typeof valor !== 'string') return valor], returns any
    other value as it is; the values of this development are strings. *)
Definition normalizarValor (valor : jsstring) : jsstring :=
  dropWhileEnd (fun c => negb (isWord c))
    (dropWhile (fun c => negb (isWord c)) (trim valor)).

(** [if (x.valor) x.valor = normalizarValor(x.valor)]. *)
Definition normalizarCampo (o : option jsstring) : option jsstring :=
  if truthy o then option_map normalizarValor o else o.

(** The template [`${x}`] of a value that may be [null]. *)
Definition textoDe (o : option jsstring) : jsstring :=
  match o with
  | Some s => s
  | None => js "null"
  end.

(* ================================================================== *)
(** ** The persistent store and the effects of the program *)
(* ================================================================== *)

Definition instante := nat.

(** Documents of the collection [facts]. *)
Record FactDoc := {
  d_tipo : jsstring;
  d_chave : jsstring;
  d_entidade : jsstring;
  d_valor : jsstring;
  d_conceito : option jsstring;
  d_categoria : option jsstring;
  d_relacionamentos : list Relacionamento;
  d_contexto : option ContextoFato;
  d_created_at : instante;
  d_last_updated : instante }.

(** Documents of the collection [responses]. *)
Record RespDoc := {
  r_palavras_chave : option (list jsstring);
  r_resposta : option jsstring;
  r_classificacao : option jsstring;
  r_created_at : instante;
  r_last_updated : instante }.

(** Documents of the collection [entities]. *)
Record EntityDoc := {
  en_nome : jsstring;
  en_tipo : option jsstring;
  en_alias : list jsstring;
  en_last_updated : instante }.

(** The three collections, each in its natural (insertion) order. The
    program deletes no document, and the [_id] of a document is modelled
    by its position in its collection. *)
Record Db := {
  responses : list RespDoc;
  facts : list FactDoc;
  entities : list EntityDoc }.

(** The calls the orchestrator makes, in the order it makes them. *)
Inductive Chamada :=
| ChFindResponseByKeywords (keywords : list jsstring)
| ChGetOpenAIResponse (texto : jsstring)
| ChAnalisarTaxonomia
| ChFindFact
| ChFindRelationalFacts
| ChFindConceptProperties
| ChConstruirRespostaConsulta
| ChTraduzirParaModeloDados
| ChSaveResponse
| ChSaveFact (fato : Fato).

(** The state a message is processed in: the store; [falhas], which tells
    for each operation on the store still to come whether it is rejected
    ([true]; no entry: it is carried out); the lines written by
    [console.error]; the calls made so far. *)
Record Estado := {
  db : Db;
  falhas : list bool;
  consoleError : list jsstring;
  chamadas : list Chamada }.

Definition M (A : Type) := Estado -> res A * Estado.

Definition ret A (a : A) : M A := fun st => (Ok a, st).

Definition lancar A : M A := fun st => (Lancou, st).
Arguments lancar {A}.

Definition bind A B (m : M A) (k : A -> M B) : M B :=
  fun st =>
    match m st with
    | (Ok a, st') => k a st'
    | (Lancou, st') => (Lancou, st')
    end.

Notation "x <- m ;; k" := (bind m (fun x => k))
  (at level 61, m at next level, right associativity).
Notation "m ;;; k" := (bind m (fun _ => k))
  (at level 61, right associativity).

(** [try { m } catch (e) { h }]. *)
Definition tentar A (m : M A) (h : M A) : M A :=
  fun st =>
    match m st with
    | (Ok a, st') => (Ok a, st')
    | (Lancou, st') => h st'
    end.

Definition consoleErro (linha : jsstring) : M unit :=
  fun st =>
    (Ok tt, {| db := db st; falhas := falhas st;
               consoleError := consoleError st ++ [linha];
               chamadas := chamadas st |}).

Definition registrar (c : Chamada) : M unit :=
  fun st =>
    (Ok tt, {| db := db st; falhas := falhas st;
               consoleError := consoleError st;
               chamadas := chamadas st ++ [c] |}).

(** One operation of the driver on the store. *)
Definition operacao A (f : Db -> A * Db) : M A :=
  fun st =>
    let resto := tl (falhas st) in
    match falhas st with
    | true :: _ =>
        (Lancou, {| db := db st; falhas := resto;
                    consoleError := consoleError st;
                    chamadas := chamadas st |})
    | _ =>
        let (a, d) := f (db st) in
        (Ok a, {| db := d; falhas := resto;
                  consoleError := consoleError st;
                  chamadas := chamadas st |})
    end.

Definition indexar A (l : list A) : list (nat * A) :=
  combine (seq 0 (length l)) l.

(** [collection.updateOne({ _id }, { $set })]. *)
Fixpoint alterar A (n : nat) (f : A -> A) (l : list A) : list A :=
  match l, n with
  | [], _ => []
  | x :: r, O => f x :: r
  | x :: r, S k => x :: alterar k f r
  end.

(** [collection.findOne(query)]. *)
Fixpoint primeiro A (p : A -> bool) (l : list (nat * A)) : option (nat * A) :=
  match l with
  | [] => None
  | (i, x) :: r => if p x then Some (i, x) else primeiro p r
  end.

(** The query [{ tipo, chave, entidade }], with [conceito] where the store
    manager adds it. *)
Record ConsultaFato := {
  q_tipo : jsstring;
  q_chave : jsstring;
  q_entidade : jsstring;
  q_conceito : option jsstring }.

Definition casaFato (q : ConsultaFato) (d : FactDoc) : bool :=
  streq (d_tipo d) (q_tipo q) && streq (d_chave d) (q_chave q)
  && streq (d_entidade d) (q_entidade q)
  && match q_conceito q with
     | None => true
     | Some c => eqOpt (d_conceito d) c
     end.

(** What [saveResponse], [saveFact] return: [{ success: true, updated }]
    or [{ success: false, error }]. *)
Inductive ResultadoGravacao :=
| Gravado (updated : bool)
| NaoGravado.

(** What the finders of facts return: [{ success: true, fact }],
    [{ success: true, facts }] or [{ success: false, ... }]. *)
Inductive ResultadoBusca :=
| BuscaFato (fact : FactDoc)
| BuscaFatos (facts : list FactDoc)
| BuscaFalha.

(** [Math.ceil(n * 0.6)]; in double precision the product stays on the
    right side of every integer for [n <= 10], the only lengths the cache
    computes it for. *)
Definition ceil06 (n : nat) : nat := (3 * n + 4) / 5.

(** The query [{ palavras_chave: { $in: searchKeywords } }]. *)
Definition casaPalavras (searchKeywords : list jsstring) (r : RespDoc) : bool :=
  match r_palavras_chave r with
  | Some kws => existsb (includes searchKeywords) kws
  | None => false
  end.

(** [response.palavras_chave.filter(kw => searchKeywords.includes(kw)).length]. *)
Definition matchCount (searchKeywords : list jsstring) (r : RespDoc) : nat :=
  match r_palavras_chave r with
  | Some kws => length (filter (includes searchKeywords) kws)
  | None => 0
  end.

(** The comparison a case-insensitive [$regex] [^v$] makes, for a [v]
    without metacharacters. *)
Fixpoint igualCI (v s : jsstring) : bool :=
  match v, s with
  | [], [] => true
  | p :: v', c :: s' => ciChar p c && igualCI v' s'
  | _, _ => false
  end.

(* ================================================================== *)
(** ** Messages, the classifier service and queries *)
(* ================================================================== *)

Record SenderInfo := {
  si_id : option jsstring;
  si_name : option jsstring;
  si_isGroup : bool }.

(** What the request to the language-model service comes back with: the
    request fails, the content is no JSON text, or it parses to an
    object. *)
Inductive RespostaApi :=
| ApiErro
| ApiNaoJson
| ApiJson (jsonData : RespostaJson).

(** [{ success: true, data }] or [{ success: false, error }]. *)
Inductive ResultadoOpenAI :=
| Sucesso (data : RespostaJson)
| Falha.

(** [consulta]: [{ tipo, alvo, parametros: { entidade, valor, propriedade } }]. *)
Record Consulta := {
  c_tipo : jsstring;
  c_alvo : jsstring;
  cp_entidade : option jsstring;
  cp_valor : option jsstring;
  cp_propriedade : option jsstring }.

Record CorpoMensagem := {
  conversation : option jsstring;
  extendedText : option jsstring;
  imageCaption : option jsstring }.

Record Mensagem := {
  m_remoteJid : jsstring;
  m_participant : option jsstring;
  m_pushName : option jsstring;
  m_message : option CorpoMensagem }.

(** [/meu nome (?:é|e|seria) ([^.,]+)/i]. *)
Definition reMeuNome : regex :=
  rseq [ rlitCI (js "meu nome ");
         ralts [ rlitCI (js "é"); rlitCI (js "e"); rlitCI (js "seria") ];
         rlitCI (js " ");
         RGroup 1 (RPlus (notIn (js ".,"))) ].

(** [/([^ ]+) significa ([^.]+)/i]. *)
Definition reSignifica : regex :=
  rseq [ RGroup 1 (RPlus (notIn (js " ")));
         rlitCI (js " significa ");
         RGroup 2 (RPlus (notIn (js "."))) ].

(** [/^[^:]+ é [^:]+$/i]. *)
Definition reXeY : regex :=
  rseq [ RBol; RPlus (notIn (js ":")); rlitCI (js " é ");
         RPlus (notIn (js ":")); REol ].

(** [/(?:quem é|sobre) ([a-zA-Z]+)/i]. *)
Definition reTerceiro : regex :=
  rseq [ ralts [ rlitCI (js "quem é"); rlitCI (js "sobre") ];
         rlitCI (js " ");
         RGroup 1 (RPlus isAlpha) ].

(** [/(?:o que é|significa|significado de) ([a-zA-Z0-9]+)/i]. *)
Definition reConceitoDefinicao : regex :=
  rseq [ ralts [ rlitCI (js "o que é"); rlitCI (js "significa");
                 rlitCI (js "significado de") ];
         rlitCI (js " ");
         RGroup 1 (RPlus isAlnum) ].

(** [/(?:quais|que|quem) (?:s[ãa]o )?(?:as? |os? )?([a-zA-Z]+)(?:s)? (?:da |do |de |)([a-zA-Z0-9 ]+)\??/i]. *)
Definition reConceitoPropriedade : regex :=
  rseq [ ralts [ rlitCI (js "quais"); rlitCI (js "que"); rlitCI (js "quem") ];
         rlitCI (js " ");
         ROpt (rseq [ rlitCI (js "s");
                      RChar (fun c => ciChar 227%N c || ciChar 97%N c);
                      rlitCI (js "o ") ]);
         ROpt (RAlt (rseq [ rlitCI (js "a"); ROpt (rlitCI (js "s"));
                            rlitCI (js " ") ])
                    (rseq [ rlitCI (js "o"); ROpt (rlitCI (js "s"));
                            rlitCI (js " ") ]));
         RGroup 1 (RPlus isAlpha);
         ROpt (rlitCI (js "s"));
         rlitCI (js " ");
         ralts [ rlitCI (js "da "); rlitCI (js "do "); rlitCI (js "de "); REps ];
         RGroup 2 (RPlus isAlnumSpace);
         ROpt (RChar (fun c => (c =? 63)%N)) ].

(** [/([a-zA-Z0-9 ]+)(?:\s+tem\s+|\s+possui\s+)(?:quais|que)?\s+([a-zA-Z]+)/i]. *)
Definition reConceitoSimples : regex :=
  rseq [ RGroup 1 (RPlus isAlnumSpace);
         RAlt (rseq [ RPlus isWhite; rlitCI (js "tem"); RPlus isWhite ])
              (rseq [ RPlus isWhite; rlitCI (js "possui"); RPlus isWhite ]);
         ROpt (RAlt (rlitCI (js "quais")) (rlitCI (js "que")));
         RPlus isWhite;
         RGroup 2 (RPlus isAlpha) ].

(** [l.join(sep)]. *)
Fixpoint joinStr (sep : jsstring) (l : list jsstring) : jsstring :=
  match l with
  | [] => []
  | [x] => x
  | x :: r => x ++ sep ++ joinStr sep r
  end.

(** The template [`${x}`] of a value that may be [undefined]. *)
Definition textoUndef (o : option jsstring) : jsstring :=
  match o with
  | Some s => s
  | None => js "undefined"
  end.

Definition LF : jsstring := [10%N].

Section Marvin.

(** [String.prototype.toLowerCase] and [toUpperCase]: the Unicode case
    mappings are parameters of the development. *)
Variable toLowerCase : jsstring -> jsstring.
Variable toUpperCase : jsstring -> jsstring.

(** [text.toLowerCase().replace(...).replace(...)]. *)
Definition normalizarTexto (text : jsstring) : jsstring :=
  colapsarEspacos (removerPontuacao (toLowerCase text)).

(** [words.filter(word => word.length > 2 && !STOP_WORDS.includes(word))]. *)
Definition palavraUtil (word : jsstring) : bool :=
  (2 <? length word)%nat && negb (includes STOP_WORDS word).

Definition filteredWords (text : jsstring) : list jsstring :=
  filter palavraUtil (split (js " ") (normalizarTexto text)).

Definition wordFrequency (text : jsstring) : objfreq :=
  fold_left contarPalavra (filteredWords text) [].

Definition extractKeywords (text : jsval) (maxKeywords : nat)
    : list jsstring :=
  match text with
  | JStr [] => []
  | JStr s =>
      let o := wordFrequency s in
      firstn maxKeywords (arraySort (compararFrequencia o) (objectKeys o))
  | _ => []
  end.

(* ------------------------------------------------------------------ *)
(** *** Fact translator ([traduzirParaModeloDados]) *)

(** [a === b] on two properties that may be absent. *)
Definition eqOptOpt (a b : option jsstring) : bool :=
  match a, b with
  | Some x, Some y => streq x y
  | None, None => true
  | _, _ => false
  end.

(** The first [switch (entrada.tipo)]: the checks of each kind of entry;
    [false] stands for its [continue]. *)
Definition validarPorTipo (tipo : jsstring) (suj : Sujeito) (pred : Predicado)
    (obj : option Objeto) : bool :=
  if streq tipo (js "fato_identidade") then
    if negb (truthy (suj_valor suj)) || negb (truthy (pred_valor pred))
    then false
    else negb (match pred_valor pred with
               | Some v => temSimbolo v
               | None => false
               end)
  else if streq tipo (js "fato_relacao") then
    match obj with
    | None => false
    | Some o =>
        if negb (truthy (suj_valor suj)) || negb (truthy (pred_valor pred))
           || negb (truthy (obj_valor o))
        then false
        else negb (eqOptOpt (suj_tipo suj) (obj_tipo o)
                   && eqOptOpt (suj_valor suj) (obj_valor o))
    end
  else if streq tipo (js "fato_definicao") then
    if negb (truthy (suj_valor suj)) || negb (truthy (pred_valor pred))
    then false
    else negb (match pred_valor pred with
               | Some v => (length v <? 5)%nat
               | None => false
               end)
  else if streq tipo (js "fato_propriedade") then
    if negb (truthy (suj_valor suj)) || negb (truthy (pred_valor pred))
    then false
    else negb (negb (truthy (pred_tipo pred))
               || match pred_tipo pred with
                  | Some t => (length t <? 2)%nat
                  | None => false
                  end)
  else if streq tipo (js "fato_entidade") then
    negb (negb (truthy (suj_valor suj)) || negb (truthy (pred_valor pred)))
  else true.

(** The normalisation the translator writes back into the entry. *)
Definition normalizarSujeito (suj : Sujeito) : Sujeito :=
  {| suj_tipo := suj_tipo suj;
     suj_valor := normalizarCampo (suj_valor suj);
     suj_categoria := suj_categoria suj |}.

Definition normalizarPredicado (pred : Predicado) : Predicado :=
  {| pred_tipo := pred_tipo pred;
     pred_valor := normalizarCampo (pred_valor pred) |}.

Definition normalizarObjeto (obj : Objeto) : Objeto :=
  {| obj_tipo := obj_tipo obj;
     obj_valor := normalizarCampo (obj_valor obj) |}.

(** [x.toLowerCase()] and [x.toLowerCase().trim()] of a property. *)
Definition minusculas (o : option jsstring) : option jsstring :=
  option_map toLowerCase o.

Definition minusculasTrim (o : option jsstring) : option jsstring :=
  option_map (fun s => trim (toLowerCase s)) o.

(** [`${chave} de ${entrada.sujeito.valor}`]. *)
Definition descricaoDe (chave : jsstring) (suj : Sujeito) : jsstring :=
  chave ++ js " de " ++ textoDe (suj_valor suj).

Definition contextoBase (fonte : option jsstring) (agora : jsstring)
    : ContextoFato :=
  {| cf_certeza := ALTA;
     cf_fonte := ouPadrao fonte (js "api");
     cf_timestamp := agora |}.

(** The second [switch (entrada.tipo)]: the fact of an entry whose values
    are normalised; [None] stands for the [continue] of its [default]. *)
Definition mapearEntrada (idUsuario : jsstring) (ctx : ContextoFato)
    (tipo : jsstring) (suj : Sujeito) (pred : Predicado) (obj : option Objeto)
    : option Fato :=
  let entidadeSujeito :=
    if eqOpt (suj_tipo suj) USUARIO then Some idUsuario
    else minusculas (suj_valor suj) in
  if streq tipo (js "fato_identidade") then
    Some {| f_tipo := Some (js "nome");
            f_chave := Some (js "nome");
            f_entidade := entidadeSujeito;
            f_valor := pred_valor pred;
            f_conceito := None;
            f_categoria := None;
            f_relacionamentos := [];
            f_contexto := Some ctx |}
  else if streq tipo (js "fato_relacao") then
    let chave := ouPadrao (pred_tipo pred) (js "relacao_generica") in
    match obj with
    | Some o =>
        Some {| f_tipo := Some (js "relacao");
                f_chave := Some chave;
                f_entidade := entidadeSujeito;
                f_valor := obj_valor o;
                f_conceito := None;
                f_categoria := None;
                f_relacionamentos :=
                  [ {| rel_tipo := chave;
                       rel_entidade := toLowerCase (textoDe (obj_valor o));
                       rel_descricao := descricaoDe chave suj |} ];
                f_contexto := Some ctx |}
    | None => None
    end
  else if streq tipo (js "fato_definicao") then
    Some {| f_tipo := Some (js "definicao");
            f_chave := minusculasTrim (suj_valor suj);
            f_entidade := Some (js "geral");
            f_valor := pred_valor pred;
            f_conceito := None;
            f_categoria := None;
            f_relacionamentos := [];
            f_contexto := Some ctx |}
  else if streq tipo (js "fato_propriedade") then
    let chave := ouPadrao (pred_tipo pred) (js "caracteristica") in
    let conceito := eqOpt (suj_tipo suj) CONCEITO in
    Some {| f_tipo := Some (js "propriedade");
            f_chave := Some chave;
            f_entidade :=
              if eqOpt (suj_tipo suj) USUARIO then Some idUsuario
              else if conceito then Some (js "geral")
              else minusculasTrim (suj_valor suj);
            f_valor := pred_valor pred;
            f_conceito :=
              if eqOpt (suj_tipo suj) USUARIO then None
              else if conceito then minusculasTrim (suj_valor suj)
              else None;
            f_categoria := None;
            f_relacionamentos :=
              if conceito then
                [ {| rel_tipo := js "propriedade_de";
                     rel_entidade := trim (toLowerCase (textoDe (suj_valor suj)));
                     rel_descricao := descricaoDe chave suj |} ]
              else [];
            f_contexto := Some ctx |}
  else if streq tipo (js "fato_entidade") then
    Some {| f_tipo := Some (js "entidade");
            f_chave := Some (ouPadrao (pred_tipo pred) (js "caracteristica"));
            f_entidade := minusculasTrim (suj_valor suj);
            f_valor := pred_valor pred;
            f_conceito := None;
            f_categoria :=
              Some (ouPadrao (suj_categoria suj) (js "organizacao"));
            f_relacionamentos := [];
            f_contexto := Some ctx |}
  else None.

(** [fato.valor.substring(0, 500) + '...'] beyond 500 code units. *)
Definition truncarValor (v : jsstring) : jsstring :=
  if (500 <? length v)%nat then substring 0 500 v ++ js "..." else v.

(** The last checks of the loop body and the normalisation of key and
    value; [None] stands for [continue]. The source trims, tests and
    truncates the value under [if (typeof fato.valor === 'string')]; a
    value here is a string, so that the test holds whenever the value is
    present, and a value of another type, which the source pushes as it
    is, does not arise. *)
Definition finalizarFato (fato : Fato) : option Fato :=
  if negb (truthy (f_tipo fato)) || negb (truthy (f_chave fato))
     || negb (truthy (f_entidade fato)) || negb (truthy (f_valor fato))
  then None
  else
    match f_valor fato with
    | Some v =>
        let v1 := trim v in
        if (length v1 =? 0)%nat then None
        else
          Some {| f_tipo := f_tipo fato;
                  f_chave := minusculasTrim (f_chave fato);
                  f_entidade := f_entidade fato;
                  f_valor := Some (truncarValor v1);
                  f_conceito := f_conceito fato;
                  f_categoria := f_categoria fato;
                  f_relacionamentos := f_relacionamentos fato;
                  f_contexto := f_contexto fato |}
    | None => None
    end.

(** The body of the loop over [conhecimento.entradas], up to the second
    [switch]: the fact as mapped from an entry that passed the checks,
    [None] where the entry is passed over. [agora] is the reading of the
    clock. *)
Definition fatoMapeado (idUsuario agora : jsstring)
    (entrada : option Entrada) : option Fato :=
  match entrada with
  | None => None
  | Some e =>
      match ent_tipo e, ent_sujeito e, ent_predicado e with
      | Some (c :: t), Some suj, Some pred =>
          let tipo := c :: t in
          if negb (eqOpt (certezaDe e) ALTA) then None
          else if negb (includes tiposPermitidos tipo) then None
          else if negb (includesOpt sujeitosPermitidos (suj_tipo suj)) then None
          else if negb (validarPorTipo tipo suj pred (ent_objeto e)) then None
          else
            let ctx :=
              contextoBase
                (match ent_contexto e with
                 | Some c => ctx_fonte c
                 | None => None
                 end) agora in
            mapearEntrada idUsuario ctx tipo
              (normalizarSujeito suj) (normalizarPredicado pred)
              (option_map normalizarObjeto (ent_objeto e))
      | _, _, _ => None
      end
  end.

(** The whole body of the loop: the fact pushed for one entry. *)
Definition traduzirEntrada (idUsuario agora : jsstring)
    (entrada : option Entrada) : option Fato :=
  match fatoMapeado idUsuario agora entrada with
  | Some fato => finalizarFato fato
  | None => None
  end.

Fixpoint coletar A B (f : A -> option B) (l : list A) : list B :=
  match l with
  | [] => []
  | x :: r =>
      match f x with
      | Some y => y :: coletar f r
      | None => coletar f r
      end
  end.

(** [`${fato.tipo}|${fato.chave}|${fato.entidade}`]. *)
Definition chaveUnica (fato : Fato) : jsstring :=
  textoDe (f_tipo fato) ++ js "|" ++ textoDe (f_chave fato) ++ js "|"
  ++ textoDe (f_entidade fato).

(** The last loop: [chavesProcessadas] is the set of keys seen. *)
Fixpoint removerDuplicatas (fatos : list Fato)
    (chavesProcessadas : list jsstring) : list Fato :=
  match fatos with
  | [] => []
  | fato :: r =>
      if includes chavesProcessadas (chaveUnica fato)
      then removerDuplicatas r chavesProcessadas
      else fato :: removerDuplicatas r (chaveUnica fato :: chavesProcessadas)
  end.

Definition traduzirParaModeloDados (conhecimento : option Conhecimento)
    (idUsuario agora : jsstring) : res (list Fato) :=
  match conhecimento with
  | None => Lancou
  | Some k =>
      if negb (armazenar k) then Ok []
      else
        match entradas k with
        | None => Ok []
        | Some [] => Ok []
        | Some es =>
            Ok (removerDuplicatas
                  (coletar (traduzirEntrada idUsuario agora) es) [])
        end
  end.

(* ------------------------------------------------------------------ *)
(** *** Response cache and fact store manager ([ResponseModel]) *)

Variable toISOString : instante -> jsstring.

Definition findResponseByKeywords (keywords : option (list jsstring))
    : M (option (nat * RespDoc)) :=
  tentar
    (match keywords with
     | None => lancar
     | Some kws =>
         let searchKeywords := firstn (Nat.min (length kws) 10) kws in
         let minKeywordsMatch := ceil06 (length searchKeywords) in
         found <- operacao (fun d =>
                    (filter (fun ir => casaPalavras searchKeywords (snd ir))
                            (indexar (responses d)), d)) ;;
         match filter (fun ir =>
                         (minKeywordsMatch <=? matchCount searchKeywords (snd ir))%nat)
                      found with
         | r :: _ => ret (Some r)
         | [] => ret None
         end
     end)
    (consoleErro (js "Erro ao buscar resposta por palavras-chave:") ;;;
     ret None).

Record ResponseData := {
  rd_palavras_chave : option (list jsstring);
  rd_resposta : option jsstring;
  rd_classificacao : option jsstring }.

Definition saveResponse (responseData : ResponseData) (agora : instante)
    : M ResultadoGravacao :=
  tentar
    (existing <- findResponseByKeywords (rd_palavras_chave responseData) ;;
     match existing with
     | Some (id, _) =>
         operacao (fun d =>
           (tt, {| responses :=
                     alterar id (fun r =>
                       {| r_palavras_chave := r_palavras_chave r;
                          r_resposta := rd_resposta responseData;
                          r_classificacao := rd_classificacao responseData;
                          r_created_at := r_created_at r;
                          r_last_updated := agora |}) (responses d);
                   facts := facts d;
                   entities := entities d |})) ;;;
         ret (Gravado true)
     | None =>
         operacao (fun d =>
           (tt, {| responses :=
                     responses d ++
                     [ {| r_palavras_chave := rd_palavras_chave responseData;
                          r_resposta := rd_resposta responseData;
                          r_classificacao := rd_classificacao responseData;
                          r_created_at := agora;
                          r_last_updated := agora |} ];
                   facts := facts d;
                   entities := entities d |})) ;;;
         ret (Gravado false)
     end)
    (consoleErro (js "Erro ao salvar resposta:") ;;; ret NaoGravado).

(** [x.toLowerCase().trim()], the normalisation of the key fields. *)
Definition normalizarChave (x : jsstring) : jsstring := trim (toLowerCase x).

(** The query [saveFact] looks the fact up with. *)
Definition consultaDe (tipo chave entidade : jsstring)
    (conceito : option jsstring) : ConsultaFato :=
  {| q_tipo := normalizarChave tipo;
     q_chave := normalizarChave chave;
     q_entidade := normalizarChave entidade;
     q_conceito :=
       if streq (normalizarChave tipo) (js "propriedade") && truthy conceito
       then conceito else None |}.

Definition normalizarRelacionamento (rel : Relacionamento) : Relacionamento :=
  {| rel_tipo := rel_tipo rel;
     rel_entidade := normalizarChave (rel_entidade rel);
     rel_descricao := rel_descricao rel |}.

(** [updateData], the document of [$set]: what it writes into the record
    found; the names of its fields are [camposDeUpdateData] below. *)
Definition atualizarDoc (factData : Fato) (valor : jsstring) (agora : instante)
    (d : FactDoc) : FactDoc :=
  {| d_tipo := d_tipo d;
     d_chave := d_chave d;
     d_entidade := d_entidade d;
     d_valor := valor;
     d_conceito := d_conceito d;
     d_categoria := d_categoria d;
     d_relacionamentos :=
       match f_relacionamentos factData with
       | [] => d_relacionamentos d
       | rels => map normalizarRelacionamento rels
       end;
     d_contexto :=
       match f_contexto factData with
       | Some c =>
           Some {| cf_certeza := ALTA;
                   cf_fonte := cf_fonte c;
                   cf_timestamp :=
                     match cf_timestamp c with
                     | [] => toISOString agora
                     | t => t
                     end |}
       | None => d_contexto d
       end;
     d_created_at := d_created_at d;
     d_last_updated := agora |}.

(** [{ ...normalizedFact, created_at: now, last_updated: now }]. *)
Definition novoDoc (factData : Fato) (q : ConsultaFato) (valor : jsstring)
    (agora : instante) : FactDoc :=
  {| d_tipo := q_tipo q;
     d_chave := q_chave q;
     d_entidade := q_entidade q;
     d_valor := valor;
     d_conceito := f_conceito factData;
     d_categoria := f_categoria factData;
     d_relacionamentos := f_relacionamentos factData;
     d_contexto := f_contexto factData;
     d_created_at := agora;
     d_last_updated := agora |}.

Definition comFatos (d : Db) (l : list FactDoc) : Db :=
  {| responses := responses d; facts := l; entities := entities d |}.

(** The four essential fields, where none of them is falsy. *)
Definition camposEssenciais (factData : Fato)
    : option (jsstring * jsstring * jsstring * jsstring) :=
  match f_tipo factData, f_chave factData, f_entidade factData,
        f_valor factData with
  | Some (t0 :: t), Some (c0 :: c), Some (e0 :: e), Some (v0 :: v) =>
      Some (t0 :: t, c0 :: c, e0 :: e, v0 :: v)
  | _, _, _, _ => None
  end.

(** The names of the fields of [updateData]: [valor] and [last_updated],
    and [relacionamentos] and [contexto] where the fact has them. *)
Definition camposDeUpdateData (factData : Fato) : list jsstring :=
  [js "valor"; js "last_updated"]
  ++ match f_relacionamentos factData with
     | [] => []
     | _ => [js "relacionamentos"]
     end
  ++ match f_contexto factData with
     | Some _ => [js "contexto"]
     | None => []
     end.

(** The update [{ $set: ..., $currentDate: ... }]: the fields each of the
    two operators names, and what the update writes into a record. *)
Record Atualizacao := {
  u_set : list jsstring;
  u_currentDate : list jsstring;
  u_escrever : FactDoc -> FactDoc }.

(** An operation that the store rejects whatever the connection is like:
    the driver throws and the store is as it was. *)
Definition operacaoRejeitada A : M A :=
  fun st =>
    (Lancou, {| db := db st; falhas := tl (falhas st);
                consoleError := consoleError st;
                chamadas := chamadas st |}).
Arguments operacaoRejeitada {A}.

(** [factsCollection.updateOne({ _id }, update)]. The server rejects an
    update in which two operators name one field ("Updating the path
    would create a conflict"): nothing is written and the driver throws. *)
Definition updateOne (id : nat) (u : Atualizacao) : M unit :=
  if existsb (includes (u_currentDate u)) (u_set u)
  then operacaoRejeitada
  else operacao (fun d =>
         (tt, comFatos d (alterar id (u_escrever u) (facts d)))).

(** The update of the record found is
    [{ $set: updateData, $currentDate: { last_updated: true } }]. *)
Definition saveFact (factData : Fato) (agora : instante)
    : M ResultadoGravacao :=
  tentar
    (match camposEssenciais factData with
     | Some (tipo, chave, entidade, valor) =>
         let query := consultaDe tipo chave entidade (f_conceito factData) in
         existingFact <- operacao (fun d =>
                           (primeiro (casaFato query) (indexar (facts d)), d)) ;;
         match existingFact with
         | Some (id, _) =>
             updateOne id
               {| u_set := camposDeUpdateData factData;
                  u_currentDate := [js "last_updated"];
                  u_escrever := atualizarDoc factData valor agora |} ;;;
             ret (Gravado true)
         | None =>
             operacao (fun d =>
               (tt, comFatos d
                      (facts d ++ [novoDoc factData query valor agora]))) ;;;
             ret (Gravado false)
         end
     | None =>
         consoleErro (js "Dado incompleto. Todos os campos essenciais devem estar presentes:") ;;;
         ret NaoGravado
     end)
    (consoleErro (js "Erro ao salvar fato:") ;;; ret NaoGravado).

Definition findFact (tipo chave entidade : jsstring) : M ResultadoBusca :=
  tentar
    (fact <- operacao (fun d =>
               (primeiro
                  (casaFato {| q_tipo := tipo; q_chave := chave;
                               q_entidade := entidade; q_conceito := None |})
                  (indexar (facts d)), d)) ;;
     match fact with
     | Some (_, f) => ret (BuscaFato f)
     | None => ret BuscaFalha
     end)
    (consoleErro (js "Erro ao buscar fato:") ;;; ret BuscaFalha).

Definition findRelationalFacts (tipo entidade : jsstring)
    (valor : option jsstring) : M ResultadoBusca :=
  tentar
    (found <- operacao (fun d =>
                (filter (fun f =>
                   streq (d_tipo f) tipo && streq (d_entidade f) entidade
                   && match valor with
                      | Some (c :: r) =>
                          let valorLowerCase := toLowerCase (c :: r) in
                          igualCI valorLowerCase (d_valor f)
                          || existsb (fun rel =>
                                        streq (rel_entidade rel) valorLowerCase)
                                     (d_relacionamentos f)
                      | _ => true
                      end) (facts d), d)) ;;
     match found with
     | [] => ret BuscaFalha
     | _ => ret (BuscaFatos found)
     end)
    (consoleErro (js "Erro ao buscar fatos relacionais:") ;;; ret BuscaFalha).

Definition findConceptProperties (conceito : jsstring) : M ResultadoBusca :=
  tentar
    (let conceitoLowerCase := toLowerCase conceito in
     found <- operacao (fun d =>
                (filter (fun f =>
                   streq (d_tipo f) (js "entidade")
                   && streq (d_entidade f) conceitoLowerCase
                   || streq (d_tipo f) (js "propriedade")
                      && streq (d_entidade f) (js "geral")
                      && eqOpt (d_conceito f) conceitoLowerCase
                   || existsb (fun rel =>
                                 streq (rel_tipo rel) (js "propriedade_de"))
                              (d_relacionamentos f)
                      && existsb (fun rel =>
                                    streq (rel_entidade rel) conceitoLowerCase)
                                 (d_relacionamentos f))
                   (facts d), d)) ;;
     match found with
     | [] =>
         definicao <- findFact (js "definicao") conceitoLowerCase (js "geral") ;;
         match definicao with
         | BuscaFato f => ret (BuscaFatos [f])
         | _ => ret BuscaFalha
         end
     | _ => ret (BuscaFatos found)
     end)
    (consoleErro (js "Erro ao buscar propriedades do conceito:") ;;;
     ret BuscaFalha).

(* ------------------------------------------------------------------ *)
(** *** Classifier adapter ([getOpenAIResponse]) *)

Definition entradaManual (tipo : jsstring) (sujeito : Sujeito)
    (predicado : Predicado) : Entrada :=
  {| ent_id := Some (js "entrada_manual");
     ent_tipo := Some tipo;
     ent_sujeito := Some sujeito;
     ent_predicado := Some predicado;
     ent_objeto := None;
     ent_contexto :=
       Some {| ctx_certeza := Some ALTA;
               ctx_fonte := Some (js "declaração_direta");
               ctx_temporalidade := Some (js "atual") |} |}.

Definition sujeitoDe (tipo : jsstring) (valor : option jsstring) : Sujeito :=
  {| suj_tipo := Some tipo; suj_valor := valor; suj_categoria := None |}.

Definition predicadoDe (tipo valor : jsstring) : Predicado :=
  {| pred_tipo := Some tipo; pred_valor := Some valor |}.

(** The entry built from the text of the command when the model returned
    none; [Lancou] where the source reads a property of [null] or
    [undefined]. *)
Definition extrairConhecimentoBasico (userMessage : jsstring)
    (senderInfo : option SenderInfo) : res Entrada :=
  let conteudoAprendizado := trim (skipn 10 userMessage) in
  if strIncludes (js "meu nome") (toLowerCase conteudoAprendizado) then
    match senderInfo with
    | None => Lancou
    | Some si =>
        let nomeMatch := strMatch reMeuNome conteudoAprendizado in
        Ok (entradaManual (js "fato_identidade")
              (sujeitoDe USUARIO (si_id si))
              (predicadoDe (js "nome")
                 match nomeMatch with
                 | Some c => trim (textoUndef (captura 1 c))
                 | None => conteudoAprendizado
                 end))
    end
  else if strIncludes (js " significa ") (toLowerCase conteudoAprendizado) then
    match strMatch reSignifica conteudoAprendizado with
    | Some c =>
        Ok (entradaManual (js "fato_definicao")
              (sujeitoDe CONCEITO (Some (trim (textoUndef (captura 1 c)))))
              (predicadoDe (js "significado")
                 (trim (textoUndef (captura 2 c)))))
    | None =>
        let partes := split (js " significa ") conteudoAprendizado in
        Ok (entradaManual (js "fato_definicao")
              (sujeitoDe CONCEITO (Some (trim (hd [] partes))))
              (predicadoDe (js "significado")
                 match nth_error partes 1 with
                 | Some (c :: r) => trim (c :: r)
                 | _ => []
                 end))
    end
  else
    match strMatch reXeY conteudoAprendizado with
    | Some _ =>
        let partes := split (js " é ") conteudoAprendizado in
        let partes0 := hd [] partes in
        if startsWith (js "meu ") (toLowerCase partes0) then
          match senderInfo, nth_error partes 1 with
          | Some si, Some partes1 =>
              Ok (entradaManual (js "fato_propriedade")
                    (sujeitoDe USUARIO (si_id si))
                    (predicadoDe (toLowerCase (trim (skipn 4 partes0)))
                                 (trim partes1)))
          | _, _ => Lancou
          end
        else
          match nth_error partes 1 with
          | Some partes1 =>
              Ok (entradaManual (js "fato_definicao")
                    (sujeitoDe CONCEITO (Some (trim partes0)))
                    (predicadoDe (js "definicao") (trim partes1)))
          | None => Lancou
          end
    | None =>
        Ok (entradaManual (js "fato_definicao")
              (sujeitoDe CONCEITO (Some (js "termo")))
              (predicadoDe (js "definicao") conteudoAprendizado))
    end.

(** [if (!entrada.contexto) entrada.contexto = {};
     entrada.contexto.certeza = 'ALTA']. *)
Definition forcarCerteza (entrada : Entrada) : Entrada :=
  {| ent_id := ent_id entrada;
     ent_tipo := ent_tipo entrada;
     ent_sujeito := ent_sujeito entrada;
     ent_predicado := ent_predicado entrada;
     ent_objeto := ent_objeto entrada;
     ent_contexto :=
       Some match ent_contexto entrada with
            | Some c =>
                {| ctx_certeza := Some ALTA;
                   ctx_fonte := ctx_fonte c;
                   ctx_temporalidade := ctx_temporalidade c |}
            | None =>
                {| ctx_certeza := Some ALTA;
                   ctx_fonte := None;
                   ctx_temporalidade := None |}
            end |}.

(** [entradas.forEach(...)]: a [null] element throws. *)
Fixpoint forcarEntradas (l : list (option Entrada))
    : res (list (option Entrada)) :=
  match l with
  | [] => Ok []
  | None :: _ => Lancou
  | Some e :: r =>
      match forcarEntradas r with
      | Ok r' => Ok (Some (forcarCerteza e) :: r')
      | Lancou => Lancou
      end
  end.

Definition comConhecimento (jsonData : RespostaJson) (k : Conhecimento)
    : RespostaJson :=
  {| palavras_chave := palavras_chave jsonData;
     resposta := resposta jsonData;
     classificacao := classificacao jsonData;
     analise_taxonomica := analise_taxonomica jsonData;
     conhecimento := Some k |}.

(** The entries the model returned, where there are any: [None] is
    [!jsonData.conhecimento || !jsonData.conhecimento.entradas ||
     jsonData.conhecimento.entradas.length === 0]. *)
Definition entradasRecebidas (jsonData : RespostaJson)
    : option (list (option Entrada)) :=
  match conhecimento jsonData with
  | Some k =>
      match entradas k with
      | Some (e :: r) => Some (e :: r)
      | _ => None
      end
  | None => None
  end.

(** [api] is what the request made with the prompt comes back with. *)
Definition getOpenAIResponse (userMessage : jsstring)
    (senderInfo : option SenderInfo) (api : RespostaApi) : ResultadoOpenAI :=
  let isLearningCommand := startsWith (js "/aprender ") userMessage in
  match api with
  | ApiErro => Falha
  | ApiNaoJson => Falha
  | ApiJson jsonData =>
      match palavras_chave jsonData, analise_taxonomica jsonData with
      | Some _, Some _ =>
          if negb (truthy (resposta jsonData))
             || negb (truthy (classificacao jsonData))
          then Falha
          else if isLearningCommand then
            match entradasRecebidas jsonData with
            | None =>
                match extrairConhecimentoBasico userMessage senderInfo with
                | Ok entrada =>
                    Sucesso (comConhecimento jsonData
                               {| armazenar := true;
                                  entradas := Some [Some entrada] |})
                | Lancou => Falha
                end
            | Some es =>
                match forcarEntradas es with
                | Ok es' =>
                    Sucesso (comConhecimento jsonData
                               {| armazenar := true; entradas := Some es' |})
                | Lancou => Falha
                end
            end
          else Sucesso jsonData
      | _, _ => Falha
      end
  end.

(* ------------------------------------------------------------------ *)
(** *** Query analyser ([analisarTaxonomia]) *)

Definition tipoConsulta (categoria : option jsstring) : option jsstring :=
  if eqOpt categoria (js "IDENTIDADE") then Some (js "identidade")
  else if eqOpt categoria (js "RELAÇÃO") then Some (js "relacao")
  else if eqOpt categoria (js "DEFINIÇÃO") then Some (js "definicao")
  else if eqOpt categoria (js "PROPRIEDADE") then Some (js "propriedade")
  else None.

Definition analisarTaxonomia (taxonomia : option Taxonomia)
    (mensagemOriginal : jsstring) : option Consulta :=
  match taxonomia with
  | None => None
  | Some t =>
      if negb (eqOpt (tipo_interacao t) (js "pergunta")) then None
      else
        match tipoConsulta (categoria_conhecimento t) with
        | None => None
        | Some tipo =>
            if eqOpt (sujeito_principal t) USUARIO then
              Some {| c_tipo := tipo; c_alvo := js "usuario";
                      cp_entidade := Some (js "usuario");
                      cp_valor := None; cp_propriedade := None |}
            else if eqOpt (sujeito_principal t) TERCEIRO then
              match strMatch reTerceiro mensagemOriginal with
              | Some c =>
                  let valor := minusculas (captura 1 c) in
                  if truthy (captura 1 c) && truthy valor then
                    Some {| c_tipo := tipo; c_alvo := js "terceiro";
                            cp_entidade := None;
                            cp_valor := valor; cp_propriedade := None |}
                  else None
              | None => None
              end
            else if eqOpt (sujeito_principal t) CONCEITO then
              let consulta :=
                if streq tipo (js "definicao") then
                  match strMatch reConceitoDefinicao mensagemOriginal with
                  | Some c =>
                      if truthy (captura 1 c)
                      then (minusculas (captura 1 c), None)
                      else (None, None)
                  | None => (None, None)
                  end
                else if streq tipo (js "propriedade") then
                  match strMatch reConceitoPropriedade mensagemOriginal with
                  | Some c =>
                      (option_map (fun s => toLowerCase (trim s)) (captura 2 c),
                       minusculas (captura 1 c))
                  | None =>
                      match strMatch reConceitoSimples mensagemOriginal with
                      | Some c =>
                          (option_map (fun s => toLowerCase (trim s))
                                      (captura 1 c),
                           minusculas (captura 2 c))
                      | None => (None, None)
                      end
                  end
                else (None, None) in
              if truthy (fst consulta) then
                Some {| c_tipo := tipo; c_alvo := js "conceito";
                        cp_entidade := None;
                        cp_valor := fst consulta;
                        cp_propriedade := snd consulta |}
              else None
            else None
        end
  end.

(* ------------------------------------------------------------------ *)
(** *** Answer synthesiser ([construirRespostaConsulta]) *)

(** [valor.charAt(0).toUpperCase() + valor.slice(1)]. *)
Definition capitalizar (valor : jsstring) : jsstring :=
  toUpperCase (firstn 1 valor) ++ skipn 1 valor.

Definition construirRespostaConsulta (consulta : Consulta)
    (resultados : ResultadoBusca) : res (option jsstring) :=
  match resultados with
  | BuscaFalha => Ok None
  | BuscaFato fato =>
      if streq (c_tipo consulta) (js "identidade") then
        if streq (d_tipo fato) (js "nome")
        then Ok (Some (js "Seu nome é " ++ d_valor fato ++ js "."))
        else Ok None
      else if streq (c_tipo consulta) (js "definicao") then
        Ok (Some (toUpperCase (d_chave fato) ++ js " significa "
                  ++ d_valor fato ++ js "."))
      else Ok (Some (d_chave fato ++ js ": " ++ d_valor fato))
  | BuscaFatos fatos =>
      if streq (c_tipo consulta) (js "relacao") then
        if streq (c_alvo consulta) (js "terceiro") then
          match cp_valor consulta, fatos with
          | None, [] => Ok None
          | None, _ :: _ => Lancou
          | Some valor, _ =>
              let fatosEspecificos :=
                filter (fun f => streq (toLowerCase (d_valor f))
                                       (toLowerCase valor)) fatos in
              match fatosEspecificos with
              | _ :: _ =>
                  Ok (Some (valor ++ js " é seu "
                            ++ joinStr (js ", ") (map d_chave fatosEspecificos)
                            ++ js "."))
              | [] =>
                  let fatosRelacionados :=
                    filter (fun f => strIncludes (toLowerCase valor)
                                       (toLowerCase (d_valor f))) fatos in
                  match fatosRelacionados with
                  | _ :: _ =>
                      Ok (Some (js "Encontrei: "
                                ++ joinStr (js ", ")
                                     (map d_valor fatosRelacionados)))
                  | [] => Ok None
                  end
              end
          end
        else
          let valores := joinStr (js ", ") (map d_valor fatos) in
          match fatos with
          | [] => Lancou
          | f0 :: r =>
              if streq (d_chave f0) (js "amigo") then
                match r with
                | [] => Ok (Some (js "Seu amigo é " ++ valores ++ js "."))
                | _ => Ok (Some (js "Seus amigos são: " ++ valores ++ js "."))
                end
              else Ok (Some (d_chave f0 ++ js ": " ++ valores))
          end
      else if streq (c_tipo consulta) (js "propriedade") then
        if streq (c_alvo consulta) (js "conceito") then
          let todas :=
            match cp_valor consulta with
            | None => Lancou
            | Some valor =>
                Ok (Some (js "Informações sobre " ++ capitalizar valor
                          ++ js ":" ++ LF ++ js "- "
                          ++ joinStr (LF ++ js "- ")
                               (map (fun f => d_chave f ++ js ": " ++ d_valor f)
                                    fatos)))
            end in
          match cp_propriedade consulta with
          | Some (c :: r) =>
              let propriedade := c :: r in
              let propriedadesFiltradas :=
                filter (fun f => strIncludes propriedade
                                   (toLowerCase (d_chave f))) fatos in
              match propriedadesFiltradas, cp_valor consulta with
              | _ :: _, Some valor =>
                  Ok (Some (js "As " ++ propriedade ++ js " de "
                            ++ capitalizar valor ++ js " são: "
                            ++ joinStr (js ", ")
                                 (map d_valor propriedadesFiltradas)))
              | _ :: _, None => Lancou
              | [], _ => todas
              end
          | _ => todas
          end
        else Ok None
      else
        Ok (Some (js "Encontrei estas informações: "
                  ++ joinStr (js ", ") (map d_valor fatos)))
  end.

(* ------------------------------------------------------------------ *)
(** *** Message orchestrator ([processMessage]) *)

(** [process.env.BOT_NAME]. *)
Variable BOT_NAME : option jsstring.

Definition extractMessageText (message : Mensagem) : option jsstring :=
  match m_message message with
  | None => None
  | Some corpo =>
      if truthy (conversation corpo) then option_map trim (conversation corpo)
      else if truthy (extendedText corpo)
      then option_map trim (extendedText corpo)
      else if truthy (imageCaption corpo)
      then option_map trim (imageCaption corpo)
      else None
  end.

Definition extractSenderInfo (message : Mensagem) : SenderInfo :=
  {| si_id :=
       Some (hd [] (split (js "@")
                      (ouPadrao (m_participant message) (m_remoteJid message))));
     si_name := if truthy (m_pushName message) then m_pushName message else None;
     si_isGroup := strIncludes (js "@g.us") (m_remoteJid message) |}.

Definition respostaAprendizado (n : nat) : jsstring :=
  js "Aprendizado concluído com sucesso. " ++ numToString n
  ++ js " fatos foram armazenados.".

Definition respostaErroConhecimento : jsstring :=
  js "Houve um erro ao armazenar o conhecimento. Por favor, tente novamente.".

Definition respostaErroOpenAI : jsstring :=
  js "Desculpe, não consegui processar sua pergunta. Por favor, tente novamente mais tarde.".

Definition respostaErroSolicitacao : jsstring :=
  js "Estou com problemas para obter uma resposta no momento. Por favor, tente novamente mais tarde.".

(** [`*${process.env.BOT_NAME || 'Marvin'}*\n\n${finalResponse}`]. *)
Definition formatarResposta (finalResponse : option jsstring) : jsstring :=
  js "*" ++ ouPadrao BOT_NAME (js "Marvin") ++ js "*" ++ LF ++ LF
  ++ textoUndef finalResponse.

(** A thrown exception of pure code, inside the code with effects. *)
Definition elevar A (r : res A) : M A :=
  match r with
  | Ok a => ret a
  | Lancou => lancar
  end.

(** The [switch (analiseConsulta.tipo)] that queries the store; [None]
    where no query is made. *)
Definition realizarConsulta (analiseConsulta : Consulta)
    (senderId : jsstring) : M (option ResultadoBusca) :=
  if streq (c_tipo analiseConsulta) (js "identidade") then
    if streq (c_alvo analiseConsulta) (js "usuario") then
      registrar ChFindFact ;;;
      r <- findFact (js "nome") (js "nome") senderId ;; ret (Some r)
    else ret None
  else if streq (c_tipo analiseConsulta) (js "relacao") then
    if streq (c_alvo analiseConsulta) (js "usuario") then
      registrar ChFindRelationalFacts ;;;
      r <- findRelationalFacts (js "relacao") senderId None ;; ret (Some r)
    else if streq (c_alvo analiseConsulta) (js "terceiro")
            && truthy (cp_valor analiseConsulta) then
      registrar ChFindRelationalFacts ;;;
      r <- findRelationalFacts (js "relacao") senderId
             (cp_valor analiseConsulta) ;;
      ret (Some r)
    else ret None
  else if streq (c_tipo analiseConsulta) (js "definicao") then
    match cp_valor analiseConsulta with
    | Some (c :: v) =>
        if streq (c_alvo analiseConsulta) (js "conceito") then
          registrar ChFindFact ;;;
          r <- findFact (js "definicao") (c :: v) (js "geral") ;; ret (Some r)
        else ret None
    | _ => ret None
    end
  else if streq (c_tipo analiseConsulta) (js "propriedade") then
    match cp_valor analiseConsulta with
    | Some (c :: v) =>
        if streq (c_alvo analiseConsulta) (js "conceito") then
          registrar ChFindConceptProperties ;;;
          r <- findConceptProperties (c :: v) ;; ret (Some r)
        else ret None
    | _ => ret None
    end
  else ret None.

(** The attempt to answer as a specific query: the answer text where the
    query was processed ([consultaProcessada]). *)
Definition processarConsulta (data : RespostaJson) (processText : jsstring)
    (senderId : jsstring) : M (option jsstring) :=
  registrar ChAnalisarTaxonomia ;;;
  match analisarTaxonomia (analise_taxonomica data) processText with
  | None => ret None
  | Some analiseConsulta =>
      resultadoConsulta <- realizarConsulta analiseConsulta senderId ;;
      match resultadoConsulta with
      | Some (BuscaFato f) =>
          registrar ChConstruirRespostaConsulta ;;;
          elevar (construirRespostaConsulta analiseConsulta (BuscaFato f))
      | Some (BuscaFatos l) =>
          registrar ChConstruirRespostaConsulta ;;;
          elevar (construirRespostaConsulta analiseConsulta (BuscaFatos l))
      | _ => ret None
      end
  end.

(** [for (const fato of fatos) { try { await saveFact(fato) } catch ... }]. *)
Fixpoint salvarFatos (fatos : list Fato) (agora : instante) : M unit :=
  match fatos with
  | [] => ret tt
  | fato :: r =>
      tentar
        (registrar (ChSaveFact fato) ;;;
         saveFact fato agora ;;; ret tt)
        (consoleErro (js "Erro ao salvar fato:")) ;;;
      salvarFatos r agora
  end.

(** The branch taken when the message was not answered as a specific
    query, or is a learning command. *)
Definition aprenderOuResponder (isLearningCommand : bool)
    (data : RespostaJson) (senderId : jsstring) (agora : instante)
    : M (option jsstring) :=
  registrar ChTraduzirParaModeloDados ;;;
  fatos <- elevar (traduzirParaModeloDados (conhecimento data) senderId
                     (toISOString agora)) ;;
  if isLearningCommand then
    tentar
      (registrar ChSaveResponse ;;;
       saveResponse {| rd_palavras_chave := palavras_chave data;
                       rd_resposta := resposta data;
                       rd_classificacao := classificacao data |} agora ;;;
       salvarFatos fatos agora ;;;
       ret (Some (respostaAprendizado (length fatos))))
      (consoleErro (js "Erro ao salvar conhecimento:") ;;;
       ret (Some respostaErroConhecimento))
  else ret (resposta data).

(** The text handed to the transport for one inbound message ([None]
    where the message carries no text and nothing is sent). [api] is the
    outcome of the request to the language-model service, should the
    orchestrator make it; [agora] is the reading of the clock. *)
Definition processMessage (message : Mensagem) (api : RespostaApi)
    (agora : instante) : M (option jsstring) :=
  match extractMessageText message with
  | Some (c :: t) =>
      let messageText := c :: t in
      let senderInfo := extractSenderInfo message in
      let senderId := textoUndef (si_id senderInfo) in
      let isLearningCommand := startsWith (js "/aprender ") messageText in
      let processText :=
        if isLearningCommand then trim (skipn 10 messageText)
        else messageText in
      let extractedKeywords := extractKeywords (JStr processText) 10 in
      registrar (ChFindResponseByKeywords extractedKeywords) ;;;
      existingResponse <-
        tentar (findResponseByKeywords (Some extractedKeywords))
               (consoleErro (js "Erro ao buscar resposta no banco:") ;;;
                ret None) ;;
      finalResponse <-
        match existingResponse, isLearningCommand with
        | Some (_, r), false => ret (r_resposta r)
        | _, _ =>
            tentar
              (registrar (ChGetOpenAIResponse processText) ;;;
               match getOpenAIResponse processText (Some senderInfo) api with
               | Sucesso data =>
                   consulta <-
                     (if isLearningCommand then ret None
                      else processarConsulta data processText senderId) ;;
                   match consulta, isLearningCommand with
                   | Some respostaConsulta, false =>
                       ret (Some respostaConsulta)
                   | _, _ =>
                       aprenderOuResponder isLearningCommand data senderId agora
                   end
               | Falha =>
                   consoleErro (js "Erro na resposta da OpenAI:") ;;;
                   ret (Some respostaErroOpenAI)
               end)
              (consoleErro (js "Erro ao solicitar resposta da OpenAI:") ;;;
               ret (Some respostaErroSolicitacao))
        end ;;
      ret (Some (formatarResposta finalResponse))
  | _ => ret None
  end.

(* ------------------------------------------------------------------ *)
(** *** The keyword extractor in the words of the specification *)

(** The distinct words of a list, in first-seen order. *)
Fixpoint primeirasOcorrencias (l : list jsstring) : list jsstring :=
  match l with
  | [] => []
  | w :: r => w :: filter (fun x => negb (streq x w)) (primeirasOcorrencias r)
  end.

(** How often a word occurs. *)
Definition frequencia (l : list jsstring) (w : jsstring) : nat :=
  length (filter (streq w) l).

Definition porFrequencia (l : list jsstring) (a b : jsstring) : Z :=
  (Z.of_nat (frequencia l b) - Z.of_nat (frequencia l a))%Z.

(** "Returns the top [maxKeywords] tokens ordered by descending frequency
    (ties broken by first-seen order); empty or non-string input yields an
    empty sequence." *)
Definition extractKeywords_spec (text : jsval) (maxKeywords : nat)
    : list jsstring :=
  match text with
  | JStr [] => []
  | JStr s =>
      let toks := filteredWords s in
      firstn maxKeywords
        (arraySort (porFrequencia toks) (primeirasOcorrencias toks))
  | _ => []
  end.

(** The counting object holds the counts of the words seen so far, under
    their names in first-seen order. *)
Definition contagemDe (vistas : list jsstring) (o : objfreq) : Prop :=
  map fst o = primeirasOcorrencias vistas /\
  forall w, getOwn o w =
            match frequencia vistas w with
            | O => None
            | S n => Some (FNum (S n))
            end.

(* ------------------------------------------------------------------ *)
(** *** The response cache in the words of the specification *)

(** "Takes up to the first 10 keywords, computes
    [minMatches = ceil(0.6 * count)] and returns the first stored response
    having at least [minMatches] keywords in common with the input (store
    iteration order)." *)
Definition findResponseByKeywords_spec (keywords : list jsstring)
    (respostas : list RespDoc) : option (nat * RespDoc) :=
  let searchKeywords := firstn 10 keywords in
  let minMatches := ceil06 (length searchKeywords) in
  find (fun ir => (minMatches <=? matchCount searchKeywords (snd ir))%nat)
       (indexar respostas).

(** The state after one operation on the store was carried out or
    rejected. *)
Definition aposOperacao (st : Estado) : Estado :=
  {| db := db st; falhas := tl (falhas st);
     consoleError := consoleError st; chamadas := chamadas st |}.

(** A state with a given store, in which no operation is rejected. *)
Definition estadoDe (d : Db) : Estado :=
  {| db := d; falhas := []; consoleError := []; chamadas := [] |}.

Definition dbVazio : Db := {| responses := []; facts := []; entities := [] |}.

(** A cached response with the keywords "nome", "usuario", "cadastro". *)
Definition respostaCadastro : RespDoc :=
  {| r_palavras_chave := Some [js "nome"; js "usuario"; js "cadastro"];
     r_resposta := Some (js "O nome do usuario fica no cadastro.");
     r_classificacao := Some (js "global");
     r_created_at := 0;
     r_last_updated := 0 |}.

Definition dbCadastro : Db :=
  {| responses := [respostaCadastro]; facts := []; entities := [] |}.

(** A state whose collection of facts is replaced, once its operations on
    the store were carried out. *)
Definition estadoComFatos (st : Estado) (l : list FactDoc) : Estado :=
  {| db := comFatos (db st) l; falhas := [];
     consoleError := consoleError st; chamadas := chamadas st |}.

(** What the lookup in the cache finds where the store carries the query
    out. *)
Definition respostaEmCache (keywords : list jsstring)
    (respostas : list RespDoc) : option (nat * RespDoc) :=
  let searchKeywords := firstn (Nat.min (length keywords) 10) keywords in
  match filter (fun ir =>
                  (ceil06 (length searchKeywords) <=?
                   matchCount searchKeywords (snd ir))%nat)
               (filter (fun ir => casaPalavras searchKeywords (snd ir))
                       (indexar respostas)) with
  | r :: _ => Some r
  | [] => None
  end.

(** Code that leaves every collection of the store as it found it. *)
Definition preservaDb A (m : M A) : Prop :=
  forall st, db (snd (m st)) = db st.

(** A state with one more call on record. *)
Definition comChamada (st : Estado) (c : Chamada) : Estado :=
  {| db := db st; falhas := falhas st; consoleError := consoleError st;
     chamadas := chamadas st ++ [c] |}.

(** Code that leaves one component of the state as it found it. *)
Definition fixa X (p : Estado -> X) A (m : M A) : Prop :=
  forall st, p (snd (m st)) = p st.

(** Code that never throws. *)
Definition semExcecao A (m : M A) : Prop :=
  forall st, exists a st', m st = (Ok a, st').

(* ------------------------------------------------------------------ *)
(** *** Concrete inputs *)

Definition isoFixo (t : instante) : jsstring := js "2025-01-01T00:00:00.000Z".

Definition contextoCom (certeza : string) : option Contexto :=
  Some {| ctx_certeza := Some (js certeza);
          ctx_fonte := Some (js "declaração_direta");
          ctx_temporalidade := Some (js "atual") |}.

Definition entradaCom (tipo : string) (sujTipo : jsstring) (sujValor : jsstring)
    (predTipo predValor : jsstring) (certeza : string) : Entrada :=
  {| ent_id := Some (js "entrada_1");
     ent_tipo := Some (js tipo);
     ent_sujeito := Some {| suj_tipo := Some sujTipo;
                            suj_valor := Some sujValor;
                            suj_categoria := None |};
     ent_predicado := Some {| pred_tipo := Some predTipo;
                              pred_valor := Some predValor |};
     ent_objeto := None;
     ent_contexto := contextoCom certeza |}.

(** "Meu nome é Ana", with certainty ALTA and with certainty MÉDIA. *)
Definition entradaAna : Entrada :=
  entradaCom "fato_identidade" USUARIO (js "5511999") (js "nome") (js "Ana")
             "ALTA".

Definition entradaMedia : Entrada :=
  entradaCom "fato_identidade" USUARIO (js "5511999") (js "nome") (js "Ana")
             "MÉDIA".

(** A definition whose value has 600 code units. *)
Definition entrada600 : Entrada :=
  entradaCom "fato_definicao" CONCEITO (js "API") (js "significado")
             (repeat 97%N 600) "ALTA".



(** A property whose predicate type is two spaces. *)
Definition entradaEspacos : Entrada :=
  entradaCom "fato_propriedade" USUARIO (js "5511999") (js "  ") (js "azul")
             "ALTA".

Definition mensagemCom (texto : string) : Mensagem :=
  {| m_remoteJid := js "5511999@s.whatsapp.net";
     m_participant := None;
     m_pushName := Some (js "Ana");
     m_message := Some {| conversation := Some (js texto);
                          extendedText := None;
                          imageCaption := None |} |}.

Definition taxonomiaCom (interacao : string) (sujeito : jsstring)
    (categoria : string) : option Taxonomia :=
  Some {| tipo_interacao := Some (js interacao);
          sujeito_principal := Some sujeito;
          categoria_conhecimento := Some (js categoria);
          contexto_aplicacao := Some (js "PESSOAL");
          nivel_certeza := Some (js "ALTA") |}.

(** The classifier's answer to "meu nome é Ana". *)
Definition jsonAna : RespostaJson :=
  {| palavras_chave := Some [js "nome"; js "ana"];
     resposta := Some (js "Armazenei esta informação");
     classificacao := Some (js "pessoal");
     analise_taxonomica := taxonomiaCom "informativa" USUARIO "IDENTIDADE";
     conhecimento :=
       Some {| armazenar := true; entradas := Some [Some entradaAna] |} |}.

(** An answer of the classifier that carries no [conhecimento]. *)
Definition jsonSemConhecimento : RespostaJson :=
  {| palavras_chave := Some [js "bom"; js "dia"];
     resposta := Some (js "Bom dia!");
     classificacao := Some (js "global");
     analise_taxonomica := taxonomiaCom "informativa" USUARIO "IDENTIDADE";
     conhecimento := None |}.

(** A state with an empty store in which the fourth operation on the
    store is rejected. *)
Definition estadoQuartaFalha : Estado :=
  {| db := dbVazio; falhas := [false; false; false; true];
     consoleError := []; chamadas := [] |}.

(* ------------------------------------------------------------------ *)
(** *** Further notions and inputs *)

(** The documents of a list numbered from [n] on. *)
Definition indexarDesde A (n : nat) (l : list A) : list (nat * A) :=
  combine (seq n (length l)) l.

(** The values of [tipo] the translator writes into a fact. *)
Definition tiposDeFato : list jsstring := map js
  [ "nome"; "relacao"; "definicao"; "propriedade"; "entidade" ]%string.

(** [conhecimento.entradas], where it is an array. *)
Definition entradasDe (k : Conhecimento) : list (option Entrada) :=
  match entradas k with
  | Some es => es
  | None => []
  end.

(** The fact the translator makes of "meu nome é Ana". *)
Definition fatoAna : Fato :=
  {| f_tipo := Some (js "nome");
     f_chave := Some (js "nome");
     f_entidade := Some (js "5511999");
     f_valor := Some (js "Ana");
     f_conceito := None;
     f_categoria := None;
     f_relacionamentos := [];
     f_contexto := Some {| cf_certeza := ALTA;
                           cf_fonte := js "declaração_direta";
                           cf_timestamp := isoFixo 0 |} |}.

(** The same fact with another value. *)
Definition fatoAnaMaria : Fato :=
  {| f_tipo := Some (js "nome");
     f_chave := Some (js "nome");
     f_entidade := Some (js "5511999");
     f_valor := Some (js "Ana Maria");
     f_conceito := None;
     f_categoria := None;
     f_relacionamentos := [];
     f_contexto := Some {| cf_certeza := ALTA;
                           cf_fonte := js "declaração_direta";
                           cf_timestamp := isoFixo 0 |} |}.

(** An answer of the classifier to "meu nome é Ana" that asks for nothing
    to be stored and is not sure of its one entry. *)
Definition jsonMedia : RespostaJson :=
  {| palavras_chave := Some [js "nome"; js "ana"];
     resposta := Some (js "Armazenei esta informação");
     classificacao := Some (js "pessoal");
     analise_taxonomica := taxonomiaCom "informativa" USUARIO "IDENTIDADE";
     conhecimento :=
       Some {| armazenar := false; entradas := Some [Some entradaMedia] |} |}.

(** The sender of [mensagemCom]. *)
Definition remetenteAna : SenderInfo :=
  {| si_id := Some (js "5511999"); si_name := Some (js "Ana");
     si_isGroup := false |}.

(** "Ana é amiga de Ana": a relation of a subject to itself. *)
Definition entradaCircular : Entrada :=
  {| ent_id := Some (js "entrada_2");
     ent_tipo := Some (js "fato_relacao");
     ent_sujeito := Some {| suj_tipo := Some TERCEIRO;
                            suj_valor := Some (js "Ana");
                            suj_categoria := None |};
     ent_predicado := Some {| pred_tipo := Some (js "amigo");
                              pred_valor := Some (js "amiga") |};
     ent_objeto := Some {| obj_tipo := Some TERCEIRO;
                           obj_valor := Some (js "Ana") |};
     ent_contexto := contextoCom "ALTA" |}.

(** Code that returns, with a result that satisfies [P]. *)
Definition retorna A (P : A -> Prop) (m : M A) : Prop :=
  forall st, exists a st', m st = (Ok a, st') /\ P a.

(** Code whose result, where it returns, satisfies [P]. *)
Definition seRetorna A (P : A -> Prop) (m : M A) : Prop :=
  forall st a st', m st = (Ok a, st') -> P a.

(** The [try] block of [processMessage] that asks the classifier, with
    its [catch]: the branch taken without a cached response, or for a
    learning command. *)
Definition consultarClassificador (message : Mensagem)
    (isLearningCommand : bool) (processText : jsstring) (api : RespostaApi)
    (agora : instante) : M (option jsstring) :=
  let senderInfo := extractSenderInfo message in
  let senderId := textoUndef (si_id senderInfo) in
  tentar
    (registrar (ChGetOpenAIResponse processText) ;;;
     match getOpenAIResponse processText (Some senderInfo) api with
     | Sucesso data =>
         consulta <-
           (if isLearningCommand then ret None
            else processarConsulta data processText senderId) ;;
         match consulta, isLearningCommand with
         | Some respostaConsulta, false =>
             ret (Some respostaConsulta)
         | _, _ =>
             aprenderOuResponder isLearningCommand data senderId agora
         end
     | Falha =>
         consoleErro (js "Erro na resposta da OpenAI:") ;;;
         ret (Some respostaErroOpenAI)
     end)
    (consoleErro (js "Erro ao solicitar resposta da OpenAI:") ;;;
     ret (Some respostaErroSolicitacao)).

(** The text [processMessage] works on, the command prefix removed. *)
Definition textoProcessado (texto : jsstring) : jsstring :=
  if startsWith (js "/aprender ") texto then trim (skipn 10 texto)
  else texto.

(** The classifier's answer to the question "qual é o meu nome". *)
Definition taxonomiaPergunta : Taxonomia :=
  {| tipo_interacao := Some (js "pergunta");
     sujeito_principal := Some USUARIO;
     categoria_conhecimento := Some (js "IDENTIDADE");
     contexto_aplicacao := Some (js "PESSOAL");
     nivel_certeza := Some (js "ALTA") |}.

Definition jsonPergunta : RespostaJson :=
  {| palavras_chave := Some [js "nome"];
     resposta := Some (js "Vou verificar o seu nome");
     classificacao := Some (js "pessoal");
     analise_taxonomica := Some taxonomiaPergunta;
     conhecimento := Some {| armazenar := false; entradas := Some [] |} |}.

(** A stored response qualifies for a list of keywords: it shares one of
    the first ten with it, and [minKeywordsMatch] of them at least. *)
Definition qualifica (keywords : list jsstring) (r : RespDoc) : bool :=
  let searchKeywords := firstn (Nat.min (length keywords) 10) keywords in
  casaPalavras searchKeywords r
  && (ceil06 (length searchKeywords) <=? matchCount searchKeywords r)%nat.

(** Code that, run where no operation on the store is rejected, ends where
    none is. *)
Definition semFalha A (m : M A) : Prop :=
  forall st, falhas st = [] -> falhas (snd (m st)) = [].

(** The response the classifier's answer [jsonAna] is cached as. *)
Definition respostaAna : ResponseData :=
  {| rd_palavras_chave := palavras_chave jsonAna;
     rd_resposta := resposta jsonAna;
     rd_classificacao := classificacao jsonAna |}.

(* ------------------------------------------------------------------ *)
(** *** Connection supervisor ([whatsappService.js]) *)

(** What moves the counter [reconnectAttempts]: an update of the
    connection ([connection === 'close'] with
    [statusCode === DisconnectReason.loggedOut] or not,
    [connection === 'open'], any other update) or a start of the
    connection that throws (the [catch] of [startWhatsAppConnection]). *)
Inductive EventoConexao :=
| ConexaoFechada (loggedOut : bool)
| ConexaoAberta
| OutraAtualizacao
| InicioFalhou.

Definition MAX_RECONNECT_ATTEMPTS : nat := 5.

(** One event: the counter after it, and whether a new start of the
    connection was scheduled ([setTimeout(() =>
    startWhatsAppConnection(db), 5000)]). *)
Definition aoEvento (reconnectAttempts : nat) (ev : EventoConexao)
    : nat * bool :=
  match ev with
  | ConexaoFechada loggedOut =>
      let shouldReconnect := negb loggedOut in
      if shouldReconnect && (reconnectAttempts <? MAX_RECONNECT_ATTEMPTS)
      then (reconnectAttempts + 1, true)
      else (reconnectAttempts, false)
  | ConexaoAberta => (0, false)
  | OutraAtualizacao => (reconnectAttempts, false)
  | InicioFalhou =>
      if reconnectAttempts <? MAX_RECONNECT_ATTEMPTS
      then (reconnectAttempts + 1, true)
      else (reconnectAttempts, false)
  end.

(** A sequence of events: the counter in the end, and how many starts
    were scheduled. *)
Fixpoint aoEventos (reconnectAttempts : nat) (evs : list EventoConexao)
    : nat * nat :=
  match evs with
  | [] => (reconnectAttempts, 0)
  | ev :: r =>
      let (n, agendou) := aoEvento reconnectAttempts ev in
      let (n', k) := aoEventos n r in
      (n', (if agendou then 1 else 0) + k)
  end.

Definition eAbertura (ev : EventoConexao) : bool :=
  match ev with
  | ConexaoAberta => true
  | _ => false
  end.
(* ================================================================== *)
(** ** Strings and lists *)
(* ================================================================== *)

Lemma streq_eq (a b : jsstring) : streq a b = true <-> a = b.
Proof.
  revert b; induction a as [|x a IH]; intros [|y b]; simpl;
    try (split; [discriminate | discriminate]); try tauto.
  rewrite andb_true_iff, N.eqb_eq, IH.
  split; [intros [-> ->]; reflexivity | intros H; inversion H; auto].
Qed.

Lemma streq_refl (a : jsstring) : streq a a = true.
Proof. apply streq_eq; reflexivity. Qed.

Lemma streq_neq (a b : jsstring) : streq a b = false <-> a <> b.
Proof.
  rewrite <- streq_eq. destruct (streq a b); split; congruence.
Qed.

Lemma streq_sym (a b : jsstring) : streq a b = streq b a.
Proof.
  destruct (streq a b) eqn:E; symmetry.
  - apply streq_eq in E; subst; apply streq_refl.
  - apply streq_neq; apply streq_neq in E; congruence.
Qed.

Lemma includes_In (l : list jsstring) (s : jsstring) :
  includes l s = true <-> In s l.
Proof.
  unfold includes. rewrite existsb_exists. split.
  - intros [x [Hx E]]. apply streq_eq in E; subst; auto.
  - intros H; exists s; split; [auto | apply streq_refl].
Qed.

Lemma filter_todos A (p : A -> bool) (l : list A) :
  (forall x, In x l -> p x = true) -> filter p l = l.
Proof.
  induction l as [|x l IH]; simpl; intros H; [reflexivity|].
  rewrite (H x (or_introl eq_refl)), IH; auto.
Qed.

Lemma filter_nenhum A (p : A -> bool) (l : list A) :
  (forall x, In x l -> p x = false) -> filter p l = [].
Proof.
  induction l as [|x l IH]; simpl; intros H; [reflexivity|].
  rewrite (H x (or_introl eq_refl)), IH; auto.
Qed.

Lemma NoDup_firstn A (n : nat) (l : list A) : NoDup l -> NoDup (firstn n l).
Proof.
  intros H; revert n; induction H as [|x l Hx Hl IH]; intros [|n]; simpl;
    try constructor; auto.
  intros Hin; apply Hx. revert Hin; clear.
  revert n; induction l as [|y l IH]; intros [|n]; simpl; try tauto.
  intros [H|H]; [auto | right; eapply IH; eauto].
Qed.

(* ================================================================== *)
(** ** Keyword extractor *)
(* ================================================================== *)

Lemma getOwn_setOwn (o : objfreq) (k w : jsstring) (v : freqval) :
  getOwn (setOwn o k v) w = if streq w k then Some v else getOwn o w.
Proof.
  induction o as [|[k' v'] o IH]; simpl.
  - destruct (streq w k); reflexivity.
  - destruct (streq k k') eqn:E; simpl.
    + apply streq_eq in E; subst k'. destruct (streq w k); reflexivity.
    + destruct (streq w k') eqn:E2.
      * apply streq_eq in E2; subst k'.
        rewrite streq_sym, E; reflexivity.
      * apply IH.
Qed.

Lemma keys_setOwn (o : objfreq) (k : jsstring) (v : freqval) :
  map fst (setOwn o k v) =
  match getOwn o k with
  | Some _ => map fst o
  | None => map fst o ++ [k]
  end.
Proof.
  induction o as [|[k' v'] o IH]; simpl; [reflexivity|].
  destruct (streq k k') eqn:E; simpl; [reflexivity|].
  rewrite IH. destruct (getOwn o k); reflexivity.
Qed.

Lemma frequencia_app (vistas : list jsstring) (x w : jsstring) :
  frequencia (vistas ++ [x]) w =
  frequencia vistas w + (if streq w x then 1 else 0).
Proof.
  unfold frequencia. rewrite filter_app, length_app. simpl.
  destruct (streq w x); reflexivity.
Qed.

Lemma frequencia_pos (l : list jsstring) (w : jsstring) :
  0 < frequencia l w <-> In w l.
Proof using Type.
  unfold frequencia. induction l as [|x l IH]; simpl.
  - split; [intros H; inversion H | intros []].
  - destruct (streq w x) eqn:E; simpl.
    + apply streq_eq in E; subst.
      split; [intros _; left; reflexivity | intros _; apply Nat.lt_0_succ].
    + apply streq_neq in E. rewrite IH.
      split; [intros H; right; exact H | intros [H|H]; [congruence | exact H]].
Qed.

Lemma primeiras_app (vistas : list jsstring) (x : jsstring) :
  primeirasOcorrencias (vistas ++ [x]) =
  match frequencia vistas x with
  | O => primeirasOcorrencias vistas ++ [x]
  | S _ => primeirasOcorrencias vistas
  end.
Proof.
  induction vistas as [|a s IH]; simpl; [reflexivity|].
  rewrite IH. unfold frequencia; simpl.
  destruct (streq x a) eqn:E; simpl.
  - f_equal. fold (frequencia s x).
    destruct (frequencia s x); [|reflexivity].
    rewrite filter_app; simpl. rewrite E; simpl. apply app_nil_r.
  - fold (frequencia s x). destruct (frequencia s x); [|reflexivity].
    rewrite filter_app; simpl. rewrite E; reflexivity.
Qed.

Lemma primeiras_In (l : list jsstring) (w : jsstring) :
  In w (primeirasOcorrencias l) <-> In w l.
Proof using Type.
  induction l as [|a l IH]; simpl; [split; intros H; exact H|].
  rewrite filter_In, IH. split.
  - intros [H|[H _]]; [left; exact H | right; exact H].
  - intros [H|H]; [left; exact H|].
    destruct (streq w a) eqn:E.
    + apply streq_eq in E. left; symmetry; exact E.
    + right; split; [exact H | reflexivity].
Qed.

Lemma primeiras_NoDup (l : list jsstring) : NoDup (primeirasOcorrencias l).
Proof.
  induction l as [|a l IH]; simpl; constructor.
  - rewrite filter_In. intros [_ H]. rewrite streq_refl in H; discriminate.
  - apply NoDup_filter; exact IH.
Qed.

Lemma contar_passo (vistas : list jsstring) (o : objfreq) (x : jsstring) :
  contagemDe vistas o ->
  includes objectPrototypeKeys x = false ->
  contagemDe (vistas ++ [x]) (contarPalavra o x).
Proof.
  intros [Hk Hv] Hx. unfold contarPalavra, incrementar.
  pose proof (Hv x) as Hvx. split.
  - rewrite keys_setOwn, primeiras_app, Hk, Hvx.
    destruct (frequencia vistas x); reflexivity.
  - intros w. rewrite getOwn_setOwn, frequencia_app.
    destruct (streq w x) eqn:E.
    + apply streq_eq in E; subst w. rewrite Hvx, Hx.
      destruct (frequencia vistas x) as [|n]; simpl; [reflexivity|].
      replace (n + 1) with (S n) by lia. reflexivity.
    + rewrite Hv, Nat.add_0_r. reflexivity.
Qed.

Lemma contar_todas (toks : list jsstring) :
  forall vistas o,
    contagemDe vistas o ->
    (forall w, In w toks -> includes objectPrototypeKeys w = false) ->
    contagemDe (vistas ++ toks) (fold_left contarPalavra toks o).
Proof.
  induction toks as [|x toks IH]; simpl; intros vistas o Hc Hp.
  - rewrite app_nil_r; exact Hc.
  - replace (vistas ++ x :: toks) with ((vistas ++ [x]) ++ toks)
      by (rewrite <- app_assoc; reflexivity).
    apply IH.
    + apply contar_passo; [exact Hc | apply Hp; left; reflexivity].
    + intros w Hw; apply Hp; right; exact Hw.
Qed.

Lemma objectKeys_nomes (o : objfreq) :
  (forall k, In k (map fst o) -> isArrayIndex k = false) ->
  objectKeys o = map fst o.
Proof.
  intros H. unfold objectKeys.
  rewrite (filter_nenhum _ _ H). simpl.
  apply filter_todos. intros k Hk. rewrite (H k Hk); reflexivity.
Qed.

Lemma inserir_perm A (cmp : A -> A -> Z) (x : A) (l : list A) :
  Permutation (inserir cmp x l) (x :: l).
Proof.
  induction l as [|y l IH]; simpl; [apply Permutation_refl|].
  destruct (cmp x y >? 0)%Z; [|apply Permutation_refl].
  eapply Permutation_trans; [apply perm_skip; exact IH | apply perm_swap].
Qed.

Lemma arraySort_perm A (cmp : A -> A -> Z) (l : list A) :
  Permutation (arraySort cmp l) l.
Proof.
  induction l as [|x l IH]; simpl; [constructor|].
  eapply Permutation_trans; [apply inserir_perm | apply perm_skip; exact IH].
Qed.

Lemma inserir_ext A (c1 c2 : A -> A -> Z) (x : A) (l : list A) :
  (forall y, In y l -> c1 x y = c2 x y) ->
  inserir c1 x l = inserir c2 x l.
Proof.
  induction l as [|y l IH]; simpl; intros H; [reflexivity|].
  rewrite (H y (or_introl eq_refl)), IH; auto.
Qed.

Lemma arraySort_ext A (c1 c2 : A -> A -> Z) (l : list A) :
  (forall a b, In a l -> In b l -> c1 a b = c2 a b) ->
  arraySort c1 l = arraySort c2 l.
Proof.
  induction l as [|x l IH]; simpl; intros H; [reflexivity|].
  rewrite IH by auto.
  apply inserir_ext. intros y Hy. apply H; [auto|].
  right. eapply Permutation_in; [apply arraySort_perm | exact Hy].
Qed.

(** The sort puts the more frequent first. *)
Lemma inserir_ordenada (f : jsstring -> nat) (x : jsstring)
    (l : list jsstring) :
  StronglySorted (fun a b => f b <= f a) l ->
  StronglySorted (fun a b => f b <= f a)
    (inserir (fun a b => (Z.of_nat (f b) - Z.of_nat (f a))%Z) x l).
Proof.
  induction 1 as [|y l Hs IH Hy]; simpl.
  - constructor; constructor.
  - destruct (Z.of_nat (f y) - Z.of_nat (f x) >? 0)%Z eqn:E.
    + constructor; [exact IH|].
      rewrite Forall_forall. intros z Hz.
      eapply Permutation_in in Hz; [|apply inserir_perm].
      destruct Hz as [<-|Hz]; [lia|].
      rewrite Forall_forall in Hy; auto.
    + constructor; [constructor; auto|].
      constructor; [lia|].
      rewrite Forall_forall in *. intros z Hz. specialize (Hy z Hz). lia.
Qed.

Lemma arraySort_ordenada (f : jsstring -> nat) (l : list jsstring) :
  StronglySorted (fun a b => f b <= f a)
    (arraySort (fun a b => (Z.of_nat (f b) - Z.of_nat (f a))%Z) l).
Proof.
  induction l as [|x l IH]; simpl; [constructor|].
  apply inserir_ordenada; exact IH.
Qed.

(** The sort is stable: the words of one class keep their order. *)
Lemma inserir_estavel A (cmp : A -> A -> Z) (p : A -> bool) (x : A)
    (l : list A) :
  (forall y, p x = true -> p y = true -> (cmp x y >? 0)%Z = false) ->
  filter p (inserir cmp x l) = filter p (x :: l).
Proof.
  intros H. induction l as [|y l IH]; [reflexivity|].
  simpl inserir. destruct (cmp x y >? 0)%Z eqn:E; [|reflexivity].
  simpl in *. rewrite IH.
  destruct (p x) eqn:Px, (p y) eqn:Py; try reflexivity.
  rewrite H in E by auto. discriminate.
Qed.

Lemma arraySort_estavel A (cmp : A -> A -> Z) (p : A -> bool) (l : list A) :
  (forall x y, p x = true -> p y = true -> (cmp x y >? 0)%Z = false) ->
  filter p (arraySort cmp l) = filter p l.
Proof.
  intros H. induction l as [|x l IH]; [reflexivity|].
  simpl arraySort. rewrite inserir_estavel by (apply H).
  simpl. rewrite IH. reflexivity.
Qed.

Lemma contagem_inicial : contagemDe [] [].
Proof. split; [reflexivity | intros w; reflexivity]. Qed.

Lemma compararFrequencia_contagem (toks : list jsstring) (o : objfreq)
    (a b : jsstring) :
  contagemDe toks o -> In a toks -> In b toks ->
  compararFrequencia o a b = porFrequencia toks a b.
Proof.
  intros [_ Hv] Ha Hb. unfold compararFrequencia, porFrequencia.
  rewrite !Hv.
  apply (proj2 (frequencia_pos _ _)) in Ha; apply (proj2 (frequencia_pos _ _)) in Hb.
  destruct (frequencia toks a); [lia|].
  destruct (frequencia toks b); [lia|]. reflexivity.
Qed.

(** On a text whose words are neither array indices nor names of
    [Object.prototype], the extractor sorts the distinct words, taken in
    first-seen order, by descending count. *)
Lemma extractKeywords_ordenados (c : jschar) (t : jsstring)
    (maxKeywords : nat) :
  let toks := filteredWords (c :: t) in
  (forall w, In w toks ->
     isArrayIndex w = false /\ includes objectPrototypeKeys w = false) ->
  extractKeywords (JStr (c :: t)) maxKeywords =
  firstn maxKeywords
    (arraySort (porFrequencia toks) (primeirasOcorrencias toks)).
Proof.
  intros toks H. unfold extractKeywords.
  assert (Hc : contagemDe toks (wordFrequency (c :: t))).
  { unfold wordFrequency. fold toks.
    apply (contar_todas toks (vistas := []) contagem_inicial).
    intros w Hw; apply H; exact Hw. }
  assert (Hk : objectKeys (wordFrequency (c :: t)) = primeirasOcorrencias toks).
  { destruct Hc as [Hk _]. rewrite <- Hk. apply objectKeys_nomes.
    intros k Hin. rewrite Hk in Hin. apply (proj1 (primeiras_In _ _)) in Hin.
    apply H; exact Hin. }
  rewrite Hk. f_equal. apply arraySort_ext.
  intros a b Ha Hb.
  apply (proj1 (primeiras_In _ _)) in Ha; apply (proj1 (primeiras_In _ _)) in Hb.
  apply compararFrequencia_contagem; assumption.
Qed.

Lemma getOwn_None (o : objfreq) (k : jsstring) :
  getOwn o k = None <-> ~ In k (map fst o).
Proof.
  induction o as [|[k' v] o IH]; simpl.
  - split; [intros _ H; exact H | reflexivity].
  - destruct (streq k k') eqn:E.
    + apply streq_eq in E. subst k'. split; [discriminate|].
      intros H. exfalso. apply H. left; reflexivity.
    + apply streq_neq in E. split.
      * intros H [H1|H1]; [apply E; symmetry; exact H1|].
        apply (proj1 IH H H1).
      * intros H. apply IH. intros H1. apply H. right; exact H1.
Qed.

Lemma chaves_contar (vistas : list jsstring) (o : objfreq) (x : jsstring) :
  map fst o = primeirasOcorrencias vistas ->
  map fst (contarPalavra o x) = primeirasOcorrencias (vistas ++ [x]).
Proof.
  intros H. unfold contarPalavra. rewrite keys_setOwn, primeiras_app.
  destruct (getOwn o x) as [v|] eqn:E.
  - assert (Hin : In x vistas).
    { apply (proj1 (primeiras_In _ _)). rewrite <- H.
      destruct (in_dec (list_eq_dec N.eq_dec) x (map fst o)) as [Hi|Hn];
        [exact Hi|].
      apply getOwn_None in Hn. rewrite Hn in E. discriminate. }
    apply frequencia_pos in Hin.
    destruct (frequencia vistas x); [inversion Hin | exact H].
  - destruct (frequencia vistas x) eqn:Ef; [rewrite H; reflexivity|].
    exfalso. apply (proj1 (getOwn_None _ _) E). rewrite H.
    apply primeiras_In, frequencia_pos. rewrite Ef. apply Nat.lt_0_succ.
Qed.

Lemma chaves_todas (toks : list jsstring) :
  forall vistas o,
    map fst o = primeirasOcorrencias vistas ->
    map fst (fold_left contarPalavra toks o) =
    primeirasOcorrencias (vistas ++ toks).
Proof.
  induction toks as [|x toks IH]; intros vistas o H; simpl.
  - rewrite app_nil_r. exact H.
  - change (x :: toks) with ([x] ++ toks). rewrite app_assoc.
    apply IH. apply chaves_contar; exact H.
Qed.

Lemma In_firstn A (n : nat) (l : list A) (x : A) :
  In x (firstn n l) -> In x l.
Proof.
  revert l; induction n as [|n IH]; intros [|y l] H; simpl in H;
    try (destruct H; fail).
  destruct H as [H|H]; [left; exact H | right; apply IH; exact H].
Qed.

Lemma filter_particao A (p : A -> bool) (l : list A) :
  Permutation (filter p l ++ filter (fun x => negb (p x)) l) l.
Proof.
  induction l as [|x l IH]; simpl; [constructor|].
  destruct (p x); simpl.
  - apply perm_skip; exact IH.
  - apply Permutation_sym. apply Permutation_cons_app.
    apply Permutation_sym; exact IH.
Qed.

Lemma objectKeys_perm (o : objfreq) : Permutation (objectKeys o) (map fst o).
Proof.
  unfold objectKeys.
  apply Permutation_trans with (2 := filter_particao isArrayIndex (map fst o)).
  apply Permutation_app_tail. apply arraySort_perm.
Qed.

(** [Object.keys] sorts the array indices by their numbers. *)
Lemma inserir_crescente (v : jsstring -> N) (x : jsstring)
    (l : list jsstring) :
  StronglySorted (fun a b => (v a <= v b)%N) l ->
  StronglySorted (fun a b => (v a <= v b)%N)
    (inserir (fun a b => (Z.of_N (v a) - Z.of_N (v b))%Z) x l).
Proof.
  induction 1 as [|y l Hs IH Hy]; simpl.
  - constructor; constructor.
  - destruct (Z.of_N (v x) - Z.of_N (v y) >? 0)%Z eqn:E.
    + constructor; [exact IH|].
      rewrite Forall_forall. intros z Hz.
      eapply Permutation_in in Hz; [|apply inserir_perm].
      destruct Hz as [<-|Hz]; [lia|].
      rewrite Forall_forall in Hy; auto.
    + constructor; [constructor; auto|].
      constructor; [lia|].
      rewrite Forall_forall in *. intros z Hz. specialize (Hy z Hz). lia.
Qed.

Lemma arraySort_crescente (v : jsstring -> N) (l : list jsstring) :
  StronglySorted (fun a b => (v a <= v b)%N)
    (arraySort (fun a b => (Z.of_N (v a) - Z.of_N (v b))%Z) l).
Proof.
  induction l as [|x l IH]; simpl; [constructor|].
  apply inserir_crescente; exact IH.
Qed.

(** The keys of the counting object, as [Object.keys] lists them: the
    distinct words that are array indices, by their numbers, then the
    other distinct words as first seen. *)
Lemma objectKeys_wordFrequency (text : jsstring) :
  let distintas := primeirasOcorrencias (filteredWords text) in
  objectKeys (wordFrequency text) =
  arraySort (fun a b => (Z.of_N (valorDecimal a) - Z.of_N (valorDecimal b))%Z)
            (filter isArrayIndex distintas)
  ++ filter (fun k => negb (isArrayIndex k)) distintas.
Proof.
  intros distintas. unfold objectKeys, wordFrequency.
  rewrite (chaves_todas (filteredWords text) [] []) by reflexivity.
  reflexivity.
Qed.

(** On a text none of whose words is a name of [Object.prototype], the
    comparator of the sort is the difference of the frequencies. *)
Lemma extractKeywords_por_frequencia (c : jschar) (t : jsstring)
    (maxKeywords : nat) :
  let toks := filteredWords (c :: t) in
  (forall w, In w toks -> includes objectPrototypeKeys w = false) ->
  arraySort (compararFrequencia (wordFrequency (c :: t)))
    (objectKeys (wordFrequency (c :: t))) =
  arraySort (porFrequencia toks) (objectKeys (wordFrequency (c :: t))).
Proof.
  intros toks H.
  assert (Hc : contagemDe toks (wordFrequency (c :: t))).
  { unfold wordFrequency. fold toks.
    apply (contar_todas toks (vistas := []) contagem_inicial).
    exact H. }
  assert (Hin : forall a, In a (objectKeys (wordFrequency (c :: t))) ->
                          In a toks).
  { intros a Ha. apply (Permutation_in _ (objectKeys_perm _)) in Ha.
    destruct Hc as [Hk _]. rewrite Hk in Ha.
    apply (proj1 (primeiras_In _ _)) in Ha. exact Ha. }
  apply arraySort_ext. intros a b Ha Hb.
  apply compararFrequencia_contagem; [exact Hc | apply Hin; exact Ha
                                     | apply Hin; exact Hb].
Qed.

(** C10, as amended: [extractKeywords(text, maxKeywords)] lower-cases the
    text, strips the punctuation set, collapses runs of white space, splits
    on spaces and discards the words of length at most 2 and the stop words
    ([filteredWords]). For every text it returns at most [maxKeywords]
    words of them, no word twice: the first [maxKeywords] of an
    arrangement [todas] of the distinct words. Where no word is a name of
    [Object.prototype], [todas] is by descending frequency, and words of
    equal frequency come in the order of [Object.keys]: first the decimal
    numerals of array indices ([indices]), by ascending number, then the
    other words in first-seen order. Where moreover no word is such a
    numeral, the result is that of the specification: descending frequency,
    ties in first-seen order. Empty and non-string input gives the empty
    sequence. *)
Theorem extractKeywords_caracterizacao (text : jsstring) (maxKeywords : nat) :
  let toks := filteredWords text in
  let distintas := primeirasOcorrencias toks in
  let r := extractKeywords (JStr text) maxKeywords in
  length r <= maxKeywords
  /\ NoDup r
  /\ (forall w, In w r -> In w toks)
  /\ (text <> [] ->
      exists todas indices,
        r = firstn maxKeywords todas
        /\ Permutation todas distintas
        /\ Permutation indices (filter isArrayIndex distintas)
        /\ StronglySorted
             (fun a b => (valorDecimal a <= valorDecimal b)%N) indices
        /\ ((forall w, In w toks ->
               includes objectPrototypeKeys w = false) ->
            StronglySorted
              (fun a b => frequencia toks b <= frequencia toks a) todas
            /\ forall n,
                 filter (fun w => frequencia toks w =? n) todas =
                 filter (fun w => frequencia toks w =? n)
                   (indices
                    ++ filter (fun w => negb (isArrayIndex w)) distintas)))
  /\ ((forall w, In w toks ->
         isArrayIndex w = false /\ includes objectPrototypeKeys w = false) ->
      r = extractKeywords_spec (JStr text) maxKeywords)
  /\ (forall v, (forall s, v <> JStr s) ->
                extractKeywords v maxKeywords = [])
  /\ extractKeywords (JStr []) maxKeywords = [].
Proof using toLowerCase.
  intros toks distintas r.
  set (o := wordFrequency text).
  set (todas := arraySort (compararFrequencia o) (objectKeys o)).
  set (indices :=
         arraySort
           (fun a b => (Z.of_N (valorDecimal a) - Z.of_N (valorDecimal b))%Z)
           (filter isArrayIndex distintas)).
  assert (Hperm : Permutation todas distintas).
  { apply Permutation_trans with (1 := arraySort_perm _ _).
    apply Permutation_trans with (1 := objectKeys_perm o).
    unfold o, wordFrequency, distintas, toks.
    rewrite (chaves_todas (filteredWords text) [] []) by reflexivity.
    apply Permutation_refl. }
  assert (Hr : text <> [] -> r = firstn maxKeywords todas).
  { intros Hne. subst r. destruct text as [|c t];
      [exfalso; apply Hne; reflexivity | reflexivity]. }
  refine (conj _ (conj _ (conj _ (conj _ (conj _ (conj _ _)))))).
  - destruct text as [|c t]; [apply Nat.le_0_l|].
    rewrite Hr by discriminate. apply firstn_le_length.
  - destruct text as [|c t]; [constructor|].
    rewrite Hr by discriminate. apply NoDup_firstn.
    apply (Permutation_NoDup (Permutation_sym Hperm)).
    apply primeiras_NoDup.
  - destruct text as [|c t]; [intros w []|].
    rewrite Hr by discriminate. intros w Hw.
    apply (proj1 (primeiras_In _ _)). apply (Permutation_in _ Hperm).
    apply (In_firstn maxKeywords _ _ Hw).
  - intros Hne. exists todas, indices.
    split; [apply Hr; exact Hne|]. split; [exact Hperm|].
    split; [apply arraySort_perm|].
    split; [apply (arraySort_crescente valorDecimal)|].
    intros Hp. destruct text as [|c t];
      [exfalso; apply Hne; reflexivity|].
    assert (Et : todas = arraySort (porFrequencia toks) (objectKeys o))
      by (apply (extractKeywords_por_frequencia c t maxKeywords Hp)).
    rewrite Et. split.
    + apply (arraySort_ordenada (frequencia toks)).
    + intros n. unfold o. rewrite objectKeys_wordFrequency.
      apply arraySort_estavel. intros x y Hx Hy.
      apply Nat.eqb_eq in Hx, Hy. unfold porFrequencia.
      rewrite Z.gtb_ltb. apply Z.ltb_ge. lia.
  - intros H. subst r. destruct text as [|c t]; [reflexivity|].
    rewrite extractKeywords_ordenados by exact H. reflexivity.
  - intros v Hv. destruct v; try reflexivity. exfalso; eapply Hv; reflexivity.
  - reflexivity.
Qed.

(* ================================================================== *)
(** ** Response cache *)
(* ================================================================== *)

Lemma filter_filter_implica A (p q : A -> bool) (l : list A) :
  (forall x, q x = true -> p x = true) ->
  filter q (filter p l) = filter q l.
Proof.
  intros H. induction l as [|x l IH]; simpl; [reflexivity|].
  destruct (p x) eqn:Px; simpl.
  - rewrite IH; reflexivity.
  - destruct (q x) eqn:Qx; [|exact IH].
    rewrite (H x Qx) in Px; discriminate.
Qed.

Lemma find_filter A (q : A -> bool) (l : list A) :
  match filter q l with
  | r :: _ => Some r
  | [] => None
  end = find q l.
Proof.
  induction l as [|x l IH]; simpl; [reflexivity|].
  destruct (q x); [reflexivity | exact IH].
Qed.

Lemma firstn_min_10 A (l : list A) :
  firstn (Nat.min (length l) 10) l = firstn 10 l.
Proof.
  destruct (Nat.le_ge_cases (length l) 10) as [H|H].
  - rewrite Nat.min_l by exact H.
    rewrite firstn_all, firstn_all2 by exact H. reflexivity.
  - rewrite Nat.min_r by exact H. reflexivity.
Qed.

Lemma ceil06_pos (n : nat) : 0 < n -> 0 < ceil06 n.
Proof.
  intros H. unfold ceil06. apply Nat.div_str_pos. lia.
Qed.

Lemma matchCount_casa (searchKeywords : list jsstring) (r : RespDoc) :
  0 < matchCount searchKeywords r -> casaPalavras searchKeywords r = true.
Proof.
  unfold matchCount, casaPalavras. destruct (r_palavras_chave r) as [kws|];
    [|lia].
  induction kws as [|k kws IH]; simpl; [lia|].
  destruct (includes searchKeywords k); simpl; [reflexivity | exact IH].
Qed.

Lemma operacao_realizada A (f : Db -> A * Db) (st : Estado) :
  hd false (falhas st) = false ->
  operacao f st =
  (Ok (fst (f (db st))),
   {| db := snd (f (db st)); falhas := tl (falhas st);
      consoleError := consoleError st; chamadas := chamadas st |}).
Proof.
  unfold operacao. destruct (falhas st) as [|[|] r]; simpl; intros H;
    try discriminate; destruct (f (db st)); reflexivity.
Qed.

(** C5, as amended: for a keyword list that is not empty,
    [findResponseByKeywords] takes its first 10 keywords, computes
    [minMatches = ceil(0.6 * count)] and returns the first stored response,
    in the iteration order of the store, of whose keywords at least
    [minMatches] occur among them; for the empty list it returns none.
    The cached entry with keywords nome, usuario, cadastro is hit by
    nome, usuario, endereco and missed by nome, endereco. *)
Theorem findResponseByKeywords_limiar (keywords : list jsstring)
    (st : Estado) :
  hd false (falhas st) = false ->
  (keywords <> [] ->
   findResponseByKeywords (Some keywords) st =
   (Ok (findResponseByKeywords_spec keywords (responses (db st))),
    aposOperacao st))
  /\ (keywords = [] ->
      findResponseByKeywords (Some keywords) st = (Ok None, aposOperacao st))
  /\ (responses (db st) = [respostaCadastro] ->
      fst (findResponseByKeywords
             (Some [js "nome"; js "usuario"; js "endereco"]) st) =
        Ok (Some (0, respostaCadastro))
      /\ fst (findResponseByKeywords
                (Some [js "nome"; js "endereco"]) st) = Ok None).
Proof.
  intros Hf.
  assert (Hgeral : forall kws,
            findResponseByKeywords (Some kws) st =
            (Ok match filter (fun ir =>
                         (ceil06 (length (firstn 10 kws)) <=?
                          matchCount (firstn 10 kws) (snd ir))%nat)
                       (filter (fun ir => casaPalavras (firstn 10 kws) (snd ir))
                               (indexar (responses (db st)))) with
                | r :: _ => Some r
                | [] => None
                end, aposOperacao st)).
  { intros kws. unfold findResponseByKeywords, tentar, bind.
    rewrite operacao_realizada by exact Hf. cbn [fst snd].
    rewrite firstn_min_10.
    match goal with
    | |- context [filter ?q (filter ?p ?l)] => destruct (filter q (filter p l))
    end; reflexivity. }
  split; [|split].
  - intros Hne. rewrite Hgeral. unfold findResponseByKeywords_spec.
    rewrite filter_filter_implica, find_filter; [reflexivity|].
    intros [i r] Hq. cbn [snd] in *. apply matchCount_casa.
    apply Nat.leb_le in Hq.
    assert (0 < ceil06 (length (firstn 10 keywords))).
    { apply ceil06_pos. destruct keywords; [congruence | simpl; lia]. }
    lia.
  - intros ->. rewrite Hgeral. simpl firstn.
    rewrite (filter_nenhum (fun ir : nat * RespDoc => casaPalavras [] (snd ir)));
      [reflexivity|].
    intros [i r] _. unfold casaPalavras. cbn [snd].
    destruct (r_palavras_chave r) as [kws|]; [|reflexivity].
    induction kws; simpl; auto.
  - intros Hr. rewrite !Hgeral, Hr. vm_compute. split; reflexivity.
Qed.

(* ================================================================== *)
(** ** Fact translator *)
(* ================================================================== *)

Lemma eqOpt_true (o : option jsstring) (s : jsstring) :
  eqOpt o s = true <-> o = Some s.
Proof.
  destruct o as [x|]; simpl.
  - rewrite streq_eq. split; [intros ->; reflexivity | congruence].
  - split; discriminate.
Qed.

Lemma coletar_app A B (f : A -> option B) (l1 l2 : list A) :
  coletar f (l1 ++ l2) = coletar f l1 ++ coletar f l2.
Proof.
  induction l1 as [|x l1 IH]; simpl; [reflexivity|].
  destruct (f x); simpl; rewrite IH; reflexivity.
Qed.

Lemma coletar_In A B (f : A -> option B) (l : list A) (y : B) :
  In y (coletar f l) <-> exists x, In x l /\ f x = Some y.
Proof.
  induction l as [|a l IH]; simpl.
  - split; [tauto | intros [x [[] _]]].
  - destruct (f a) eqn:E; simpl; rewrite IH; split.
    + intros [<-|[x [Hx Hf]]]; [exists a; auto | exists x; auto].
    + intros [x [[<-|Hx] Hf]]; [left; congruence | right; exists x; auto].
    + intros [x [Hx Hf]]; exists x; auto.
    + intros [x [[<-|Hx] Hf]]; [congruence | exists x; auto].
Qed.

Lemma traduzir_lista (arm : bool) (es : list (option Entrada))
    (idUsuario agora : jsstring) :
  traduzirParaModeloDados
    (Some {| armazenar := arm; entradas := Some es |}) idUsuario agora =
  Ok (if arm
      then removerDuplicatas (coletar (traduzirEntrada idUsuario agora) es) []
      else []).
Proof.
  destruct arm, es; reflexivity.
Qed.

Lemma fatoMapeado_certeza (idUsuario agora : jsstring) (e : Entrada) :
  certezaDe e <> Some ALTA ->
  fatoMapeado idUsuario agora (Some e) = None.
Proof.
  intros H. unfold fatoMapeado.
  destruct (ent_tipo e) as [[|c t]|]; try reflexivity.
  destruct (ent_sujeito e); try reflexivity.
  destruct (ent_predicado e); try reflexivity.
  destruct (eqOpt (certezaDe e) ALTA) eqn:E; [|reflexivity].
  apply eqOpt_true in E. contradiction.
Qed.

(** C2: an entry whose [contexto.certeza] is not "ALTA" is passed over by
    the translator, whatever the batch and the user: no fact is made of
    it, and the output is what it would be without the entry. *)
Theorem certeza_nao_alta_descartada (idUsuario agora : jsstring)
    (e : Entrada) :
  certezaDe e <> Some ALTA ->
  traduzirEntrada idUsuario agora (Some e) = None
  /\ forall (arm : bool) (antes depois : list (option Entrada)),
       traduzirParaModeloDados
         (Some {| armazenar := arm;
                  entradas := Some (antes ++ Some e :: depois) |})
         idUsuario agora =
       traduzirParaModeloDados
         (Some {| armazenar := arm; entradas := Some (antes ++ depois) |})
         idUsuario agora.
Proof.
  intros H.
  assert (Hn : traduzirEntrada idUsuario agora (Some e) = None).
  { unfold traduzirEntrada. rewrite fatoMapeado_certeza by exact H.
    reflexivity. }
  split; [exact Hn|].
  intros arm antes depois. rewrite !traduzir_lista, !coletar_app.
  simpl coletar. rewrite Hn. reflexivity.
Qed.

Lemma removerDuplicatas_In (l : list Fato) (vistas : list jsstring)
    (f : Fato) :
  In f (removerDuplicatas l vistas) -> In f l.
Proof.
  revert vistas; induction l as [|x l IH]; simpl; intros vistas H; [exact H|].
  destruct (includes vistas (chaveUnica x)).
  - right; eapply IH; exact H.
  - destruct H as [H|H]; [left; exact H | right; eapply IH; exact H].
Qed.

Lemma finalizar_valor (bruto fato : Fato) :
  finalizarFato bruto = Some fato ->
  exists v, f_valor bruto = Some v
            /\ f_valor fato = Some (truncarValor (trim v)).
Proof.
  unfold finalizarFato.
  destruct (negb (truthy (f_tipo bruto)) || negb (truthy (f_chave bruto))
            || negb (truthy (f_entidade bruto))
            || negb (truthy (f_valor bruto))); [discriminate|].
  destruct (f_valor bruto) as [v|]; [|discriminate].
  destruct (length (trim v) =? 0); [discriminate|].
  intros H; inversion H; subst; clear H. exists v; split; reflexivity.
Qed.

Lemma truncarValor_longo (v : jsstring) :
  500 < length v -> truncarValor v = firstn 500 v ++ js "...".
Proof.
  intros H. unfold truncarValor, substring.
  apply Nat.ltb_lt in H. rewrite H. reflexivity.
Qed.

Lemma truncarValor_curto (v : jsstring) :
  length v <= 500 -> truncarValor v = v.
Proof.
  intros H. unfold truncarValor.
  apply Nat.ltb_ge in H. rewrite H. reflexivity.
Qed.

(** C9: every fact of the translator's output comes from an entry of the
    batch, and where the trimmed value the entry maps to is longer than 500
    code units, the fact keeps its first 500 followed by "..."; a value of
    600 is kept as its first 500 and the ellipsis. *)
Theorem valor_truncado (k : Conhecimento) (idUsuario agora : jsstring)
    (fatos : list Fato) (fato : Fato) :
  traduzirParaModeloDados (Some k) idUsuario agora = Ok fatos ->
  In fato fatos ->
  exists es entrada bruto v,
    entradas k = Some es /\ In entrada es
    /\ fatoMapeado idUsuario agora entrada = Some bruto
    /\ f_valor bruto = Some v
    /\ traduzirEntrada idUsuario agora entrada = Some fato
    /\ (500 < length (trim v) ->
        f_valor fato = Some (firstn 500 (trim v) ++ js "..."))
    /\ (length (trim v) = 600 ->
        f_valor fato = Some (firstn 500 (trim v) ++ js "..."))
    /\ (length (trim v) <= 500 -> f_valor fato = Some (trim v)).
Proof.
  destruct k as [arm [es|]]; intros H Hin.
  - rewrite traduzir_lista in H. inversion H; subst fatos; clear H.
    destruct arm; [|destruct Hin].
    apply removerDuplicatas_In in Hin. apply coletar_In in Hin.
    destruct Hin as [entrada [Hes Ht]].
    pose proof Ht as Ht'. unfold traduzirEntrada in Ht'.
    destruct (fatoMapeado idUsuario agora entrada) as [bruto|] eqn:Hb;
      [|discriminate].
    destruct (finalizar_valor _ Ht') as [v [Hv Hf]].
    exists es, entrada, bruto, v.
    repeat (split; [solve [auto]|]). split; [|split].
    + intros Hl. rewrite Hf, truncarValor_longo by exact Hl. reflexivity.
    + intros Hl. rewrite Hf, truncarValor_longo by lia. reflexivity.
    + intros Hl. rewrite Hf, truncarValor_curto by exact Hl. reflexivity.
  - unfold traduzirParaModeloDados in H. simpl in H.
    destruct arm; simpl in H; inversion H; subst; destruct Hin.
Qed.






(** The update [saveFact] sends names [last_updated] under [$set] and
    under [$currentDate], and is rejected. *)
Lemma updateOne_rejeitada (id : nat) (f : Fato) (valor : jsstring)
    (agora : instante) :
  updateOne id
    {| u_set := camposDeUpdateData f;
       u_currentDate := [js "last_updated"];
       u_escrever := atualizarDoc f valor agora |} = operacaoRejeitada.
Proof. reflexivity. Qed.

(** The state after a save that was rejected by the store or by the
    guard: one more line on the log. *)
Lemma saveFact_sem_falhas (f : Fato) (agora : instante) (st : Estado)
    (tipo chave entidade valor : jsstring) :
  falhas st = [] ->
  camposEssenciais f = Some (tipo, chave, entidade, valor) ->
  saveFact f agora st =
  let q := consultaDe tipo chave entidade (f_conceito f) in
  match primeiro (casaFato q) (indexar (facts (db st))) with
  | Some (id, _) =>
      (Ok NaoGravado,
       {| db := db st; falhas := [];
          consoleError := consoleError st ++ [js "Erro ao salvar fato:"];
          chamadas := chamadas st |})
  | None =>
      (Ok (Gravado false),
       estadoComFatos st (facts (db st) ++ [novoDoc f q valor agora]))
  end.
Proof.
  intros Hf Hc. unfold saveFact, tentar, bind. rewrite Hc.
  rewrite operacao_realizada by (rewrite Hf; reflexivity). cbn [fst snd].
  destruct (primeiro
              (casaFato (consultaDe tipo chave entidade (f_conceito f)))
              (indexar (facts (db st)))) as [[id d]|].
  - rewrite updateOne_rejeitada. unfold operacaoRejeitada, consoleErro, ret.
    cbn [db falhas consoleError chamadas tl]. rewrite Hf. reflexivity.
  - rewrite operacao_realizada by (cbn; rewrite Hf; reflexivity).
    cbn; rewrite Hf; reflexivity.
Qed.

Lemma operacao_falha A (f : Db -> A * Db) (st : Estado) (r : list bool) :
  falhas st = true :: r -> operacao f st = (Lancou, aposOperacao st).
Proof. intros H. unfold operacao, aposOperacao. rewrite H. reflexivity. Qed.

(** What a save does, whichever operations on the store fail: it adds
    the record of the fact at the end of the collection, or it changes no
    fact and writes a line on the log. *)
Lemma saveFact_casos (f : Fato) (agora : instante) (st : Estado) :
  (fst (saveFact f agora st) = Ok NaoGravado
   /\ facts (db (snd (saveFact f agora st))) = facts (db st)
   /\ exists linha,
        consoleError (snd (saveFact f agora st)) = consoleError st ++ [linha])
  \/ (exists tipo chave entidade valor,
        camposEssenciais f = Some (tipo, chave, entidade, valor)
        /\ primeiro
             (casaFato (consultaDe tipo chave entidade (f_conceito f)))
             (indexar (facts (db st))) = None
        /\ fst (saveFact f agora st) = Ok (Gravado false)
        /\ facts (db (snd (saveFact f agora st))) =
           facts (db st)
           ++ [novoDoc f (consultaDe tipo chave entidade (f_conceito f))
                 valor agora]).
Proof.
  destruct (camposEssenciais f) as [[[[tp ch] en] vl]|] eqn:Hc.
  - destruct (falhas st) as [|[|] r] eqn:Hf.
    + rewrite (saveFact_sem_falhas _ _ _ Hf Hc). cbv zeta.
      destruct (primeiro _ _) as [[i d]|] eqn:Ep.
      * left. cbn. split; [reflexivity|].
        split; [reflexivity | eexists; reflexivity].
      * right. exists tp, ch, en, vl. split; [reflexivity|].
        split; [exact Ep|]. split; reflexivity.
    + left. unfold saveFact, tentar, bind. rewrite Hc.
      rewrite (operacao_falha _ _ Hf). cbn. split; [reflexivity|].
      split; [reflexivity | eexists; reflexivity].
    + unfold saveFact, tentar, bind. rewrite Hc.
      rewrite operacao_realizada by (rewrite Hf; reflexivity).
      cbn [fst snd].
      destruct (primeiro _ _) as [[i d]|] eqn:Ep.
      * left. rewrite updateOne_rejeitada. cbn. split; [reflexivity|].
        split; [reflexivity | eexists; reflexivity].
      * destruct r as [|[|] r'].
        -- right. exists tp, ch, en, vl. split; [reflexivity|].
           split; [exact Ep|].
           rewrite operacao_realizada by (cbn; rewrite Hf; reflexivity).
           cbn. split; reflexivity.
        -- left. erewrite operacao_falha by (cbn; rewrite Hf; reflexivity).
           cbn. split; [reflexivity|].
           split; [reflexivity | eexists; reflexivity].
        -- right. exists tp, ch, en, vl. split; [reflexivity|].
           split; [exact Ep|].
           rewrite operacao_realizada by (cbn; rewrite Hf; reflexivity).
           cbn. split; reflexivity.
  - left. unfold saveFact, tentar, bind. rewrite Hc. cbn.
    split; [reflexivity|]. split; [reflexivity | eexists; reflexivity].
Qed.


Lemma fatoMapeado_contexto (idUsuario agora : jsstring)
    (entrada : option Entrada) (bruto : Fato) :
  fatoMapeado idUsuario agora entrada = Some bruto ->
  exists fonte tipo suj pred obj,
    mapearEntrada idUsuario (contextoBase fonte agora) tipo suj pred obj =
    Some bruto.
Proof.
  unfold fatoMapeado. destruct entrada as [e|]; [|discriminate].
  destruct (ent_tipo e) as [[|c t]|]; try discriminate.
  destruct (ent_sujeito e) as [suj|]; [|discriminate].
  destruct (ent_predicado e) as [pred|]; [|discriminate].
  destruct (negb (eqOpt (certezaDe e) ALTA)); [discriminate|].
  destruct (negb (includes tiposPermitidos (c :: t))); [discriminate|].
  destruct (negb (includesOpt sujeitosPermitidos (suj_tipo suj)));
    [discriminate|].
  destruct (negb (validarPorTipo (c :: t) suj pred (ent_objeto e)));
    [discriminate|].
  intros H. do 5 eexists. exact H.
Qed.

Lemma In_tiposDeFato (n : nat) (t : jsstring) :
  nth_error tiposDeFato n = Some t -> In t tiposDeFato.
Proof. apply nth_error_In. Qed.

Lemma mapearEntrada_forma (idUsuario : jsstring) (ctx : ContextoFato)
    (tipo : jsstring) (suj : Sujeito) (pred : Predicado)
    (obj : option Objeto) (bruto : Fato) :
  mapearEntrada idUsuario ctx tipo suj pred obj = Some bruto ->
  (exists t, f_tipo bruto = Some t /\ In t tiposDeFato)
  /\ f_contexto bruto = Some ctx.
Proof.
  unfold mapearEntrada.
  destruct (streq tipo (js "fato_identidade")).
  { intros H; inversion H; subst; clear H. cbn [f_tipo f_contexto].
    split; [|reflexivity]. eexists; split; [reflexivity|].
    apply (In_tiposDeFato 0); reflexivity. }
  destruct (streq tipo (js "fato_relacao")).
  { destruct obj as [o|]; [|discriminate].
    intros H; inversion H; subst; clear H. cbn [f_tipo f_contexto].
    split; [|reflexivity]. eexists; split; [reflexivity|].
    apply (In_tiposDeFato 1); reflexivity. }
  destruct (streq tipo (js "fato_definicao")).
  { intros H; inversion H; subst; clear H. cbn [f_tipo f_contexto].
    split; [|reflexivity]. eexists; split; [reflexivity|].
    apply (In_tiposDeFato 2); reflexivity. }
  destruct (streq tipo (js "fato_propriedade")).
  { intros H; inversion H; subst; clear H. cbn [f_tipo f_contexto].
    split; [|reflexivity]. eexists; split; [reflexivity|].
    apply (In_tiposDeFato 3); reflexivity. }
  destruct (streq tipo (js "fato_entidade")); [|discriminate].
  intros H; inversion H; subst; clear H. cbn [f_tipo f_contexto].
  split; [|reflexivity]. eexists; split; [reflexivity|].
  apply (In_tiposDeFato 4); reflexivity.
Qed.

Lemma truncarValor_length (v : jsstring) :
  0 < length v -> 0 < length (truncarValor v) <= 503.
Proof.
  intros Hv. destruct (Nat.le_gt_cases (length v) 500) as [H|H].
  - rewrite truncarValor_curto by exact H. split; [exact Hv|].
    apply Nat.le_trans with (1 := H). repeat constructor.
  - rewrite truncarValor_longo by exact H.
    rewrite length_app, length_firstn, (Nat.min_l 500 (length v))
      by (apply Nat.lt_le_incl; exact H).
    change (length (js "...")) with 3. split.
    + apply Nat.lt_0_succ.
    + apply Nat.le_refl.
Qed.

Lemma finalizar_forma (bruto fato : Fato) :
  finalizarFato bruto = Some fato ->
  f_tipo fato = f_tipo bruto
  /\ (exists ch, f_chave fato = Some ch)
  /\ truthy (f_entidade fato) = true
  /\ (exists v, f_valor fato = Some v /\ 0 < length v <= 503)
  /\ f_contexto fato = f_contexto bruto.
Proof.
  unfold finalizarFato.
  destruct (truthy (f_tipo bruto)) eqn:E1; [|discriminate].
  destruct (truthy (f_chave bruto)) eqn:E2; [|discriminate].
  destruct (truthy (f_entidade bruto)) eqn:E3; [|discriminate].
  destruct (truthy (f_valor bruto)) eqn:E4; [|discriminate].
  cbn [negb orb]. destruct (f_valor bruto) as [v|]; [|discriminate].
  destruct (length (trim v) =? 0) eqn:El; [discriminate|].
  intros H; inversion H; subst; clear H.
  cbn [f_tipo f_chave f_entidade f_valor f_contexto].
  split; [reflexivity|]. split.
  - destruct (f_chave bruto) as [ch|]; [|discriminate].
    eexists; reflexivity.
  - split; [exact E3|]. split; [|reflexivity].
    eexists; split; [reflexivity|]. apply truncarValor_length.
    apply Nat.eqb_neq in El. apply Nat.neq_0_lt_0; exact El.
Qed.

Lemma traduzirEntrada_forma (idUsuario agora : jsstring)
    (entrada : option Entrada) (f : Fato) :
  traduzirEntrada idUsuario agora entrada = Some f ->
  (exists t, f_tipo f = Some t /\ In t tiposDeFato)
  /\ (exists ch, f_chave f = Some ch)
  /\ truthy (f_entidade f) = true
  /\ (exists v, f_valor f = Some v /\ 0 < length v <= 503)
  /\ (exists fonte,
        f_contexto f = Some {| cf_certeza := ALTA; cf_fonte := fonte;
                               cf_timestamp := agora |}).
Proof.
  unfold traduzirEntrada.
  destruct (fatoMapeado idUsuario agora entrada) as [bruto|] eqn:Eb;
    [|discriminate].
  intros Hf.
  destruct (fatoMapeado_contexto _ _ _ Eb)
    as (fonte & tipo & suj & pred & obj & Hm).
  destruct (mapearEntrada_forma _ _ _ _ _ _ Hm) as [Ht Hc].
  destruct (finalizar_forma _ Hf) as (F1 & F2 & F3 & F4 & F5).
  split; [rewrite F1; exact Ht|]. split; [exact F2|].
  split; [exact F3|]. split; [exact F4|].
  exists (ouPadrao fonte (js "api")). rewrite F5, Hc. reflexivity.
Qed.





(* ================================================================== *)
(** ** Classifier adapter *)
(* ================================================================== *)

Lemma extrair_certeza (userMessage : jsstring)
    (senderInfo : option SenderInfo) (entrada : Entrada) :
  extrairConhecimentoBasico userMessage senderInfo = Ok entrada ->
  certezaDe entrada = Some ALTA.
Proof.
  unfold extrairConhecimentoBasico. intros H.
  repeat match type of H with
         | (if ?c then _ else _) = _ => destruct c
         | match ?x with _ => _ end = _ => destruct x
         end;
    try discriminate; inversion H; reflexivity.
Qed.

Lemma forcarEntradas_certeza (l l' : list (option Entrada)) :
  forcarEntradas l = Ok l' ->
  length l' = length l
  /\ Forall (fun x => exists e, x = Some e /\ certezaDe e = Some ALTA) l'.
Proof.
  revert l'; induction l as [|[e|] l IH]; simpl; intros l' H.
  - inversion H; split; [reflexivity | constructor].
  - destruct (forcarEntradas l) as [r|]; [|discriminate].
    inversion H; subst; clear H. destruct (IH r eq_refl) as [Hl Hf].
    split; [simpl; rewrite Hl; reflexivity|].
    constructor; [|exact Hf].
    exists (forcarCerteza e); split; [reflexivity|].
    unfold certezaDe, forcarCerteza. cbn [ent_contexto].
    destruct (ent_contexto e); reflexivity.
  - discriminate.
Qed.


(* ================================================================== *)
(** ** Message orchestrator *)
(* ================================================================== *)

Lemma bind_ok A B (m : M A) (k : A -> M B) (st st' : Estado) (a : A) :
  m st = (Ok a, st') -> bind m k st = k a st'.
Proof. intros H. unfold bind. rewrite H. reflexivity. Qed.

Lemma bind_lancou A B (m : M A) (k : A -> M B) (st st' : Estado) :
  m st = (Lancou, st') -> bind m k st = (Lancou, st').
Proof. intros H. unfold bind. rewrite H. reflexivity. Qed.

Lemma tentar_ok A (m h : M A) (st st' : Estado) (a : A) :
  m st = (Ok a, st') -> tentar m h st = (Ok a, st').
Proof. intros H. unfold tentar. rewrite H. reflexivity. Qed.

Lemma tentar_lancou A (m h : M A) (st st' : Estado) :
  m st = (Lancou, st') -> tentar m h st = h st'.
Proof. intros H. unfold tentar. rewrite H. reflexivity. Qed.

Lemma bind_registrar A (c : Chamada) (k : unit -> M A) (st : Estado) :
  bind (registrar c) k st = k tt (comChamada st c).
Proof. reflexivity. Qed.

Lemma findResponseByKeywords_eq (keywords : list jsstring) (st : Estado) :
  findResponseByKeywords (Some keywords) st =
  match falhas st with
  | true :: _ =>
      (Ok None,
       {| db := db st; falhas := tl (falhas st);
          consoleError :=
            consoleError st
            ++ [js "Erro ao buscar resposta por palavras-chave:"];
          chamadas := chamadas st |})
  | _ => (Ok (respostaEmCache keywords (responses (db st))), aposOperacao st)
  end.
Proof.
  unfold findResponseByKeywords, respostaEmCache, tentar, bind, operacao,
    aposOperacao.
  destruct (falhas st) as [|[|] r]; cbn [fst snd tl]; try reflexivity;
    match goal with
    | |- context [filter ?q (filter ?p ?l)] => destruct (filter q (filter p l))
    end; reflexivity.
Qed.

Lemma findResponseByKeywords_vazia (st : Estado) :
  fst (findResponseByKeywords (Some []) st) = Ok None.
Proof.
  rewrite findResponseByKeywords_eq.
  destruct (falhas st) as [|[|] r]; try reflexivity;
    unfold respostaEmCache; cbn [length Nat.min firstn fst];
    (rewrite (filter_nenhum
                (fun ir : nat * RespDoc => casaPalavras [] (snd ir)));
     [reflexivity|]);
    intros [i x] _; unfold casaPalavras; cbn [snd];
    (destruct (r_palavras_chave x) as [kws|]; [|reflexivity]);
    induction kws; simpl; auto.
Qed.

(** C6: for a message that is no learning command, where the lookup in the
    response cache on the extracted keywords succeeds, the reply is the
    cached answer text under the display name; the lookup is the only call
    made (no request to the classifier, no analysis of a query), whatever
    the classifier would have answered, and the store is left as it was. *)
Theorem resposta_em_cache (message : Mensagem) (texto : jsstring)
    (st : Estado) (id : nat) (r : RespDoc) :
  extractMessageText message = Some texto ->
  startsWith (js "/aprender ") texto = false ->
  fst (findResponseByKeywords (Some (extractKeywords (JStr texto) 10)) st) =
    Ok (Some (id, r)) ->
  forall (api : RespostaApi) (agora : instante),
    fst (processMessage message api agora st) =
      Ok (Some (formatarResposta (r_resposta r)))
    /\ chamadas (snd (processMessage message api agora st)) =
       chamadas st
       ++ [ChFindResponseByKeywords (extractKeywords (JStr texto) 10)]
    /\ db (snd (processMessage message api agora st)) = db st.
Proof.
  intros Ht Hl Hhit api agora.
  destruct texto as [|c t].
  { rewrite findResponseByKeywords_vazia in Hhit. discriminate. }
  set (kws := extractKeywords (JStr (c :: t)) 10) in *.
  assert (E : processMessage message api agora st =
              (Ok (Some (formatarResposta (r_resposta r))),
               aposOperacao (comChamada st (ChFindResponseByKeywords kws)))).
  { unfold processMessage. rewrite Ht. cbv beta iota zeta. rewrite Hl.
    cbv beta iota zeta. fold kws.
    rewrite bind_registrar.
    rewrite findResponseByKeywords_eq in Hhit.
    rewrite (@bind_ok _ _ _ _ _
               (aposOperacao (comChamada st (ChFindResponseByKeywords kws)))
               (Some (id, r))).
    2:{ apply tentar_ok. rewrite findResponseByKeywords_eq.
        unfold aposOperacao, comChamada. cbn [falhas db].
        destruct (falhas st) as [|[|] resto]; cbn [fst] in Hhit;
          try discriminate; inversion Hhit as [Hr]; rewrite Hr;
          reflexivity. }
    reflexivity. }
  rewrite E. repeat split; reflexivity.
Qed.


(* ------------------------------------------------------------------ *)
(** *** What the effects leave unchanged *)

Lemma fixa_ret X (p : Estado -> X) A (a : A) : fixa p (ret a).
Proof. intros st; reflexivity. Qed.

Lemma fixa_lancar X (p : Estado -> X) A : fixa p (@lancar A).
Proof. intros st; reflexivity. Qed.

Lemma fixa_bind X (p : Estado -> X) A B (m : M A) (k : A -> M B) :
  fixa p m -> (forall a, fixa p (k a)) -> fixa p (bind m k).
Proof.
  intros Hm Hk st. unfold bind. specialize (Hm st).
  destruct (m st) as [[a|] st']; cbn [snd] in *; [|exact Hm].
  rewrite Hk. exact Hm.
Qed.

Lemma fixa_tentar X (p : Estado -> X) A (m h : M A) :
  fixa p m -> fixa p h -> fixa p (tentar m h).
Proof.
  intros Hm Hh st. unfold tentar. specialize (Hm st).
  destruct (m st) as [[a|] st']; cbn [snd] in *; [exact Hm|].
  rewrite Hh. exact Hm.
Qed.

Lemma fixa_elevar X (p : Estado -> X) A (r : res A) : fixa p (elevar r).
Proof. destruct r; intros st; reflexivity. Qed.

Lemma db_consoleErro (linha : jsstring) : fixa db (consoleErro linha).
Proof. intros st; reflexivity. Qed.

Lemma db_registrar (c : Chamada) : fixa db (registrar c).
Proof. intros st; reflexivity. Qed.

Lemma db_leitura A (g : Db -> A) : fixa db (operacao (fun d => (g d, d))).
Proof.
  intros st. unfold operacao. destruct (falhas st) as [|[|] r]; reflexivity.
Qed.

Lemma ch_consoleErro (linha : jsstring) : fixa chamadas (consoleErro linha).
Proof. intros st; reflexivity. Qed.

Lemma ch_operacao A (f : Db -> A * Db) : fixa chamadas (operacao f).
Proof.
  intros st. unfold operacao.
  destruct (falhas st) as [|[|] r]; try reflexivity;
    destruct (f (db st)); reflexivity.
Qed.

Lemma sem_ret A (a : A) : semExcecao (ret a).
Proof. intros st; eexists; eexists; reflexivity. Qed.

Lemma sem_consoleErro (linha : jsstring) : semExcecao (consoleErro linha).
Proof. intros st; eexists; eexists; reflexivity. Qed.

Lemma sem_registrar (c : Chamada) : semExcecao (registrar c).
Proof. intros st; eexists; eexists; reflexivity. Qed.

Lemma sem_bind A B (m : M A) (k : A -> M B) :
  semExcecao m -> (forall a, semExcecao (k a)) -> semExcecao (bind m k).
Proof.
  intros Hm Hk st. destruct (Hm st) as (a & st' & E).
  destruct (Hk a st') as (b & st'' & E').
  exists b, st''. unfold bind. rewrite E. exact E'.
Qed.

Lemma sem_tentar A (m h : M A) : semExcecao h -> semExcecao (tentar m h).
Proof.
  intros Hh st. unfold tentar.
  destruct (m st) as [[a|] st']; [eexists; eexists; reflexivity|].
  apply Hh.
Qed.

(** The steps of a proof that some code fixes a component of the state. *)
Lemma ch_updateOne (id : nat) (u : Atualizacao) :
  fixa chamadas (updateOne id u).
Proof.
  unfold updateOne. destruct (existsb _ _); [|apply ch_operacao].
  intros st; reflexivity.
Qed.

Ltac quadro :=
  repeat first
    [ apply fixa_ret | apply fixa_lancar | apply fixa_elevar
    | apply db_consoleErro | apply db_registrar | apply db_leitura
    | apply ch_consoleErro | apply ch_operacao | apply ch_updateOne
    | apply fixa_tentar | apply fixa_bind
    | match goal with |- forall _, _ => intro end
    | match goal with
      | |- fixa _ (match ?x with _ => _ end) => destruct x
      | |- fixa _ (let (_, _) := ?x in _) => destruct x
      end ].

Lemma db_findResponseByKeywords (keywords : option (list jsstring)) :
  fixa db (findResponseByKeywords keywords).
Proof. unfold findResponseByKeywords. quadro. Qed.

Lemma db_findFact (tipo chave entidade : jsstring) :
  fixa db (findFact tipo chave entidade).
Proof. unfold findFact. quadro. Qed.

Lemma db_findRelationalFacts (tipo entidade : jsstring)
    (valor : option jsstring) :
  fixa db (findRelationalFacts tipo entidade valor).
Proof. unfold findRelationalFacts. quadro. Qed.

Lemma db_findConceptProperties (conceito : jsstring) :
  fixa db (findConceptProperties conceito).
Proof.
  unfold findConceptProperties. quadro; apply db_findFact.
Qed.

Lemma db_realizarConsulta (analiseConsulta : Consulta) (senderId : jsstring) :
  fixa db (realizarConsulta analiseConsulta senderId).
Proof.
  unfold realizarConsulta.
  quadro;
    first [ apply db_findFact | apply db_findRelationalFacts
          | apply db_findConceptProperties ].
Qed.

Lemma db_processarConsulta (data : RespostaJson) (processText : jsstring)
    (senderId : jsstring) :
  fixa db (processarConsulta data processText senderId).
Proof.
  unfold processarConsulta. quadro. apply db_realizarConsulta.
Qed.

Lemma executa A (m : M A) :
  semExcecao m -> fixa chamadas m ->
  forall st, exists a st', m st = (Ok a, st') /\ chamadas st' = chamadas st.
Proof.
  intros Hs Hc st. destruct (Hs st) as (a & st' & E).
  exists a, st'. split; [exact E|].
  specialize (Hc st). rewrite E in Hc. exact Hc.
Qed.

Lemma sem_findResponseByKeywords (keywords : option (list jsstring)) :
  semExcecao (findResponseByKeywords keywords).
Proof.
  unfold findResponseByKeywords. apply sem_tentar, sem_bind;
    [apply sem_consoleErro | intros; apply sem_ret].
Qed.

Lemma ch_findResponseByKeywords (keywords : option (list jsstring)) :
  fixa chamadas (findResponseByKeywords keywords).
Proof. unfold findResponseByKeywords. quadro. Qed.

Lemma sem_saveResponse (responseData : ResponseData) (agora : instante) :
  semExcecao (saveResponse responseData agora).
Proof.
  unfold saveResponse. apply sem_tentar, sem_bind;
    [apply sem_consoleErro | intros; apply sem_ret].
Qed.

Lemma ch_saveResponse (responseData : ResponseData) (agora : instante) :
  fixa chamadas (saveResponse responseData agora).
Proof.
  unfold saveResponse. quadro; apply ch_findResponseByKeywords.
Qed.

Lemma sem_saveFact (factData : Fato) (agora : instante) :
  semExcecao (saveFact factData agora).
Proof.
  unfold saveFact. apply sem_tentar, sem_bind;
    [apply sem_consoleErro | intros; apply sem_ret].
Qed.

Lemma ch_saveFact (factData : Fato) (agora : instante) :
  fixa chamadas (saveFact factData agora).
Proof. unfold saveFact. quadro. Qed.

(** Every fact of the list is handed to [saveFact], in order, whatever
    becomes of the saves before it. *)
Lemma salvarFatos_chamadas (fatos : list Fato) (agora : instante) :
  forall st, exists st',
    salvarFatos fatos agora st = (Ok tt, st')
    /\ chamadas st' = chamadas st ++ map ChSaveFact fatos.
Proof.
  induction fatos as [|f r IH]; intros st.
  - exists st. split; [reflexivity | rewrite app_nil_r; reflexivity].
  - destruct (executa (sem_saveFact f agora) (ch_saveFact f agora)
                (comChamada st (ChSaveFact f))) as (x & st1 & E1 & C1).
    destruct (IH st1) as (st2 & E2 & C2).
    exists st2. split.
    + cbn [salvarFatos].
      rewrite (@bind_ok _ _ _ _ _ st1 tt); [exact E2|].
      apply tentar_ok. rewrite bind_registrar.
      rewrite (bind_ok _ _ _ E1). reflexivity.
    + rewrite C2, C1. cbn [comChamada chamadas map].
      rewrite <- app_assoc. reflexivity.
Qed.

Lemma aprender_com_comando (data : RespostaJson) (senderId : jsstring)
    (agora : instante) (fatos : list Fato) :
  traduzirParaModeloDados (conhecimento data) senderId (toISOString agora) =
    Ok fatos ->
  forall st, exists st',
    aprenderOuResponder true data senderId agora st =
      (Ok (Some (respostaAprendizado (length fatos))), st')
    /\ chamadas st' =
       chamadas st ++ [ChTraduzirParaModeloDados; ChSaveResponse]
       ++ map ChSaveFact fatos.
Proof.
  intros Ht st. unfold aprenderOuResponder.
  rewrite bind_registrar, Ht. cbn [elevar].
  set (st1 := comChamada st ChTraduzirParaModeloDados).
  set (rd := {| rd_palavras_chave := palavras_chave data;
                rd_resposta := resposta data;
                rd_classificacao := classificacao data |}).
  destruct (executa (sem_saveResponse rd agora) (ch_saveResponse rd agora)
              (comChamada st1 ChSaveResponse)) as (x & st2 & E2 & C2).
  destruct (salvarFatos_chamadas fatos agora st2) as (st3 & E3 & C3).
  exists st3. split.
  - rewrite (@bind_ok _ _ _ _ st1 st1 fatos) by reflexivity.
    apply tentar_ok. rewrite bind_registrar.
    rewrite (bind_ok _ _ _ E2). rewrite (bind_ok _ _ _ E3). reflexivity.
  - rewrite C3, C2. subst st1. cbn [comChamada chamadas].
    rewrite <- !app_assoc. reflexivity.
Qed.

Lemma startsWith_nao_vazio (p s : jsstring) :
  p <> [] -> startsWith p s = true -> s <> [].
Proof. destruct p, s; simpl; congruence. Qed.

(** C4, as amended: for a learning command the classifier answered and
    the translator produced facts for, every fact is handed to [saveFact],
    in order and after the save of the response, whichever operations on
    the store fail; the reply is sent and reports the number of translated
    facts, the failed saves included. A save that fails throws nothing,
    writes one line with [console.error] and leaves the collection of facts
    as it was. *)
Theorem aprendizado_conta_traduzidos (message : Mensagem) (texto : jsstring)
    (api : RespostaApi) (agora : instante) (data : RespostaJson)
    (fatos : list Fato) :
  extractMessageText message = Some texto ->
  startsWith (js "/aprender ") texto = true ->
  getOpenAIResponse (trim (skipn 10 texto))
    (Some (extractSenderInfo message)) api = Sucesso data ->
  traduzirParaModeloDados (conhecimento data)
    (textoUndef (si_id (extractSenderInfo message))) (toISOString agora) =
    Ok fatos ->
  (forall st,
     fst (processMessage message api agora st) =
       Ok (Some (formatarResposta
                   (Some (respostaAprendizado (length fatos)))))
     /\ chamadas (snd (processMessage message api agora st)) =
        chamadas st
        ++ [ChFindResponseByKeywords
              (extractKeywords (JStr (trim (skipn 10 texto))) 10);
            ChGetOpenAIResponse (trim (skipn 10 texto));
            ChTraduzirParaModeloDados; ChSaveResponse]
        ++ map ChSaveFact fatos)
  /\ (forall (fato : Fato) (t : instante) (st : Estado),
        fst (saveFact fato t st) = Ok NaoGravado ->
        facts (db (snd (saveFact fato t st))) = facts (db st)
        /\ exists linha,
             consoleError (snd (saveFact fato t st)) =
             consoleError st ++ [linha]).
Proof.
  intros Ht Hl Ho Htr. split.
  - intros st.
    assert (Hne : texto <> []).
    { eapply startsWith_nao_vazio; [|exact Hl]. discriminate. }
    destruct texto as [|c t]; [congruence|].
    set (ptxt := trim (skipn 10 (c :: t))) in *.
    set (kws := extractKeywords (JStr ptxt) 10).
    set (c1 := ChFindResponseByKeywords kws).
    destruct (executa (sem_findResponseByKeywords (Some kws))
                (ch_findResponseByKeywords (Some kws)) (comChamada st c1))
      as (ex & st1 & E1 & C1).
    destruct (aprender_com_comando _ _ _ Htr
                (comChamada st1 (ChGetOpenAIResponse ptxt)))
      as (st2 & E2 & C2).
    assert (E : processMessage message api agora st =
                (Ok (Some (formatarResposta
                             (Some (respostaAprendizado (length fatos))))),
                 st2)).
    { unfold processMessage. rewrite Ht. cbv beta iota zeta. rewrite Hl.
      cbv beta iota zeta. fold ptxt. fold kws. fold c1.
      rewrite bind_registrar.
      rewrite (@bind_ok _ _ _ _ _ st1 ex) by (apply tentar_ok; exact E1).
      rewrite (@bind_ok _ _ _ _ st1 st2
                 (Some (respostaAprendizado (length fatos))));
        [reflexivity|].
      assert (Hin : tentar
                (registrar (ChGetOpenAIResponse ptxt) ;;;
                 match getOpenAIResponse ptxt
                         (Some (extractSenderInfo message)) api with
                 | Sucesso data0 =>
                     consulta <- ret None ;;
                     match consulta, true with
                     | Some respostaConsulta, false =>
                         ret (Some respostaConsulta)
                     | _, _ =>
                         aprenderOuResponder true data0
                           (textoUndef (si_id (extractSenderInfo message)))
                           agora
                     end
                 | Falha =>
                     consoleErro (js "Erro na resposta da OpenAI:") ;;;
                     ret (Some respostaErroOpenAI)
                 end)
                (consoleErro (js "Erro ao solicitar resposta da OpenAI:") ;;;
                 ret (Some respostaErroSolicitacao)) st1 =
              (Ok (Some (respostaAprendizado (length fatos))), st2)).
      { apply tentar_ok. rewrite bind_registrar, Ho. exact E2. }
      destruct ex as [[i r]|]; exact Hin. }
    rewrite E. cbn [fst snd]. split; [reflexivity|].
    rewrite C2. cbn [comChamada chamadas]. rewrite C1.
    cbn [comChamada chamadas]. rewrite <- !app_assoc. reflexivity.
  - intros fato t st Hn.
    destruct (saveFact_casos fato t st)
      as [(_ & H1 & H2)|(tp & ch & en & vl & _ & _ & H1 & _)].
    + split; [exact H1 | exact H2].
    + rewrite Hn in H1. discriminate.
Qed.

(** A message that is no learning command leaves the store as it was,
    whatever the classifier answers and whichever reads fail. *)
Lemma aprender_sem_comando (data : RespostaJson) (senderId : jsstring)
    (agora : instante) :
  fixa db (aprenderOuResponder false data senderId agora).
Proof.
  unfold aprenderOuResponder. cbv beta iota zeta. quadro.
Qed.

(* ================================================================== *)
(** ** Fact store manager *)
(* ================================================================== *)

Lemma primeiro_desde_app A (p : A -> bool) (l : list A) (x : A) :
  forall n,
    primeiro p (indexarDesde n (l ++ [x])) =
    match primeiro p (indexarDesde n l) with
    | Some r => Some r
    | None => if p x then Some (n + length l, x) else None
    end.
Proof.
  unfold indexarDesde.
  induction l as [|y l IH]; intros n; simpl.
  - rewrite Nat.add_0_r. reflexivity.
  - destruct (p y); [reflexivity|].
    rewrite IH. replace (S n + length l) with (n + S (length l)) by lia.
    reflexivity.
Qed.

Lemma primeiro_desde_alterar A (p : A -> bool) (f : A -> A) (l : list A) :
  forall n i d,
    primeiro p (indexarDesde n l) = Some (i, d) ->
    p (f d) = true ->
    n <= i
    /\ primeiro p (indexarDesde n (alterar (i - n) f l)) = Some (i, f d).
Proof.
  unfold indexarDesde.
  induction l as [|y l IH]; intros n i d; simpl; [discriminate|].
  destruct (p y) eqn:Py.
  - intros H Hf. inversion H; subst. split; [lia|].
    rewrite Nat.sub_diag. simpl. rewrite Hf. reflexivity.
  - intros H Hf. destruct (IH (S n) i d H Hf) as [Hle Hp].
    split; [lia|].
    replace (i - n) with (S (i - S n)) by lia. simpl. rewrite Py. exact Hp.
Qed.

Lemma find_some_primeiro A (p : A -> bool) (l : list A) :
  forall n i d,
    primeiro p (indexarDesde n l) = Some (i, d) ->
    n <= i /\ p d = true /\ nth_error l (i - n) = Some d.
Proof.
  unfold indexarDesde.
  induction l as [|y l IH]; intros n i d; simpl; [discriminate|].
  destruct (p y) eqn:Py.
  - intros H; inversion H; subst. rewrite Nat.sub_diag.
    split; [lia | split; [exact Py | reflexivity]].
  - intros H. destruct (IH (S n) i d H) as (Hle & Hp & Hn).
    split; [lia|]. split; [exact Hp|].
    replace (i - n) with (S (i - S n)) by lia. exact Hn.
Qed.

Lemma primeiro_nenhum A (p : A -> bool) (l : list A) :
  forall n, primeiro p (indexarDesde n l) = None <-> filter p l = [].
Proof.
  unfold indexarDesde.
  induction l as [|y l IH]; intros n; simpl; [split; reflexivity|].
  destruct (p y); [split; discriminate | apply IH].
Qed.

Lemma casaFato_novo (f : Fato) (tipo chave entidade valor : jsstring)
    (agora : instante) :
  let q := consultaDe tipo chave entidade (f_conceito f) in
  casaFato q (novoDoc f q valor agora) = true.
Proof.
  unfold casaFato, novoDoc, consultaDe.
  cbn [q_tipo q_chave q_entidade q_conceito d_tipo d_chave d_entidade
       d_conceito].
  rewrite !streq_refl. cbn [andb].
  destruct (streq (normalizarChave tipo) (js "propriedade")
            && truthy (f_conceito f)) eqn:E; [|reflexivity].
  destruct (f_conceito f) as [c|]; [|reflexivity].
  cbn [eqOpt]. apply streq_refl.
Qed.

Lemma findFact_realizada (tipo chave entidade : jsstring) (st : Estado) :
  hd false (falhas st) = false ->
  findFact tipo chave entidade st =
  (Ok match primeiro
              (casaFato {| q_tipo := tipo; q_chave := chave;
                           q_entidade := entidade; q_conceito := None |})
              (indexar (facts (db st))) with
      | Some (_, f) => BuscaFato f
      | None => BuscaFalha
      end, aposOperacao st).
Proof.
  intros H. unfold findFact, tentar, bind.
  rewrite operacao_realizada by exact H. cbn [fst snd].
  destruct (primeiro _ _) as [[i f]|]; reflexivity.
Qed.

(** A save of a fact whose key is not stored, where no operation on the
    store fails: the record of the fact is added, and is the one record
    under the key. *)
Lemma saveFact_novo (f : Fato) (t : instante) (st : Estado)
    (tipo chave entidade valor : jsstring) :
  falhas st = [] ->
  camposEssenciais f = Some (tipo, chave, entidade, valor) ->
  let q := consultaDe tipo chave entidade (f_conceito f) in
  primeiro (casaFato q) (indexar (facts (db st))) = None ->
  saveFact f t st =
    (Ok (Gravado false),
     estadoComFatos st (facts (db st) ++ [novoDoc f q valor t]))
  /\ primeiro (casaFato q)
       (indexar (facts (db st) ++ [novoDoc f q valor t])) =
     Some (length (facts (db st)), novoDoc f q valor t)
  /\ length (filter (casaFato q)
               (facts (db st) ++ [novoDoc f q valor t])) = 1.
Proof.
  intros Hf Hc q Ep.
  pose proof (saveFact_sem_falhas f t st Hf Hc) as E1. cbv zeta in E1.
  fold q in E1. rewrite Ep in E1. split; [exact E1|]. split.
  - change (indexar (facts (db st) ++ [novoDoc f q valor t]))
      with (indexarDesde 0 (facts (db st) ++ [novoDoc f q valor t])).
    rewrite primeiro_desde_app. unfold indexar in Ep.
    unfold indexarDesde at 1. rewrite Ep.
    subst q. rewrite casaFato_novo. reflexivity.
  - apply (primeiro_nenhum (casaFato q) (facts (db st)) 0) in Ep.
    rewrite filter_app, Ep. simpl. subst q. rewrite casaFato_novo.
    reflexivity.
Qed.

(** A save of a fact whose key is stored, where no operation on the store
    fails: the update is rejected and the store is as it was. *)
Lemma saveFact_existente (f : Fato) (t : instante) (st : Estado)
    (tipo chave entidade valor : jsstring) (id : nat) (d : FactDoc) :
  falhas st = [] ->
  camposEssenciais f = Some (tipo, chave, entidade, valor) ->
  primeiro (casaFato (consultaDe tipo chave entidade (f_conceito f)))
    (indexar (facts (db st))) = Some (id, d) ->
  saveFact f t st =
    (Ok NaoGravado,
     {| db := db st; falhas := [];
        consoleError := consoleError st ++ [js "Erro ao salvar fato:"];
        chamadas := chamadas st |}).
Proof.
  intros Hf Hc Ep.
  pose proof (saveFact_sem_falhas f t st Hf Hc) as E1. cbv zeta in E1.
  rewrite Ep in E1. exact E1.
Qed.

(** X1: the store never updates a fact. The update [saveFact] sends names
    [last_updated] under [$set] and under [$currentDate], which the store
    rejects: where no other operation fails, a save under a key that is
    stored returns [success: false], writes "Erro ao salvar fato:" on the
    log and leaves the store as it was. So of two saves under one key the
    second is rejected, whatever its value: where the key was new the
    first inserts the one record under it, which keeps the first value and
    the time of the first save. *)
Theorem saveFact_segunda_rejeitada (f1 f2 : Fato) (t1 t2 : instante)
    (st : Estado)
    (tipo1 chave1 entidade1 valor1 tipo2 chave2 entidade2 valor2 : jsstring) :
  falhas st = [] ->
  camposEssenciais f1 = Some (tipo1, chave1, entidade1, valor1) ->
  camposEssenciais f2 = Some (tipo2, chave2, entidade2, valor2) ->
  consultaDe tipo2 chave2 entidade2 (f_conceito f2) =
    consultaDe tipo1 chave1 entidade1 (f_conceito f1) ->
  let q := consultaDe tipo1 chave1 entidade1 (f_conceito f1) in
  let r1 := saveFact f1 t1 st in
  let r2 := saveFact f2 t2 (snd r1) in
  fst r2 = Ok NaoGravado
  /\ db (snd r2) = db (snd r1)
  /\ consoleError (snd r2) =
     consoleError (snd r1) ++ [js "Erro ao salvar fato:"]
  /\ (filter (casaFato q) (facts (db st)) = [] ->
      fst r1 = Ok (Gravado false)
      /\ length (filter (casaFato q) (facts (db (snd r2)))) = 1
      /\ exists id d,
           primeiro (casaFato q) (indexar (facts (db (snd r2)))) =
             Some (id, d)
           /\ d_valor d = valor1 /\ d_last_updated d = t1)
  /\ (forall id d,
        primeiro (casaFato q) (indexar (facts (db st))) = Some (id, d) ->
        fst r1 = Ok NaoGravado /\ db (snd r1) = db st).
Proof.
  intros Hf Hc1 Hc2 Hq q r1 r2.
  destruct (primeiro (casaFato q) (indexar (facts (db st))))
    as [[id d]|] eqn:Ep.
  - assert (E1 : r1 = (Ok NaoGravado,
                       {| db := db st; falhas := [];
                          consoleError :=
                            consoleError st ++ [js "Erro ao salvar fato:"];
                          chamadas := chamadas st |}))
      by (apply (saveFact_existente f1 t1 st Hf Hc1 Ep)).
    assert (E2 : r2 = (Ok NaoGravado,
                       {| db := db (snd r1); falhas := [];
                          consoleError :=
                            consoleError (snd r1)
                            ++ [js "Erro ao salvar fato:"];
                          chamadas := chamadas (snd r1) |})).
    { subst r2.
      apply (@saveFact_existente f2 t2 (snd r1) tipo2 chave2 entidade2 valor2
               id d).
      - rewrite E1. reflexivity.
      - exact Hc2.
      - rewrite Hq, E1. exact Ep. }
    rewrite E2. cbn [fst snd db consoleError].
    split; [reflexivity|]. split; [reflexivity|]. split; [reflexivity|].
    split.
    + intros Hn. apply (primeiro_nenhum (casaFato q) (facts (db st)) 0) in Hn.
      unfold indexar in Ep. unfold indexarDesde in Hn. rewrite Hn in Ep.
      discriminate.
    + intros id0 d0 _. rewrite E1. split; reflexivity.
  - destruct (saveFact_novo f1 t1 st Hf Hc1 Ep) as (E1 & P1 & N1).
    fold q in E1, P1, N1. fold r1 in E1.
    assert (E2 : r2 = (Ok NaoGravado,
                       {| db := db (snd r1); falhas := [];
                          consoleError :=
                            consoleError (snd r1)
                            ++ [js "Erro ao salvar fato:"];
                          chamadas := chamadas (snd r1) |})).
    { subst r2.
      apply (@saveFact_existente f2 t2 (snd r1) tipo2 chave2 entidade2 valor2
               (length (facts (db st))) (novoDoc f1 q valor1 t1)).
      - rewrite E1. reflexivity.
      - exact Hc2.
      - rewrite Hq, E1. exact P1. }
    rewrite E2. cbn [fst snd db consoleError].
    split; [reflexivity|]. split; [reflexivity|]. split; [reflexivity|].
    split.
    + intros _. rewrite E1.
      cbn [fst snd estadoComFatos db comFatos facts].
      split; [reflexivity|]. split; [exact N1|].
      exists (length (facts (db st))), (novoDoc f1 q valor1 t1).
      split; [exact P1|]. split; reflexivity.
    + intros id0 d0 H. discriminate.
Qed.

Lemma consulta_sem_conceito (tipo chave entidade : jsstring)
    (conceito : option jsstring) :
  q_conceito (consultaDe tipo chave entidade conceito) = None ->
  {| q_tipo := normalizarChave tipo;
     q_chave := normalizarChave chave;
     q_entidade := normalizarChave entidade;
     q_conceito := None |} = consultaDe tipo chave entidade conceito.
Proof.
  unfold consultaDe. cbn [q_conceito]. intros Hq. rewrite Hq. reflexivity.
Qed.

(** X5: after a save that no failure interrupts, [findFact] finds a
    record under the lower-cased, trimmed key of the fact (a fact whose
    query carries no [conceito]): the record of the fact, with its value
    and the time of the save, where the key was new; the record that was
    stored under the key, as it was, where there was one. *)
Theorem findFact_apos_saveFact (f : Fato) (t : instante) (st : Estado)
    (tipo chave entidade valor : jsstring) :
  falhas st = [] ->
  camposEssenciais f = Some (tipo, chave, entidade, valor) ->
  q_conceito (consultaDe tipo chave entidade (f_conceito f)) = None ->
  let q := consultaDe tipo chave entidade (f_conceito f) in
  exists d,
    fst (findFact (normalizarChave tipo) (normalizarChave chave)
           (normalizarChave entidade) (snd (saveFact f t st))) =
      Ok (BuscaFato d)
    /\ (filter (casaFato q) (facts (db st)) = [] ->
        d_valor d = valor /\ d_created_at d = t /\ d_last_updated d = t)
    /\ (forall id0 d0,
          primeiro (casaFato q) (indexar (facts (db st))) = Some (id0, d0) ->
          d = d0).
Proof.
  intros Hf Hc Hq q.
  destruct (primeiro (casaFato q) (indexar (facts (db st))))
    as [[id d]|] eqn:Ep.
  - exists d. rewrite (saveFact_existente f t st Hf Hc Ep).
    rewrite findFact_realizada by reflexivity.
    cbn [fst snd db]. rewrite (consulta_sem_conceito _ _ _ _ Hq).
    fold q. rewrite Ep. split; [reflexivity|]. split.
    + intros Hn. apply (primeiro_nenhum (casaFato q) (facts (db st)) 0) in Hn.
      unfold indexar in Ep. unfold indexarDesde in Hn. rewrite Hn in Ep.
      discriminate.
    + intros id0 d0 H. inversion H; reflexivity.
  - destruct (saveFact_novo f t st Hf Hc Ep) as (E1 & P1 & _).
    fold q in E1, P1. exists (novoDoc f q valor t). rewrite E1.
    rewrite findFact_realizada by reflexivity.
    cbn [fst snd estadoComFatos db comFatos facts].
    rewrite (consulta_sem_conceito _ _ _ _ Hq). fold q. rewrite P1.
    split; [reflexivity|]. split.
    + intros _. split; [reflexivity|]. split; reflexivity.
    + intros id0 d0 H. discriminate.
Qed.

(* ------------------------------------------------------------------ *)
(** *** The collections each function writes *)

Lemma fixa_col_consoleErro X (p : Db -> X) (linha : jsstring) :
  fixa (fun st => p (db st)) (consoleErro linha).
Proof. intros st; reflexivity. Qed.

Lemma fixa_col_registrar X (p : Db -> X) (c : Chamada) :
  fixa (fun st => p (db st)) (registrar c).
Proof. intros st; reflexivity. Qed.

Lemma fixa_col_operacao X (p : Db -> X) A (f : Db -> A * Db) :
  (forall d, p (snd (f d)) = p d) ->
  fixa (fun st => p (db st)) (operacao f).
Proof.
  intros H st. unfold operacao.
  destruct (falhas st) as [|[|] r]; try reflexivity;
    specialize (H (db st)); destruct (f (db st)); exact H.
Qed.

Lemma fixa_col_updateOne X (p : Db -> X) (id : nat) (u : Atualizacao) :
  (forall d l, p (comFatos d l) = p d) ->
  fixa (fun st => p (db st)) (updateOne id u).
Proof.
  intros H. unfold updateOne. destruct (existsb _ _).
  - intros st; reflexivity.
  - apply fixa_col_operacao. intros d. apply H.
Qed.

Ltac colecao :=
  repeat first
    [ apply fixa_ret | apply fixa_lancar | apply fixa_elevar
    | apply fixa_col_consoleErro | apply fixa_col_registrar
    | apply fixa_col_operacao; intros; reflexivity
    | apply fixa_col_updateOne; intros; reflexivity
    | apply fixa_tentar | apply fixa_bind
    | match goal with |- forall _, _ => intro end
    | match goal with
      | |- fixa _ (match ?x with _ => _ end) => destruct x
      | |- fixa _ (let (_, _) := ?x in _) => destruct x
      end ].

Lemma col_findResponseByKeywords X (p : Db -> X)
    (keywords : option (list jsstring)) :
  fixa (fun st => p (db st)) (findResponseByKeywords keywords).
Proof. unfold findResponseByKeywords. colecao. Qed.

(** X2: the response cache and the fact store write to disjoint collections,
    and their writers throw nothing: whichever operations on the store
    fail, [saveFact] returns and leaves [responses] and [entities] as they
    were, and [saveResponse] returns and leaves [facts] and [entities] as
    they were. *)
Theorem colecoes_disjuntas (st : Estado) (t : instante) :
  (forall f : Fato,
     exists r st',
       saveFact f t st = (Ok r, st')
       /\ responses (db st') = responses (db st)
       /\ entities (db st') = entities (db st))
  /\ (forall rd : ResponseData,
        exists r st',
          saveResponse rd t st = (Ok r, st')
          /\ facts (db st') = facts (db st)
          /\ entities (db st') = entities (db st)).
Proof.
  split.
  - intros f. destruct (sem_saveFact f t st) as (r & st' & E).
    exists r, st'. split; [exact E|].
    assert (H1 : fixa (fun s => responses (db s)) (saveFact f t))
      by (unfold saveFact; colecao).
    assert (H2 : fixa (fun s => entities (db s)) (saveFact f t))
      by (unfold saveFact; colecao).
    specialize (H1 st). specialize (H2 st). rewrite E in H1, H2.
    split; [exact H1 | exact H2].
  - intros rd. destruct (sem_saveResponse rd t st) as (r & st' & E).
    exists r, st'. split; [exact E|].
    assert (H1 : fixa (fun s => facts (db s)) (saveResponse rd t))
      by (unfold saveResponse; colecao; apply col_findResponseByKeywords).
    assert (H2 : fixa (fun s => entities (db s)) (saveResponse rd t))
      by (unfold saveResponse; colecao; apply col_findResponseByKeywords).
    specialize (H1 st). specialize (H2 st). rewrite E in H1, H2.
    split; [exact H1 | exact H2].
Qed.

(* ------------------------------------------------------------------ *)
(** *** The orchestrator *)

(** X3: only the learning command writes: for a message whose text does not
    begin with the learning command (or that carries no text), the store
    after [processMessage] is the store before it, whatever the outcome of
    the request to the language-model service and whichever operations on
    the store fail. *)
Theorem processMessage_sem_escrita (message : Mensagem) (api : RespostaApi)
    (agora : instante) (st : Estado) :
  (forall texto, extractMessageText message = Some texto ->
                 startsWith (js "/aprender ") texto = false) ->
  db (snd (processMessage message api agora st)) = db st.
Proof.
  intros H.
  assert (F : fixa db (processMessage message api agora)).
  { unfold processMessage.
    destruct (extractMessageText message) as [[|c t]|] eqn:Em;
      try (intros s; reflexivity).
    cbv zeta. rewrite (H _ eq_refl). cbv iota.
    apply fixa_bind; [apply db_registrar|intros _].
    apply fixa_bind.
    - apply fixa_tentar; [apply db_findResponseByKeywords|].
      apply fixa_bind; [apply db_consoleErro | intros; apply fixa_ret].
    - intros existingResponse.
      apply fixa_bind; [|intros; apply fixa_ret].
      assert (G : fixa db
                (tentar
                   (registrar (ChGetOpenAIResponse (c :: t)) ;;;
                    match getOpenAIResponse (c :: t)
                            (Some (extractSenderInfo message)) api with
                    | Sucesso data =>
                        consulta <-
                          processarConsulta data (c :: t)
                            (textoUndef (si_id (extractSenderInfo message))) ;;
                        match consulta, false with
                        | Some respostaConsulta, false =>
                            ret (Some respostaConsulta)
                        | _, _ =>
                            aprenderOuResponder false data
                              (textoUndef (si_id (extractSenderInfo message)))
                              agora
                        end
                    | Falha =>
                        consoleErro (js "Erro na resposta da OpenAI:") ;;;
                        ret (Some respostaErroOpenAI)
                    end)
                   (consoleErro (js "Erro ao solicitar resposta da OpenAI:") ;;;
                    ret (Some respostaErroSolicitacao)))).
      { apply fixa_tentar.
        - apply fixa_bind; [apply db_registrar|intros _].
          destruct (getOpenAIResponse _ _ api) as [data|].
          + apply fixa_bind; [apply db_processarConsulta|].
            intros [r|]; [apply fixa_ret | apply aprender_sem_comando].
          + apply fixa_bind; [apply db_consoleErro | intros; apply fixa_ret].
        - apply fixa_bind; [apply db_consoleErro | intros; apply fixa_ret]. }
      destruct existingResponse as [[i r]|]; [apply fixa_ret | exact G]. }
  apply F.
Qed.

(** X4: [processMessage] throws nothing: a message with text always gets a
    reply, which begins with the bot's name between asterisks and a blank
    line; a message without text gets none and leaves the state, the log
    included, as it was. *)
Theorem processMessage_sempre_responde (message : Mensagem)
    (api : RespostaApi) (agora : instante) (st : Estado) :
  match extractMessageText message with
  | Some (_ :: _) =>
      exists corpo st',
        processMessage message api agora st =
          (Ok (Some (js "*" ++ ouPadrao BOT_NAME (js "Marvin") ++ js "*"
                     ++ LF ++ LF ++ corpo)), st')
  | _ => processMessage message api agora st = (Ok None, st)
  end.
Proof.
  unfold processMessage.
  destruct (extractMessageText message) as [[|c t]|]; try reflexivity.
  cbv zeta.
  match goal with
  | |- exists corpo st', (_ ;;; (existingResponse <- ?m1 ;;
                                 finalResponse <- @?m2 existingResponse ;;
                                 _)) st = _ =>
      assert (S1 : semExcecao m1);
      [| assert (S2 : forall e, semExcecao (m2 e)) ]
  end.
  - apply sem_tentar, sem_bind; [apply sem_consoleErro | intros; apply sem_ret].
  - intros [[i r]|]; destruct (startsWith (js "/aprender ") (c :: t));
      try apply sem_ret;
      apply sem_tentar, sem_bind;
        try apply sem_consoleErro; intros; apply sem_ret.
  - match goal with
    | |- context [registrar ?c] =>
        destruct (sem_registrar c st) as (u & st0 & E0)
    end.
    rewrite (bind_ok _ _ _ E0).
    destruct (S1 st0) as (e & st1 & E1). rewrite (bind_ok _ _ _ E1).
    destruct (S2 e st1) as (fr & st2 & E2). cbv beta in E2.
    rewrite (bind_ok _ _ _ E2).
    exists (textoUndef fr), st2. reflexivity.
Qed.

(* ------------------------------------------------------------------ *)
(** *** The fact translator *)

Lemma coletar_length A B (f : A -> option B) (l : list A) :
  length (coletar f l) <= length l.
Proof.
  induction l as [|x l IH]; simpl; [apply Nat.le_refl|].
  destruct (f x); simpl.
  - apply le_n_S, IH.
  - apply Nat.le_trans with (1 := IH). apply Nat.le_succ_diag_r.
Qed.

Lemma removerDuplicatas_length (l : list Fato) :
  forall vistas, length (removerDuplicatas l vistas) <= length l.
Proof.
  induction l as [|x l IH]; simpl; intros vistas; [apply Nat.le_refl|].
  destruct (includes vistas (chaveUnica x)); simpl.
  - apply Nat.le_trans with (1 := IH vistas). apply Nat.le_succ_diag_r.
  - apply le_n_S, IH.
Qed.

Lemma removerDuplicatas_nova (l : list Fato) :
  forall vistas f,
    In f (removerDuplicatas l vistas) -> ~ In (chaveUnica f) vistas.
Proof.
  induction l as [|x l IH]; simpl; intros vistas f H; [destruct H|].
  destruct (includes vistas (chaveUnica x)) eqn:E.
  - apply IH; exact H.
  - destruct H as [H|H].
    + subst f. intros Hin. apply includes_In in Hin. rewrite Hin in E.
      discriminate.
    + intros Hin. apply (IH _ _ H). right; exact Hin.
Qed.

Lemma removerDuplicatas_NoDup (l : list Fato) :
  forall vistas, NoDup (map chaveUnica (removerDuplicatas l vistas)).
Proof.
  induction l as [|x l IH]; simpl; intros vistas; [constructor|].
  destruct (includes vistas (chaveUnica x)); [apply IH|].
  simpl. constructor; [|apply IH].
  intros Hin. apply in_map_iff in Hin. destruct Hin as (g & Hk & Hg).
  apply (removerDuplicatas_nova _ _ _ Hg). left. symmetry; exact Hk.
Qed.

Lemma filter_includes_cons (k0 : jsstring) (vistas l : list jsstring) :
  filter (fun k => negb (includes (k0 :: vistas) k)) l =
  filter (fun k => negb (includes vistas k))
    (filter (fun k => negb (streq k k0)) l).
Proof.
  induction l as [|k ks IHk]; [reflexivity|].
  cbn [filter includes existsb].
  change (existsb (streq k) vistas) with (includes vistas k).
  destruct (streq k k0); cbn [negb orb filter].
  - exact IHk.
  - destruct (includes vistas k); cbn [negb]; [exact IHk|].
    f_equal; exact IHk.
Qed.

Lemma removerDuplicatas_chaves (l : list Fato) :
  forall vistas,
    map chaveUnica (removerDuplicatas l vistas) =
    filter (fun k => negb (includes vistas k))
      (primeirasOcorrencias (map chaveUnica l)).
Proof.
  induction l as [|x l IH]; intros vistas; [reflexivity|].
  cbn [removerDuplicatas map primeirasOcorrencias filter].
  destruct (includes vistas (chaveUnica x)) eqn:E; cbn [negb].
  - rewrite IH. symmetry. apply filter_filter_implica.
    intros k Hk. destruct (streq k (chaveUnica x)) eqn:Ek; [|reflexivity].
    apply streq_eq in Ek. subst k. rewrite E in Hk. discriminate.
  - cbn [map]. f_equal. rewrite IH. apply filter_includes_cons.
Qed.

Lemma filter_sempre A (p : A -> bool) (l : list A) :
  (forall x, p x = true) -> filter p l = l.
Proof.
  intros H. induction l as [|x l IH]; simpl; [reflexivity|].
  rewrite H, IH. reflexivity.
Qed.

Lemma removerDuplicatas_find (l : list Fato) :
  forall vistas f,
    In f (removerDuplicatas l vistas) ->
    find (fun g => streq (chaveUnica g) (chaveUnica f)) l = Some f.
Proof.
  induction l as [|x l IH]; intros vistas f H; [destruct H|].
  cbn [removerDuplicatas] in H. cbn [find].
  destruct (includes vistas (chaveUnica x)) eqn:E.
  - destruct (streq (chaveUnica x) (chaveUnica f)) eqn:Ek.
    + apply streq_eq in Ek. exfalso.
      apply (removerDuplicatas_nova _ _ _ H). rewrite <- Ek.
      apply includes_In; exact E.
    + apply (IH _ _ H).
  - destruct H as [H|H].
    + subst f. rewrite streq_refl. reflexivity.
    + destruct (streq (chaveUnica x) (chaveUnica f)) eqn:Ek.
      * apply streq_eq in Ek. exfalso.
        apply (removerDuplicatas_nova _ _ _ H). left; exact Ek.
      * apply (IH _ _ H).
Qed.

(** X7: the last loop of the translator keeps, of the facts under one key
    [tipo|chave|entidade], the first: the keys of its output are the
    distinct keys of its input in first-seen order, and each fact of the
    output is the first fact of the input with its key. *)
Theorem removerDuplicatas_primeiro (fatos : list Fato) :
  map chaveUnica (removerDuplicatas fatos []) =
    primeirasOcorrencias (map chaveUnica fatos)
  /\ forall f,
       In f (removerDuplicatas fatos []) ->
       find (fun g => streq (chaveUnica g) (chaveUnica f)) fatos = Some f.
Proof.
  split.
  - rewrite removerDuplicatas_chaves. apply filter_sempre.
    intros k; reflexivity.
  - apply removerDuplicatas_find.
Qed.

(** X6: the facts that the translator returns, whenever it returns: no
    more facts than there are entries, no two of them under one key
    [tipo|chave|entidade]; each fact has one of the five fact types, a
    key, an entity and a value that are truthy, and the context
    [certeza: ALTA] stamped with the reading of the clock. (Nothing is
    said here of the calls that throw, nor of the length of the value:
    the source trims and truncates a value only when it is a string.) *)
Theorem traducao_invariantes (k : Conhecimento)
    (idUsuario agora : jsstring) (fatos : list Fato) :
  traduzirParaModeloDados (Some k) idUsuario agora = Ok fatos ->
  length fatos <= length (entradasDe k)
  /\ NoDup (map chaveUnica fatos)
  /\ forall f, In f fatos ->
       (exists t, f_tipo f = Some t /\ In t tiposDeFato)
       /\ (exists ch, f_chave f = Some ch)
       /\ truthy (f_entidade f) = true
       /\ truthy (f_valor f) = true
       /\ (exists fonte,
             f_contexto f = Some {| cf_certeza := ALTA; cf_fonte := fonte;
                                    cf_timestamp := agora |}).
Proof.
  assert (V : forall fatos0 : list Fato,
            Ok [] = Ok fatos0 ->
            length fatos0 <= length (entradasDe k)
            /\ NoDup (map chaveUnica fatos0)
            /\ forall f, In f fatos0 ->
                 (exists t, f_tipo f = Some t /\ In t tiposDeFato)
                 /\ (exists ch, f_chave f = Some ch)
                 /\ truthy (f_entidade f) = true
                 /\ truthy (f_valor f) = true
                 /\ (exists fonte,
                       f_contexto f =
                       Some {| cf_certeza := ALTA; cf_fonte := fonte;
                               cf_timestamp := agora |})).
  { intros fatos0 H0. inversion H0; subst; clear H0.
    split; [apply Nat.le_0_l|]. split; [constructor|]. intros f []. }
  unfold traduzirParaModeloDados.
  destruct (armazenar k); cbn [negb]; [|apply V].
  unfold entradasDe in *. destruct (entradas k) as [[|e es]|];
    try apply V.
  clear V. set (l := e :: es). intros H.
  assert (E : fatos
              = removerDuplicatas
                  (coletar (traduzirEntrada idUsuario agora) l) [])
    by congruence.
  clear H. subst fatos. split.
  - apply Nat.le_trans with (1 := removerDuplicatas_length _ _).
    apply coletar_length.
  - split; [apply removerDuplicatas_NoDup|].
    intros f Hf. apply removerDuplicatas_In in Hf.
    apply coletar_In in Hf. destruct Hf as (x & _ & Hx).
    destruct (traduzirEntrada_forma _ _ _ Hx) as (T1 & T2 & T3 & T4 & T5).
    split; [exact T1|]. split; [exact T2|]. split; [exact T3|].
    split; [|exact T5].
    destruct T4 as (v & Hv & Hl & _). rewrite Hv.
    destruct v; [inversion Hl | reflexivity].
Qed.

Lemma fatoMapeado_invalido (idUsuario agora : jsstring) (e : Entrada)
    (tipo : jsstring) (suj : Sujeito) (pred : Predicado) :
  ent_tipo e = Some tipo -> ent_sujeito e = Some suj ->
  ent_predicado e = Some pred ->
  includes tiposPermitidos tipo = false
  \/ includesOpt sujeitosPermitidos (suj_tipo suj) = false
  \/ validarPorTipo tipo suj pred (ent_objeto e) = false ->
  fatoMapeado idUsuario agora (Some e) = None.
Proof.
  intros Ht Hs Hp H. unfold fatoMapeado. rewrite Ht, Hs, Hp.
  destruct tipo as [|c t]; [reflexivity|].
  destruct (negb (eqOpt (certezaDe e) ALTA)); [reflexivity|].
  destruct (includes tiposPermitidos (c :: t)); cbn [negb]; [|reflexivity].
  destruct (includesOpt sujeitosPermitidos (suj_tipo suj)); cbn [negb];
    [|reflexivity].
  destruct H as [H|[H|H]]; try discriminate.
  rewrite H. reflexivity.
Qed.

Lemma validar_identidade (suj : Sujeito) (pred : Predicado)
    (obj : option Objeto) (v : jsstring) :
  pred_valor pred = Some v -> temSimbolo v = true ->
  validarPorTipo (js "fato_identidade") suj pred obj = false.
Proof.
  intros Hv Hs. unfold validarPorTipo.
  change (streq (js "fato_identidade") (js "fato_identidade")) with true.
  cbv iota. rewrite Hv, Hs.
  destruct (negb (truthy (suj_valor suj)) || negb (truthy (Some v)));
    reflexivity.
Qed.

Lemma eqOptOpt_refl (o : option jsstring) : eqOptOpt o o = true.
Proof. destruct o; [apply streq_refl | reflexivity]. Qed.

Lemma validar_relacao (suj : Sujeito) (pred : Predicado)
    (obj : option Objeto) :
  match obj with
  | Some o => obj_tipo o = suj_tipo suj /\ obj_valor o = suj_valor suj
  | None => True
  end ->
  validarPorTipo (js "fato_relacao") suj pred obj = false.
Proof.
  intros H. unfold validarPorTipo.
  change (streq (js "fato_relacao") (js "fato_identidade")) with false.
  change (streq (js "fato_relacao") (js "fato_relacao")) with true.
  cbv iota. destruct obj as [o|]; [|reflexivity].
  destruct H as [H1 H2]. rewrite H1, H2, !eqOptOpt_refl.
  destruct (negb (truthy (suj_valor suj)) || negb (truthy (pred_valor pred))
            || negb (truthy (suj_valor suj))); reflexivity.
Qed.

Lemma validar_definicao (suj : Sujeito) (pred : Predicado)
    (obj : option Objeto) (v : jsstring) :
  pred_valor pred = Some v -> length v < 5 ->
  validarPorTipo (js "fato_definicao") suj pred obj = false.
Proof.
  intros Hv Hl. unfold validarPorTipo.
  change (streq (js "fato_definicao") (js "fato_identidade")) with false.
  change (streq (js "fato_definicao") (js "fato_relacao")) with false.
  change (streq (js "fato_definicao") (js "fato_definicao")) with true.
  cbv iota. rewrite Hv. apply Nat.ltb_lt in Hl. rewrite Hl.
  destruct (negb (truthy (suj_valor suj)) || negb (truthy (Some v)));
    reflexivity.
Qed.

Lemma validar_propriedade (suj : Sujeito) (pred : Predicado)
    (obj : option Objeto) :
  (forall t, pred_tipo pred = Some t -> length t < 2) ->
  validarPorTipo (js "fato_propriedade") suj pred obj = false.
Proof.
  intros H. unfold validarPorTipo.
  change (streq (js "fato_propriedade") (js "fato_identidade")) with false.
  change (streq (js "fato_propriedade") (js "fato_relacao")) with false.
  change (streq (js "fato_propriedade") (js "fato_definicao")) with false.
  change (streq (js "fato_propriedade") (js "fato_propriedade")) with true.
  cbv iota.
  destruct (negb (truthy (suj_valor suj)) || negb (truthy (pred_valor pred)));
    [reflexivity|].
  destruct (pred_tipo pred) as [t|]; [|reflexivity].
  specialize (H t eq_refl). apply Nat.ltb_lt in H. rewrite H.
  rewrite Bool.orb_true_r. reflexivity.
Qed.

Lemma validar_sem_valor (tipo : jsstring) (suj : Sujeito) (pred : Predicado)
    (obj : option Objeto) :
  includes tiposPermitidos tipo = true ->
  truthy (suj_valor suj) = false \/ truthy (pred_valor pred) = false ->
  validarPorTipo tipo suj pred obj = false.
Proof.
  intros Ht H.
  assert (E : negb (truthy (suj_valor suj))
              || negb (truthy (pred_valor pred)) = true).
  { destruct H as [H|H]; rewrite H; [reflexivity|].
    apply Bool.orb_true_r. }
  unfold validarPorTipo. rewrite E.
  destruct (streq tipo (js "fato_identidade")) eqn:E1; [reflexivity|].
  destruct (streq tipo (js "fato_relacao")) eqn:E2.
  { destruct obj; reflexivity. }
  destruct (streq tipo (js "fato_definicao")) eqn:E3; [reflexivity|].
  destruct (streq tipo (js "fato_propriedade")) eqn:E4; [reflexivity|].
  destruct (streq tipo (js "fato_entidade")) eqn:E5; [reflexivity|].
  unfold includes, tiposPermitidos in Ht. cbn [map existsb] in Ht.
  rewrite E1, E2, E3, E4, E5 in Ht. discriminate.
Qed.

Lemma traduzir_sem_entrada (arm : bool) (l1 l2 : list (option Entrada))
    (x : option Entrada) (idUsuario agora : jsstring) :
  traduzirEntrada idUsuario agora x = None ->
  traduzirParaModeloDados
    (Some {| armazenar := arm; entradas := Some (l1 ++ x :: l2) |})
    idUsuario agora =
  traduzirParaModeloDados
    (Some {| armazenar := arm; entradas := Some (l1 ++ l2) |})
    idUsuario agora.
Proof.
  intros H. rewrite !traduzir_lista, !coletar_app. cbn [coletar].
  rewrite H. reflexivity.
Qed.

(** X8: the checks of the first [switch] of the translator: an entry of a type
    or subject type that is not allowed, without subject or predicate
    value, an identity whose name has a symbol, a relation without object
    or of a subject to itself, a definition shorter than 5 code units or a
    property whose predicate type is missing or shorter than 2 yields no
    fact; the batch translates as it does without the entry. *)
Theorem entrada_invalida_descartada (arm : bool)
    (l1 l2 : list (option Entrada)) (e : Entrada) (tipo : jsstring)
    (suj : Sujeito) (pred : Predicado) (idUsuario agora : jsstring) :
  ent_tipo e = Some tipo -> ent_sujeito e = Some suj ->
  ent_predicado e = Some pred ->
  ~ In tipo tiposPermitidos
  \/ (forall t, suj_tipo suj = Some t -> ~ In t sujeitosPermitidos)
  \/ truthy (suj_valor suj) = false
  \/ truthy (pred_valor pred) = false
  \/ (tipo = js "fato_identidade"
      /\ exists v, pred_valor pred = Some v /\ temSimbolo v = true)
  \/ (tipo = js "fato_relacao"
      /\ match ent_objeto e with
         | Some o => obj_tipo o = suj_tipo suj /\ obj_valor o = suj_valor suj
         | None => True
         end)
  \/ (tipo = js "fato_definicao"
      /\ exists v, pred_valor pred = Some v /\ length v < 5)
  \/ (tipo = js "fato_propriedade"
      /\ forall t, pred_tipo pred = Some t -> length t < 2) ->
  traduzirParaModeloDados
    (Some {| armazenar := arm; entradas := Some (l1 ++ Some e :: l2) |})
    idUsuario agora =
  traduzirParaModeloDados
    (Some {| armazenar := arm; entradas := Some (l1 ++ l2) |})
    idUsuario agora.
Proof.
  intros Ht Hs Hp H. apply traduzir_sem_entrada.
  unfold traduzirEntrada.
  rewrite (fatoMapeado_invalido idUsuario agora e Ht Hs Hp); [reflexivity|].
  destruct (includes tiposPermitidos tipo) eqn:E1; [right | left; reflexivity].
  destruct (includesOpt sujeitosPermitidos (suj_tipo suj)) eqn:E2;
    [right | left; reflexivity].
  destruct H as [H|[H|[H|[H|[H|[H|[H|H]]]]]]].
  - exfalso. apply H. apply includes_In; exact E1.
  - exfalso. destruct (suj_tipo suj) as [t|]; [|discriminate].
    apply (H t eq_refl). apply includes_In; exact E2.
  - apply validar_sem_valor; [exact E1 | left; exact H].
  - apply validar_sem_valor; [exact E1 | right; exact H].
  - destruct H as (-> & v & Hv & Hsim).
    apply (validar_identidade _ _ _ Hv Hsim).
  - destruct H as (-> & Ho). apply validar_relacao; exact Ho.
  - destruct H as (-> & v & Hv & Hl).
    apply (validar_definicao _ _ _ Hv Hl).
  - destruct H as (-> & Hl). apply validar_propriedade; exact Hl.
Qed.

(* ------------------------------------------------------------------ *)
(** *** The keyword extractor *)

(** X9: the set of the keywords does not depend on how the counting object
    orders its keys: for a text that is a non-empty string, the keywords
    are [min(maxKeywords, d)] of the [d] distinct words kept by the
    filter, no word twice, each longer than two code units and no stop
    word; when [maxKeywords] is at least [d] they are all the distinct
    words. Any other input yields the empty list. *)
Theorem extractKeywords_conjunto (text : jsval) (maxKeywords : nat) :
  match text with
  | JStr (c :: t) =>
      let ds := primeirasOcorrencias (filteredWords (c :: t)) in
      let ks := extractKeywords text maxKeywords in
      length ks = Nat.min maxKeywords (length ds)
      /\ NoDup ks
      /\ (forall w, In w ks ->
            In w ds /\ 2 < length w /\ ~ In w STOP_WORDS)
      /\ (length ds <= maxKeywords -> Permutation ks ds)
  | _ => extractKeywords text maxKeywords = []
  end.
Proof.
  destruct text as [| |b|z|[|c t]|]; try reflexivity.
  cbv zeta. unfold extractKeywords.
  set (o := wordFrequency (c :: t)).
  set (ds := primeirasOcorrencias (filteredWords (c :: t))).
  assert (P : Permutation (arraySort (compararFrequencia o) (objectKeys o))
                          ds).
  { apply Permutation_trans with (1 := arraySort_perm _ _).
    apply Permutation_trans with (1 := objectKeys_perm o).
    unfold o, wordFrequency, ds.
    rewrite (chaves_todas (filteredWords (c :: t)) [] []) by reflexivity.
    apply Permutation_refl. }
  assert (N : NoDup (arraySort (compararFrequencia o) (objectKeys o))).
  { apply (Permutation_NoDup (Permutation_sym P)). apply primeiras_NoDup. }
  split.
  { rewrite length_firstn, (Permutation_length P). reflexivity. }
  split; [apply NoDup_firstn; exact N|]. split.
  - intros w Hw.
    assert (Hd : In w ds).
    { apply (Permutation_in _ P). apply (In_firstn maxKeywords _ _ Hw). }
    split; [exact Hd|].
    apply (proj1 (primeiras_In _ _)) in Hd. unfold filteredWords in Hd.
    apply filter_In in Hd. destruct Hd as [_ Hu]. unfold palavraUtil in Hu.
    apply andb_prop in Hu. destruct Hu as [H1 H2]. split.
    + apply Nat.ltb_lt; exact H1.
    + intros Hs. apply includes_In in Hs. rewrite Hs in H2. discriminate.
  - intros Hle. rewrite firstn_all2; [exact P|].
    rewrite (Permutation_length P). exact Hle.
Qed.

(* ------------------------------------------------------------------ *)
(** *** Results of the code with effects *)

Lemma retorna_ret A (P : A -> Prop) (a : A) : P a -> retorna P (ret a).
Proof. intros H st. exists a, st. split; [reflexivity | exact H]. Qed.

Lemma retorna_bind A B (P : A -> Prop) (Q : B -> Prop) (m : M A)
    (k : A -> M B) :
  retorna P m -> (forall a, P a -> retorna Q (k a)) -> retorna Q (bind m k).
Proof.
  intros Hm Hk st. destruct (Hm st) as (a & st1 & E & Pa).
  destruct (Hk a Pa st1) as (b & st2 & E2 & Qb).
  exists b, st2. split; [|exact Qb]. rewrite (bind_ok _ _ _ E). exact E2.
Qed.

Lemma retorna_registrar (c : Chamada) :
  retorna (fun _ => True) (registrar c).
Proof. intros st. eexists; eexists; split; [reflexivity | exact I]. Qed.

Lemma retorna_consoleErro (linha : jsstring) :
  retorna (fun _ => True) (consoleErro linha).
Proof. intros st. eexists; eexists; split; [reflexivity | exact I]. Qed.

Lemma retorna_tentar A (P : A -> Prop) (m h : M A) :
  seRetorna P m -> retorna P h -> retorna P (tentar m h).
Proof.
  intros Hm Hh st. unfold tentar. destruct (m st) as [[a|] st1] eqn:E.
  - exists a, st1. split; [reflexivity|]. apply (Hm _ _ _ E).
  - apply Hh.
Qed.

Lemma seRetorna_ret A (P : A -> Prop) (a : A) : P a -> seRetorna P (ret a).
Proof. intros H st b st' E. inversion E; subst. exact H. Qed.

Lemma seRetorna_bind A B (Q : B -> Prop) (m : M A) (k : A -> M B) :
  (forall a, seRetorna Q (k a)) -> seRetorna Q (bind m k).
Proof.
  intros Hk st b st' E. unfold bind in E.
  destruct (m st) as [[a|] st1]; [|discriminate].
  apply (Hk a _ _ _ E).
Qed.

Lemma retorna_seRetorna A (P : A -> Prop) (m : M A) :
  retorna P m -> seRetorna P m.
Proof.
  intros H st a st' E. destruct (H st) as (a' & st1 & E' & Pa).
  rewrite E in E'. inversion E'; subst. exact Pa.
Qed.

Lemma retorna_findFact (tipo chave entidade : jsstring) :
  retorna (fun r => match r with BuscaFatos _ => False | _ => True end)
    (findFact tipo chave entidade).
Proof.
  unfold findFact. apply retorna_tentar.
  - apply seRetorna_bind. intros [[i f]|]; apply seRetorna_ret; exact I.
  - apply retorna_bind with (1 := retorna_consoleErro _).
    intros _ _. apply retorna_ret. exact I.
Qed.

Lemma retorna_findRelationalFacts (tipo entidade : jsstring)
    (valor : option jsstring) :
  retorna (fun r => match r with
                    | BuscaFatos (_ :: _) | BuscaFalha => True
                    | _ => False
                    end)
    (findRelationalFacts tipo entidade valor).
Proof.
  unfold findRelationalFacts. apply retorna_tentar.
  - apply seRetorna_bind. intros [|f l]; apply seRetorna_ret; exact I.
  - apply retorna_bind with (1 := retorna_consoleErro _).
    intros _ _. apply retorna_ret. exact I.
Qed.

Lemma retorna_findConceptProperties (conceito : jsstring) :
  retorna (fun r => match r with
                    | BuscaFatos (_ :: _) | BuscaFalha => True
                    | _ => False
                    end)
    (findConceptProperties conceito).
Proof.
  unfold findConceptProperties. apply retorna_tentar.
  - cbv zeta. apply seRetorna_bind. intros [|f l].
    + apply seRetorna_bind. intros [d|l|]; apply seRetorna_ret; exact I.
    + apply seRetorna_ret; exact I.
  - apply retorna_bind with (1 := retorna_consoleErro _).
    intros _ _. apply retorna_ret. exact I.
Qed.

(** What [realizarConsulta] hands to the synthesiser is a result the
    synthesiser builds an answer from without throwing. *)
Lemma retorna_realizarConsulta (q : Consulta) (senderId : jsstring) :
  retorna (fun o => match o with
                    | Some r => exists x, construirRespostaConsulta q r = Ok x
                    | None => True
                    end)
    (realizarConsulta q senderId).
Proof.
  unfold realizarConsulta.
  destruct (streq (c_tipo q) (js "identidade")) eqn:E1.
  { destruct (streq (c_alvo q) (js "usuario")); [|apply retorna_ret; exact I].
    apply retorna_bind with (1 := retorna_registrar _). intros _ _.
    apply retorna_bind with (1 := retorna_findFact _ _ _).
    intros [f|l|] Hr; try destruct Hr; apply retorna_ret.
    - unfold construirRespostaConsulta. rewrite E1.
      destruct (streq (d_tipo f) (js "nome")); eexists; reflexivity.
    - eexists; reflexivity. }
  destruct (streq (c_tipo q) (js "relacao")) eqn:E2.
  { destruct (streq (c_alvo q) (js "usuario")) eqn:A1.
    { apply retorna_bind with (1 := retorna_registrar _). intros _ _.
      apply retorna_bind with (1 := retorna_findRelationalFacts _ _ _).
      intros [f|[|f l]|] Hr; try destruct Hr; apply retorna_ret.
      - unfold construirRespostaConsulta. rewrite E2.
        assert (A2 : streq (c_alvo q) (js "terceiro") = false).
        { apply streq_eq in A1. rewrite A1. reflexivity. }
        rewrite A2. destruct (streq (d_chave f) (js "amigo"));
          [destruct l|]; eexists; reflexivity.
      - eexists; reflexivity. }
    destruct (streq (c_alvo q) (js "terceiro")) eqn:A2;
      [|apply retorna_ret; exact I].
    destruct (cp_valor q) as [[|c v]|] eqn:Ev; cbn [truthy andb];
      try (apply retorna_ret; exact I).
    apply retorna_bind with (1 := retorna_registrar _). intros _ _.
    apply retorna_bind with (1 := retorna_findRelationalFacts _ _ _).
    intros [f|[|f l]|] Hr; try destruct Hr; apply retorna_ret.
    - unfold construirRespostaConsulta. rewrite E2, A2, Ev.
      destruct (filter _ (f :: l)); [|eexists; reflexivity].
      destruct (filter _ (f :: l)); eexists; reflexivity.
    - eexists; reflexivity. }
  destruct (streq (c_tipo q) (js "definicao")) eqn:E3.
  { destruct (cp_valor q) as [[|c v]|]; try (apply retorna_ret; exact I).
    destruct (streq (c_alvo q) (js "conceito"));
      [|apply retorna_ret; exact I].
    apply retorna_bind with (1 := retorna_registrar _). intros _ _.
    apply retorna_bind with (1 := retorna_findFact _ _ _).
    intros [f|l|] Hr; try destruct Hr; apply retorna_ret.
    - unfold construirRespostaConsulta. rewrite E1, E3.
      eexists; reflexivity.
    - eexists; reflexivity. }
  destruct (streq (c_tipo q) (js "propriedade")) eqn:E4;
    [|apply retorna_ret; exact I].
  destruct (cp_valor q) as [[|c v]|] eqn:Ev; try (apply retorna_ret; exact I).
  destruct (streq (c_alvo q) (js "conceito")) eqn:A3;
    [|apply retorna_ret; exact I].
  apply retorna_bind with (1 := retorna_registrar _). intros _ _.
  apply retorna_bind with (1 := retorna_findConceptProperties _).
  intros [f|[|f l]|] Hr; try destruct Hr; apply retorna_ret.
  - unfold construirRespostaConsulta. rewrite E2, E4, A3, Ev.
    destruct (cp_propriedade q) as [[|p ps]|]; try (eexists; reflexivity).
    destruct (filter _ (f :: l)); eexists; reflexivity.
  - eexists; reflexivity.
Qed.

(** X10: the path of a specific query throws nothing and writes nothing:
    whatever the taxonomy of the classifier, the text of the message and
    the failures of the store, the analyser, the finders and the
    synthesiser together return (an answer, or none), with the store as it
    was. *)
Theorem processarConsulta_nunca_lanca (data : RespostaJson)
    (processText senderId : jsstring) (st : Estado) :
  exists r st',
    processarConsulta data processText senderId st = (Ok r, st')
    /\ db st' = db st.
Proof.
  assert (R : retorna (fun _ => True)
                (processarConsulta data processText senderId)).
  { unfold processarConsulta.
    apply retorna_bind with (1 := retorna_registrar _). intros _ _.
    destruct (analisarTaxonomia (analise_taxonomica data) processText)
      as [q|]; [|apply retorna_ret; exact I].
    apply retorna_bind with (1 := retorna_realizarConsulta q senderId).
    intros [[f|l|]|] Hr; try (apply retorna_ret; exact I);
      destruct Hr as [x Hx];
      apply retorna_bind with (1 := retorna_registrar _); intros _ _;
      rewrite Hx; apply retorna_ret; exact I. }
  destruct (R st) as (r & st' & E & _). exists r, st'.
  split; [exact E|].
  pose proof (db_processarConsulta data processText senderId st) as F.
  rewrite E in F. exact F.
Qed.

(* ------------------------------------------------------------------ *)
(** *** The orchestrator, step by step *)

(** The lookup in the cache that opens [processMessage]: it returns, it
    leaves the store and the calls on record as they were, and it finds
    nothing where the cache holds no qualifying response. *)
Lemma busca_em_cache (kws : list jsstring) (st : Estado) :
  exists ex st1,
    tentar (findResponseByKeywords (Some kws))
      (consoleErro (js "Erro ao buscar resposta no banco:") ;;; ret None) st =
      (Ok ex, st1)
    /\ db st1 = db st /\ chamadas st1 = chamadas st
    /\ falhas st1 = tl (falhas st)
    /\ (respostaEmCache kws (responses (db st)) = None -> ex = None)
    /\ (falhas st = [] -> ex = respostaEmCache kws (responses (db st))).
Proof.
  destruct (executa (sem_findResponseByKeywords (Some kws))
              (ch_findResponseByKeywords (Some kws)) st)
    as (ex & st1 & E1 & C1).
  exists ex, st1. split; [apply tentar_ok; exact E1|].
  split.
  { pose proof (db_findResponseByKeywords (Some kws) st) as F.
    rewrite E1 in F. exact F. }
  split; [exact C1|].
  rewrite findResponseByKeywords_eq in E1.
  destruct (falhas st) as [|[|] r] eqn:Ef; inversion E1; subst;
    (split; [cbn [aposOperacao falhas]; rewrite ?Ef; reflexivity|]);
    (split; [intros Hn; try reflexivity; exact Hn|]);
    intros Hn; first [reflexivity | discriminate].
Qed.

Lemma processMessage_passos (message : Mensagem) (c : jschar) (t : jsstring)
    (api : RespostaApi) (agora : instante) (st : Estado) :
  extractMessageText message = Some (c :: t) ->
  let isL := startsWith (js "/aprender ") (c :: t) in
  let ptxt := textoProcessado (c :: t) in
  let kws := extractKeywords (JStr ptxt) 10 in
  exists (ex : option (nat * RespDoc)) (st1 : Estado),
    db st1 = db st
    /\ chamadas st1 = chamadas st ++ [ChFindResponseByKeywords kws]
    /\ falhas st1 = tl (falhas st)
    /\ (respostaEmCache kws (responses (db st)) = None -> ex = None)
    /\ (falhas st = [] -> ex = respostaEmCache kws (responses (db st)))
    /\ processMessage message api agora st =
       (finalResponse <-
          match ex, isL with
          | Some (_, r), false => ret (r_resposta r)
          | _, _ => consultarClassificador message isL ptxt api agora
          end ;;
        ret (Some (formatarResposta finalResponse))) st1.
Proof.
  intros Ht isL ptxt kws.
  destruct (busca_em_cache kws (comChamada st (ChFindResponseByKeywords kws)))
    as (ex & st1 & E1 & D1 & C1 & F1 & N1 & S1).
  exists ex, st1. split; [exact D1|]. split; [exact C1|].
  split; [exact F1|]. split; [exact N1|]. split; [exact S1|].
  unfold processMessage. rewrite Ht. cbv zeta.
  fold isL. change (if isL then trim (skipn 10 (c :: t)) else c :: t)
    with ptxt. fold kws.
  rewrite bind_registrar. rewrite (bind_ok _ _ _ E1). reflexivity.
Qed.



(** X13: where the classifier fails (the request fails, or its content is no
    JSON text or lacks a required field), a message that is a learning
    command or hits no cached response is answered with the apology, and
    nothing is written, for a learning command as well. *)
Theorem classificador_falha (message : Mensagem) (c : jschar) (t : jsstring)
    (api : RespostaApi) (agora : instante) (st : Estado) :
  extractMessageText message = Some (c :: t) ->
  getOpenAIResponse (textoProcessado (c :: t))
    (Some (extractSenderInfo message)) api = Falha ->
  startsWith (js "/aprender ") (c :: t) = true
  \/ respostaEmCache (extractKeywords (JStr (textoProcessado (c :: t))) 10)
       (responses (db st)) = None ->
  fst (processMessage message api agora st) =
    Ok (Some (formatarResposta (Some respostaErroOpenAI)))
  /\ db (snd (processMessage message api agora st)) = db st.
Proof.
  intros Ht Ho H.
  destruct (processMessage_passos message api agora st Ht)
    as (ex & st1 & D1 & C1 & F1 & N1 & S1 & E).
  cbv zeta in *.
  set (isL := startsWith (js "/aprender ") (c :: t)) in *.
  set (ptxt := textoProcessado (c :: t)) in *.
  assert (E2 : consultarClassificador message isL ptxt api agora st1 =
               (Ok (Some respostaErroOpenAI),
                snd (consoleErro (js "Erro na resposta da OpenAI:")
                       (comChamada st1 (ChGetOpenAIResponse ptxt))))).
  { unfold consultarClassificador. cbv zeta. apply tentar_ok.
    rewrite bind_registrar, Ho. reflexivity. }
  assert (E3 : match ex, isL with
               | Some (_, r), false => ret (r_resposta r)
               | _, _ => consultarClassificador message isL ptxt api agora
               end = consultarClassificador message isL ptxt api agora).
  { destruct H as [H|H].
    - rewrite H. destruct ex as [[i r]|]; reflexivity.
    - rewrite (N1 H). reflexivity. }
  rewrite E3 in E. rewrite E, (bind_ok _ _ _ E2). cbn [ret fst snd].
  split; [reflexivity | exact D1].
Qed.


Lemma analisar_identidade_usuario (tx : Taxonomia) (texto : jsstring) :
  tipo_interacao tx = Some (js "pergunta") ->
  categoria_conhecimento tx = Some (js "IDENTIDADE") ->
  sujeito_principal tx = Some USUARIO ->
  analisarTaxonomia (Some tx) texto =
  Some {| c_tipo := js "identidade"; c_alvo := js "usuario";
          cp_entidade := Some (js "usuario");
          cp_valor := None; cp_propriedade := None |}.
Proof.
  intros H1 H2 H3. unfold analisarTaxonomia, tipoConsulta.
  rewrite H1, H2, H3. reflexivity.
Qed.

(** X12: a question about the user's own name is answered from the store: for
    a message that is no learning command and hits no cached response,
    classified as a question of category IDENTIDADE about the user, where
    the store carries the lookup out and holds a name for the sender, the
    reply is "Seu nome é <valor>."; the translator is not called and the
    store is left as it was. *)
Theorem consulta_identidade (message : Mensagem) (c : jschar) (t : jsstring)
    (api : RespostaApi) (agora : instante) (st : Estado)
    (data : RespostaJson) (tx : Taxonomia) (id : nat) (d : FactDoc) :
  extractMessageText message = Some (c :: t) ->
  startsWith (js "/aprender ") (c :: t) = false ->
  respostaEmCache (extractKeywords (JStr (c :: t)) 10) (responses (db st)) =
    None ->
  getOpenAIResponse (c :: t) (Some (extractSenderInfo message)) api =
    Sucesso data ->
  analise_taxonomica data = Some tx ->
  tipo_interacao tx = Some (js "pergunta") ->
  categoria_conhecimento tx = Some (js "IDENTIDADE") ->
  sujeito_principal tx = Some USUARIO ->
  hd false (tl (falhas st)) = false ->
  primeiro
    (casaFato {| q_tipo := js "nome"; q_chave := js "nome";
                 q_entidade := textoUndef (si_id (extractSenderInfo message));
                 q_conceito := None |})
    (indexar (facts (db st))) = Some (id, d) ->
  fst (processMessage message api agora st) =
    Ok (Some (formatarResposta
                (Some (js "Seu nome é " ++ d_valor d ++ js "."))))
  /\ chamadas (snd (processMessage message api agora st)) =
     chamadas st
     ++ [ChFindResponseByKeywords (extractKeywords (JStr (c :: t)) 10);
         ChGetOpenAIResponse (c :: t); ChAnalisarTaxonomia; ChFindFact;
         ChConstruirRespostaConsulta]
  /\ db (snd (processMessage message api agora st)) = db st.
Proof.
  intros Ht Hl Hc Ho Hx H1 H2 H3 Hf Hd.
  destruct (processMessage_passos message api agora st Ht)
    as (ex & st1 & D1 & C1 & F1 & N1 & S1 & E).
  unfold textoProcessado in *. rewrite Hl in *.
  rewrite (N1 Hc) in E. clear N1.
  set (senderId := textoUndef (si_id (extractSenderInfo message))) in *.
  set (st2 := comChamada
                (comChamada
                   (comChamada st1 (ChGetOpenAIResponse (c :: t)))
                   ChAnalisarTaxonomia)
                ChFindFact).
  assert (Hnome : streq (d_tipo d) (js "nome") = true).
  { destruct (find_some_primeiro _ _ _ Hd) as (_ & Hp & _).
    unfold casaFato in Hp. cbn [q_tipo] in Hp.
    destruct (streq (d_tipo d) (js "nome")); [reflexivity|discriminate]. }
  set (q := {| c_tipo := js "identidade"; c_alvo := js "usuario";
               cp_entidade := Some (js "usuario");
               cp_valor := None; cp_propriedade := None |}).
  assert (Ef : findFact (js "nome") (js "nome") senderId st2 =
               (Ok (BuscaFato d), aposOperacao st2)).
  { rewrite findFact_realizada.
    - unfold st2. cbn [comChamada db]. rewrite D1, Hd. reflexivity.
    - unfold st2. cbn [comChamada falhas]. rewrite F1. exact Hf. }
  assert (Er : realizarConsulta q senderId
                 (comChamada
                    (comChamada st1 (ChGetOpenAIResponse (c :: t)))
                    ChAnalisarTaxonomia) =
               (Ok (Some (BuscaFato d)), aposOperacao st2)).
  { unfold realizarConsulta, q. cbn [c_tipo c_alvo].
    change (streq (js "identidade") (js "identidade")) with true.
    change (streq (js "usuario") (js "usuario")) with true.
    cbv iota. rewrite bind_registrar. fold st2.
    rewrite (bind_ok _ _ _ Ef). reflexivity. }
  assert (Ep : processarConsulta data (c :: t) senderId
                 (comChamada st1 (ChGetOpenAIResponse (c :: t))) =
               (Ok (Some (js "Seu nome é " ++ d_valor d ++ js ".")),
                comChamada (aposOperacao st2) ChConstruirRespostaConsulta)).
  { unfold processarConsulta. rewrite Hx.
    rewrite (analisar_identidade_usuario tx (c :: t) H1 H2 H3). fold q.
    rewrite bind_registrar. rewrite (bind_ok _ _ _ Er).
    rewrite bind_registrar.
    unfold construirRespostaConsulta, q. cbn [c_tipo].
    change (streq (js "identidade") (js "identidade")) with true.
    cbv iota. rewrite Hnome. reflexivity. }
  assert (E2 : consultarClassificador message false (c :: t) api agora st1 =
               (Ok (Some (js "Seu nome é " ++ d_valor d ++ js ".")),
                comChamada (aposOperacao st2) ChConstruirRespostaConsulta)).
  { unfold consultarClassificador. cbv zeta. apply tentar_ok.
    rewrite bind_registrar, Ho. fold senderId.
    rewrite (bind_ok _ _ _ Ep). reflexivity. }
  rewrite E. rewrite (bind_ok _ _ _ E2). cbn [ret fst snd].
  split; [reflexivity|].
  unfold st2. cbn [comChamada aposOperacao chamadas db]. split.
  - rewrite C1, <- !app_assoc. reflexivity.
  - exact D1.
Qed.

(* ------------------------------------------------------------------ *)
(** *** The response cache *)

Lemma respostaEmCache_primeiro (keywords : list jsstring)
    (respostas : list RespDoc) :
  respostaEmCache keywords respostas =
  primeiro (qualifica keywords) (indexar respostas).
Proof.
  unfold respostaEmCache, qualifica. cbv zeta.
  induction (indexar respostas) as [|[i r] l IH]; [reflexivity|].
  cbn [filter primeiro snd].
  destruct (casaPalavras _ r); cbn [andb filter snd]; [|exact IH].
  destruct (_ <=? _); [reflexivity | exact IH].
Qed.

Lemma ceil06_le (n : nat) : ceil06 n <= n.
Proof.
  unfold ceil06. apply Nat.lt_succ_r.
  apply Nat.Div0.div_lt_upper_bound. lia.
Qed.

Lemma filter_firstn_length A (p : A -> bool) (n : nat) (l : list A) :
  length (filter p (firstn n l)) <= length (filter p l).
Proof.
  revert l; induction n as [|n IH]; intros [|x l]; simpl;
    try apply Nat.le_0_l.
  destruct (p x); simpl; [apply le_n_S|]; apply IH.
Qed.

Lemma includes_proprio (l : list jsstring) :
  filter (includes l) l = l.
Proof.
  apply filter_todos. intros x Hx. apply includes_In; exact Hx.
Qed.

Lemma qualifica_propria (kws : list jsstring) (r : RespDoc) :
  kws <> [] -> r_palavras_chave r = Some kws -> qualifica kws r = true.
Proof.
  intros Hne Hk. unfold qualifica. cbv zeta. rewrite firstn_min_10.
  unfold casaPalavras, matchCount. rewrite Hk.
  apply andb_true_intro. split.
  - destruct kws as [|k0 kws]; [exfalso; apply Hne; reflexivity|].
    cbn [firstn existsb includes]. rewrite streq_refl. reflexivity.
  - apply Nat.leb_le.
    apply Nat.le_trans with (1 := ceil06_le _).
    apply Nat.le_trans
      with (2 := filter_firstn_length (includes (firstn 10 kws)) 10 kws).
    rewrite includes_proprio. apply Nat.le_refl.
Qed.

(** After a save under keywords that are not empty, where no operation on
    the store fails, the first response that qualifies for the keywords
    holds the answer text saved. *)
Lemma saveResponse_grava (rd : ResponseData) (kws : list jsstring)
    (t : instante) (st : Estado) :
  falhas st = [] ->
  rd_palavras_chave rd = Some kws ->
  kws <> [] ->
  falhas (snd (saveResponse rd t st)) = []
  /\ exists i r,
       primeiro (qualifica kws)
         (indexar (responses (db (snd (saveResponse rd t st))))) =
         Some (i, r)
       /\ r_resposta r = rd_resposta rd
       /\ r_last_updated r = t.
Proof.
  intros Hf Hk Hne.
  set (upd := fun r : RespDoc =>
                {| r_palavras_chave := r_palavras_chave r;
                   r_resposta := rd_resposta rd;
                   r_classificacao := rd_classificacao rd;
                   r_created_at := r_created_at r;
                   r_last_updated := t |}).
  set (novo := {| r_palavras_chave := rd_palavras_chave rd;
                  r_resposta := rd_resposta rd;
                  r_classificacao := rd_classificacao rd;
                  r_created_at := t;
                  r_last_updated := t |}).
  assert (E : exists rs1 st1,
            snd (saveResponse rd t st) = st1
            /\ falhas st1 = [] /\ responses (db st1) = rs1
            /\ exists i r, primeiro (qualifica kws) (indexar rs1) = Some (i, r)
                           /\ r_resposta r = rd_resposta rd
                           /\ r_last_updated r = t).
  { unfold saveResponse, tentar. rewrite Hk.
    unfold bind at 1. rewrite findResponseByKeywords_eq, Hf.
    rewrite respostaEmCache_primeiro.
    destruct (primeiro (qualifica kws) (indexar (responses (db st))))
      as [[i r0]|] eqn:Ep.
    - unfold bind. rewrite operacao_realizada
        by (cbn [aposOperacao falhas]; rewrite Hf; reflexivity).
      cbn [fst snd aposOperacao db falhas tl responses].
      rewrite Hf. cbn [tl].
      eexists; eexists. split; [reflexivity|].
      cbn [falhas db responses]. split; [reflexivity|].
      split; [reflexivity|].
      destruct (primeiro_desde_alterar (qualifica kws) upd
                  (responses (db st)) 0 Ep) as [_ Hp].
      { destruct (find_some_primeiro _ _ _ Ep) as (_ & Hq & _). exact Hq. }
      rewrite Nat.sub_0_r in Hp. fold upd.
      exists i, (upd r0). split; [exact Hp|]. split; reflexivity.
    - unfold bind. rewrite operacao_realizada
        by (cbn [aposOperacao falhas]; rewrite Hf; reflexivity).
      cbn [fst snd aposOperacao db falhas tl responses].
      rewrite Hf. cbn [tl].
      eexists; eexists. split; [reflexivity|].
      cbn [falhas db responses]. split; [reflexivity|].
      split; [reflexivity|]. rewrite <- Hk. fold novo.
      unfold ret. cbn [fst snd db responses].
      exists (0 + length (responses (db st))), novo.
      split; [|split; reflexivity].
      change (indexar (responses (db st) ++ [novo]))
        with (indexarDesde 0 (responses (db st) ++ [novo])).
      rewrite primeiro_desde_app. unfold indexar in Ep.
      unfold indexarDesde at 1. rewrite Ep.
      rewrite (@qualifica_propria kws novo Hne Hk). reflexivity. }
  destruct E as (rs1 & st1 & E1 & F1 & R1 & i & r & Hp & H1 & H2).
  rewrite E1, F1, R1. split; [reflexivity|].
  exists i, r. split; [exact Hp|]. split; assumption.
Qed.

(** X14: a response saved under keywords is found under them: where no
    operation on the store fails and the list of keywords is not empty,
    the lookup that follows [saveResponse] with the same keywords finds a
    response, and that response holds the answer text saved and the time
    of the save. *)
Theorem saveResponse_depois_encontra (rd : ResponseData)
    (kws : list jsstring) (t : instante) (st : Estado) :
  falhas st = [] ->
  rd_palavras_chave rd = Some kws ->
  kws <> [] ->
  exists i r,
    fst (findResponseByKeywords (Some kws) (snd (saveResponse rd t st))) =
      Ok (Some (i, r))
    /\ r_resposta r = rd_resposta rd
    /\ r_last_updated r = t.
Proof.
  intros Hf Hk Hne.
  destruct (saveResponse_grava rd t st Hf Hk Hne)
    as (F1 & i & r & Hp & H1 & H2).
  exists i, r. rewrite findResponseByKeywords_eq, F1.
  cbn [fst]. rewrite respostaEmCache_primeiro, Hp.
  split; [reflexivity|]. split; assumption.
Qed.

(* ------------------------------------------------------------------ *)
(** *** Learning *)

Lemma semFalha_ret A (a : A) : semFalha (ret a).
Proof. intros st H; exact H. Qed.

Lemma semFalha_lancar A : semFalha (@lancar A).
Proof. intros st H; exact H. Qed.

Lemma semFalha_elevar A (r : res A) : semFalha (elevar r).
Proof. destruct r; intros st H; exact H. Qed.

Lemma semFalha_consoleErro (linha : jsstring) : semFalha (consoleErro linha).
Proof. intros st H; exact H. Qed.

Lemma semFalha_registrar (c : Chamada) : semFalha (registrar c).
Proof. intros st H; exact H. Qed.

Lemma semFalha_operacao A (f : Db -> A * Db) : semFalha (operacao f).
Proof.
  intros st H. unfold operacao. rewrite H. destruct (f (db st)).
  reflexivity.
Qed.

Lemma semFalha_bind A B (m : M A) (k : A -> M B) :
  semFalha m -> (forall a, semFalha (k a)) -> semFalha (bind m k).
Proof.
  intros Hm Hk st H. unfold bind. specialize (Hm st H).
  destruct (m st) as [[a|] st1]; cbn [snd] in *; [|exact Hm].
  apply Hk; exact Hm.
Qed.

Lemma semFalha_tentar A (m h : M A) :
  semFalha m -> semFalha h -> semFalha (tentar m h).
Proof.
  intros Hm Hh st H. unfold tentar. specialize (Hm st H).
  destruct (m st) as [[a|] st1]; cbn [snd] in *; [exact Hm|].
  apply Hh; exact Hm.
Qed.

Lemma semFalha_updateOne (id : nat) (u : Atualizacao) :
  semFalha (updateOne id u).
Proof.
  unfold updateOne. destruct (existsb _ _); [|apply semFalha_operacao].
  intros st H. cbn. rewrite H. reflexivity.
Qed.

Ltac semFalhas :=
  repeat first
    [ apply semFalha_ret | apply semFalha_lancar | apply semFalha_elevar
    | apply semFalha_consoleErro | apply semFalha_registrar
    | apply semFalha_operacao | apply semFalha_updateOne
    | apply semFalha_tentar | apply semFalha_bind
    | match goal with |- forall _, _ => intro end
    | match goal with
      | |- semFalha (match ?x with _ => _ end) => destruct x
      | |- semFalha (let (_, _) := ?x in _) => destruct x
      end ].

Lemma semFalha_findResponseByKeywords (keywords : option (list jsstring)) :
  semFalha (findResponseByKeywords keywords).
Proof. unfold findResponseByKeywords. semFalhas. Qed.

Lemma semFalha_saveResponse (rd : ResponseData) (agora : instante) :
  semFalha (saveResponse rd agora).
Proof.
  unfold saveResponse. semFalhas.
Qed.

Lemma semFalha_saveFact (f : Fato) (agora : instante) :
  semFalha (saveFact f agora).
Proof. unfold saveFact. semFalhas. Qed.

Lemma semFalha_salvarFatos (fatos : list Fato) (agora : instante) :
  semFalha (salvarFatos fatos agora).
Proof.
  induction fatos as [|f r IH]; cbn [salvarFatos]; [apply semFalha_ret|].
  apply semFalha_bind; [|intros _; exact IH].
  semFalhas.
Qed.

Lemma salvarFatos_app (l1 l2 : list Fato) (agora : instante) :
  forall st,
    salvarFatos (l1 ++ l2) agora st =
    (salvarFatos l1 agora ;;; salvarFatos l2 agora) st.
Proof.
  induction l1 as [|x l1 IH]; intros st; [reflexivity|].
  cbn [app salvarFatos]. unfold bind in *.
  destruct (tentar _ _ st) as [[u|] st1]; [|reflexivity].
  apply IH.
Qed.

Lemma salvarFatos_um (f : Fato) (agora : instante) (st : Estado) :
  salvarFatos [f] agora st =
  (Ok tt, snd (saveFact f agora (comChamada st (ChSaveFact f)))).
Proof.
  cbn [salvarFatos]. unfold bind at 1.
  destruct (sem_saveFact f agora (comChamada st (ChSaveFact f)))
    as (r & st1 & E).
  rewrite (@tentar_ok _ _ _ _ st1 tt).
  - rewrite E. reflexivity.
  - rewrite bind_registrar. rewrite (bind_ok _ _ _ E). reflexivity.
Qed.

(** The facts a list of records was stored from. *)
Lemma primeiro_prefixo A (p : A -> bool) (l extra : list A) :
  forall n x,
    primeiro p (indexarDesde n l) = Some x ->
    primeiro p (indexarDesde n (l ++ extra)) = Some x.
Proof.
  unfold indexarDesde.
  induction l as [|y l IH]; intros n x; simpl; [discriminate|].
  destruct (p y); [intros H; exact H|]. apply IH.
Qed.

Lemma saveFact_acrescenta (f : Fato) (t : instante) (st : Estado) :
  exists extra,
    facts (db (snd (saveFact f t st))) = facts (db st) ++ extra
    /\ forall d, In d extra ->
         exists tipo chave entidade valor,
           camposEssenciais f = Some (tipo, chave, entidade, valor)
           /\ d = novoDoc f (consultaDe tipo chave entidade (f_conceito f))
                    valor t.
Proof.
  destruct (saveFact_casos f t st)
    as [(_ & H & _)|(tp & ch & en & vl & Hc & _ & _ & H)].
  - exists []. rewrite app_nil_r. split; [exact H|]. intros d [].
  - eexists. split; [exact H|]. intros d [Hd|[]].
    exists tp, ch, en, vl. split; [exact Hc | symmetry; exact Hd].
Qed.

Lemma salvarFatos_acrescenta (l : list Fato) (t : instante) :
  forall st,
    exists extra,
      facts (db (snd (salvarFatos l t st))) = facts (db st) ++ extra
      /\ forall d, In d extra ->
           exists g tipo chave entidade valor,
             In g l
             /\ camposEssenciais g = Some (tipo, chave, entidade, valor)
             /\ d = novoDoc g (consultaDe tipo chave entidade (f_conceito g))
                      valor t.
Proof.
  induction l as [|g r IH]; intros st.
  - exists []. rewrite app_nil_r. split; [reflexivity|]. intros d [].
  - change (g :: r) with ([g] ++ r). rewrite salvarFatos_app.
    rewrite (bind_ok _ _ _ (salvarFatos_um g t st)).
    destruct (saveFact_acrescenta g t (comChamada st (ChSaveFact g)))
      as (e1 & H1 & D1).
    destruct (IH (snd (saveFact g t (comChamada st (ChSaveFact g)))))
      as (e2 & H2 & D2).
    exists (e1 ++ e2). split.
    + rewrite H2, H1. cbn [comChamada db]. apply eq_sym, app_assoc.
    + intros d Hd. apply in_app_or in Hd. destruct Hd as [Hd|Hd].
      * destruct (D1 d Hd) as (tp & ch & en & vl & Hc & E).
        exists g, tp, ch, en, vl. split; [left; reflexivity|].
        split; assumption.
      * destruct (D2 d Hd) as (g' & tp & ch & en & vl & Hg & Hc & E).
        exists g', tp, ch, en, vl. split; [right; exact Hg|].
        split; assumption.
Qed.

(** The state a learning command ends in, where the translator returned
    facts and no operation on the store fails: the state after the save of
    the last fact, which the saves of the facts before it reach by adding
    records to the collection. *)
Lemma aprender_estado (message : Mensagem) (c : jschar) (t : jsstring)
    (api : RespostaApi) (agora : instante) (st : Estado)
    (data : RespostaJson) (l : list Fato) (f : Fato) :
  extractMessageText message = Some (c :: t) ->
  startsWith (js "/aprender ") (c :: t) = true ->
  getOpenAIResponse (textoProcessado (c :: t))
    (Some (extractSenderInfo message)) api = Sucesso data ->
  traduzirParaModeloDados (conhecimento data)
    (textoUndef (si_id (extractSenderInfo message))) (toISOString agora) =
    Ok (l ++ [f]) ->
  falhas st = [] ->
  exists stC extra,
    falhas stC = []
    /\ facts (db stC) = facts (db st) ++ extra
    /\ (forall d, In d extra ->
          exists g tipo chave entidade valor,
            In g l
            /\ camposEssenciais g = Some (tipo, chave, entidade, valor)
            /\ d = novoDoc g (consultaDe tipo chave entidade (f_conceito g))
                     valor agora)
    /\ processMessage message api agora st =
       (Ok (Some (formatarResposta
                    (Some (respostaAprendizado (length (l ++ [f])))))),
        snd (saveFact f agora stC)).
Proof.
  intros Ht Hl Ho Htr Hf.
  destruct (processMessage_passos message api agora st Ht)
    as (ex & st1 & D1 & C1 & F1 & N1 & S1 & E).
  cbv zeta in E. rewrite Hl in E. rewrite Hf in F1. cbn [tl] in F1.
  set (ptxt := textoProcessado (c :: t)) in *.
  set (senderId := textoUndef (si_id (extractSenderInfo message))) in *.
  set (rd := {| rd_palavras_chave := palavras_chave data;
                rd_resposta := resposta data;
                rd_classificacao := classificacao data |}).
  set (stA := comChamada
                (comChamada
                   (comChamada st1 (ChGetOpenAIResponse ptxt))
                   ChTraduzirParaModeloDados)
                ChSaveResponse).
  destruct (sem_saveResponse rd agora stA) as (r & stB & EB).
  assert (FB : falhas stB = []).
  { pose proof (semFalha_saveResponse rd agora stA F1) as H.
    rewrite EB in H. exact H. }
  assert (DB : facts (db stB) = facts (db st)).
  { assert (H : fixa (fun s => facts (db s)) (saveResponse rd agora))
      by (unfold saveResponse; colecao; apply col_findResponseByKeywords).
    specialize (H stA). rewrite EB in H. cbn [snd] in H. rewrite H.
    unfold stA. cbn [comChamada db]. rewrite D1. reflexivity. }
  destruct (salvarFatos_chamadas l agora stB) as (stC & EC & _).
  assert (FC : falhas stC = []).
  { pose proof (semFalha_salvarFatos l agora stB FB) as H.
    rewrite EC in H. exact H. }
  destruct (salvarFatos_acrescenta l agora stB) as (extra & HX & DX).
  rewrite EC in HX. cbn [snd] in HX. rewrite DB in HX.
  exists (comChamada stC (ChSaveFact f)), extra. split; [exact FC|].
  split; [exact HX|]. split; [exact DX|].
  assert (E2 : consultarClassificador message true ptxt api agora st1 =
               (Ok (Some (respostaAprendizado (length (l ++ [f])))),
                snd (saveFact f agora (comChamada stC (ChSaveFact f))))).
  { unfold consultarClassificador. cbv zeta. apply tentar_ok.
    rewrite bind_registrar, Ho. fold senderId.
    unfold bind at 1. unfold ret at 1. cbv iota.
    unfold aprenderOuResponder. rewrite bind_registrar. fold senderId.
    rewrite Htr. unfold elevar. unfold bind at 1. unfold ret at 1.
    apply tentar_ok. rewrite bind_registrar. fold rd. fold stA.
    rewrite (bind_ok _ _ _ EB).
    unfold bind at 1. rewrite salvarFatos_app.
    rewrite (bind_ok _ _ _ EC). rewrite salvarFatos_um. reflexivity. }
  rewrite E. destruct ex as [[i r0]|]; rewrite (bind_ok _ _ _ E2);
    reflexivity.
Qed.

(** X15: what a learning command leaves under the key of its last fact.
    Where no operation on the store fails, after a learning command whose
    classification translated to facts, [findFact] finds a record under
    the normalised key of the last of them (a fact with its four
    essential fields and no [conceito] in its query). Where a record was
    stored under the key before, it is that record, as it was: the store
    rejects the update and the lesson is lost. Where none was, and none of
    the facts before the last has that key, it is the record of the fact,
    with its value. *)
Theorem aprender_grava_ultimo_fato (message : Mensagem) (c : jschar)
    (t : jsstring) (api : RespostaApi) (agora : instante) (st : Estado)
    (data : RespostaJson) (l : list Fato) (f : Fato)
    (tipo chave entidade valor : jsstring) :
  extractMessageText message = Some (c :: t) ->
  startsWith (js "/aprender ") (c :: t) = true ->
  getOpenAIResponse (textoProcessado (c :: t))
    (Some (extractSenderInfo message)) api = Sucesso data ->
  traduzirParaModeloDados (conhecimento data)
    (textoUndef (si_id (extractSenderInfo message))) (toISOString agora) =
    Ok (l ++ [f]) ->
  camposEssenciais f = Some (tipo, chave, entidade, valor) ->
  q_conceito (consultaDe tipo chave entidade (f_conceito f)) = None ->
  falhas st = [] ->
  let q := consultaDe tipo chave entidade (f_conceito f) in
  exists d,
    fst (findFact (normalizarChave tipo) (normalizarChave chave)
           (normalizarChave entidade)
           (snd (processMessage message api agora st))) = Ok (BuscaFato d)
    /\ (forall id0 d0,
          primeiro (casaFato q) (indexar (facts (db st))) = Some (id0, d0) ->
          d = d0)
    /\ (filter (casaFato q) (facts (db st)) = [] ->
        (forall g tg cg eg vg,
           In g l ->
           camposEssenciais g = Some (tg, cg, eg, vg) ->
           casaFato q
             (novoDoc g (consultaDe tg cg eg (f_conceito g)) vg agora) =
           false) ->
        d_valor d = valor /\ d_last_updated d = agora).
Proof.
  intros Ht Hl Ho Htr Hc Hq Hf q.
  destruct (aprender_estado message api agora st l f Ht Hl Ho Htr Hf)
    as (stC & extra & FC & HX & DX & E).
  rewrite E. cbn [snd].
  assert (Hnovo : filter (casaFato q) (facts (db st)) = [] ->
                  (forall g tg cg eg vg,
                     In g l ->
                     camposEssenciais g = Some (tg, cg, eg, vg) ->
                     casaFato q
                       (novoDoc g (consultaDe tg cg eg (f_conceito g)) vg
                          agora) = false) ->
                  primeiro (casaFato q) (indexar (facts (db stC))) = None).
  { intros Hn Hg.
    apply (primeiro_nenhum (casaFato q) (facts (db stC)) 0).
    rewrite HX, filter_app, Hn. apply filter_nenhum.
    intros d Hd. destruct (DX d Hd) as (g & tg & cg & eg & vg & Hin & Hcg & ->).
    apply (Hg g tg cg eg vg Hin Hcg). }
  destruct (primeiro (casaFato q) (indexar (facts (db stC))))
    as [[i dC]|] eqn:Ep.
  - exists dC. rewrite (saveFact_existente f agora stC FC Hc Ep).
    rewrite findFact_realizada by reflexivity.
    cbn [fst snd db]. rewrite (consulta_sem_conceito _ _ _ _ Hq).
    fold q. rewrite Ep. split; [reflexivity|]. split.
    + intros id0 d0 H0.
      apply (primeiro_prefixo (casaFato q) (facts (db st)) extra 0) in H0.
      rewrite <- HX in H0. unfold indexarDesde in H0. unfold indexar in Ep.
      rewrite H0 in Ep.
      inversion Ep; reflexivity.
    + intros Hn Hg. pose proof (Hnovo Hn Hg) as H.
      first [discriminate H | rewrite Ep in H; discriminate H].
  - destruct (saveFact_novo f agora stC FC Hc Ep) as (E1 & P1 & _).
    fold q in E1, P1. exists (novoDoc f q valor agora). rewrite E1.
    rewrite findFact_realizada by reflexivity.
    cbn [fst snd estadoComFatos db comFatos facts].
    rewrite (consulta_sem_conceito _ _ _ _ Hq). fold q. rewrite P1.
    split; [reflexivity|]. split.
    + intros id0 d0 H0.
      apply (primeiro_prefixo (casaFato q) (facts (db st)) extra 0) in H0.
      rewrite <- HX in H0. unfold indexarDesde in H0. unfold indexar in Ep.
      rewrite H0 in Ep.
      discriminate.
    + intros _ _. split; reflexivity.
Qed.

(* ------------------------------------------------------------------ *)
(** *** The classifier adapter *)

(** X16: what the adapter returns as a success: the JSON object of the
    service with its four required fields present; for a message that is
    no learning command the object as it came, for a learning command an
    object whose [conhecimento] is to be stored and has one entry at
    least. *)
Theorem getOpenAIResponse_campos (userMessage : jsstring)
    (senderInfo : option SenderInfo) (api : RespostaApi)
    (data : RespostaJson) :
  getOpenAIResponse userMessage senderInfo api = Sucesso data ->
  (exists jsonData,
     api = ApiJson jsonData
     /\ palavras_chave data = palavras_chave jsonData
     /\ resposta data = resposta jsonData
     /\ classificacao data = classificacao jsonData
     /\ analise_taxonomica data = analise_taxonomica jsonData
     /\ (startsWith (js "/aprender ") userMessage = false ->
         data = jsonData))
  /\ palavras_chave data <> None
  /\ analise_taxonomica data <> None
  /\ truthy (resposta data) = true
  /\ truthy (classificacao data) = true
  /\ (startsWith (js "/aprender ") userMessage = true ->
      exists e es,
        conhecimento data =
        Some {| armazenar := true; entradas := Some (e :: es) |}).
Proof.
  unfold getOpenAIResponse. cbv zeta.
  destruct api as [| |jsonData]; try discriminate.
  destruct (palavras_chave jsonData) as [kws|] eqn:E1; [|discriminate].
  destruct (analise_taxonomica jsonData) as [tx|] eqn:E2; [|discriminate].
  destruct (truthy (resposta jsonData)) eqn:E3; [|discriminate].
  destruct (truthy (classificacao jsonData)) eqn:E4; [|discriminate].
  cbn [negb orb].
  destruct (startsWith (js "/aprender ") userMessage).
  - destruct (entradasRecebidas jsonData) as [es|] eqn:E5.
    + destruct (forcarEntradas es) as [es'|] eqn:E6; [|discriminate].
      intros H; inversion H; subst; clear H.
      cbn [comConhecimento palavras_chave resposta classificacao
             analise_taxonomica conhecimento].
      split; [exists jsonData; repeat (split; [reflexivity|]);
              discriminate|].
      split; [rewrite E1; discriminate|].
      split; [rewrite E2; discriminate|].
      split; [exact E3|]. split; [exact E4|].
      intros _. destruct (forcarEntradas_certeza _ E6) as [Hlen _].
      unfold entradasRecebidas in E5.
      destruct (conhecimento jsonData) as [k|]; [|discriminate].
      destruct (entradas k) as [[|e0 r0]|]; try discriminate.
      inversion E5; subst es. destruct es' as [|e es']; [discriminate|].
      exists e, es'. reflexivity.
    + destruct (extrairConhecimentoBasico userMessage senderInfo)
        as [entrada|]; [|discriminate].
      intros H; inversion H; subst; clear H.
      cbn [comConhecimento palavras_chave resposta classificacao
             analise_taxonomica conhecimento].
      split; [exists jsonData; repeat (split; [reflexivity|]);
              discriminate|].
      split; [rewrite E1; discriminate|].
      split; [rewrite E2; discriminate|].
      split; [exact E3|]. split; [exact E4|].
      intros _. eexists; eexists; reflexivity.
  - intros H; inversion H; subst; clear H.
    split; [exists data; repeat (split; [reflexivity|]); reflexivity|].
    split; [rewrite E1; discriminate|].
    split; [rewrite E2; discriminate|].
    split; [exact E3|]. split; [exact E4|].
    discriminate.
Qed.

(* ------------------------------------------------------------------ *)
(** *** The sender of a message *)

Lemma split_arroba (s : jsstring) :
  forall cur,
    ~ In 64%N cur ->
    let h := hd [] (splitAux [64%N] s 0 cur) in
    ~ In 64%N h /\ (cur ++ s = h \/ exists resto, cur ++ s = h ++ 64%N :: resto).
Proof.
  induction s as [|c r IH]; intros cur Hc; cbn [splitAux hd].
  - split; [exact Hc|]. left. apply app_nil_r.
  - cbn [startsWith]. rewrite Bool.andb_true_r.
    destruct (64 =? c)%N eqn:E; cbn [hd].
    + apply N.eqb_eq in E. subst c. split; [exact Hc|].
      right. exists r. reflexivity.
    + cbn [length Nat.sub]. apply N.eqb_neq in E.
      assert (Hc' : ~ In 64%N (cur ++ [c])).
      { intros H. apply in_app_or in H. destruct H as [H|[H|[]]].
        - exact (Hc H).
        - apply E. symmetry; exact H. }
      destruct (IH _ Hc') as [H1 H2]. split; [exact H1|].
      rewrite <- app_assoc in H2. exact H2.
Qed.

Lemma forcarEntradas_todas (es : list Entrada) :
  forcarEntradas (map Some es) =
  Ok (map (fun e => Some (forcarCerteza e)) es).
Proof.
  induction es as [|e es IH]; [reflexivity|].
  cbn [map forcarEntradas]. rewrite IH. reflexivity.
Qed.

Lemma forcarEntradas_null (l : list (option Entrada)) :
  In None l -> forcarEntradas l = Lancou.
Proof.
  induction l as [|[e|] l IH]; intros H.
  - destruct H.
  - destruct H as [H|H]; [discriminate H|].
    cbn [forcarEntradas]. rewrite (IH H). reflexivity.
  - reflexivity.
Qed.

Lemma forcarCerteza_campos (e : Entrada) :
  certezaDe (forcarCerteza e) = Some ALTA
  /\ ent_id (forcarCerteza e) = ent_id e
  /\ ent_tipo (forcarCerteza e) = ent_tipo e
  /\ ent_sujeito (forcarCerteza e) = ent_sujeito e
  /\ ent_predicado (forcarCerteza e) = ent_predicado e
  /\ ent_objeto (forcarCerteza e) = ent_objeto e.
Proof.
  unfold certezaDe, forcarCerteza. cbn.
  destruct (ent_contexto e); repeat split; reflexivity.
Qed.

(** X22: the adapter on a text that starts with "/aprender " and an answer
    of the service that has its four required fields. Where the answer
    carries entries, none of them [null], the adapter succeeds: it returns
    the answer with [armazenar] set and the same entries in the same
    order, each with [contexto.certeza] overwritten to "ALTA" and its
    other fields as they came. Where one of the entries is [null], it
    fails. Where the answer carries no entry, it returns the answer with
    [armazenar] set and the one entry built from the text, whose
    certainty is "ALTA", or fails where building that entry throws; the
    entry is built, with the sender as its subject, for every text with
    "meu nome" from a sender that is known, and with a concept as its
    subject for every other text with " significa ". *)
Theorem adaptador_forca_certeza (userMessage : jsstring)
    (senderInfo : option SenderInfo) (jsonData : RespostaJson)
    (kws : list jsstring) (tx : Taxonomia) :
  startsWith (js "/aprender ") userMessage = true ->
  palavras_chave jsonData = Some kws ->
  analise_taxonomica jsonData = Some tx ->
  truthy (resposta jsonData) = true ->
  truthy (classificacao jsonData) = true ->
  let r := getOpenAIResponse userMessage senderInfo (ApiJson jsonData) in
  let conteudo := toLowerCase (trim (skipn 10 userMessage)) in
  (forall es,
     entradasRecebidas jsonData = Some (map Some es) ->
     r = Sucesso (comConhecimento jsonData
                    {| armazenar := true;
                       entradas :=
                         Some (map (fun e => Some (forcarCerteza e)) es) |})
     /\ forall e, In e es ->
          certezaDe (forcarCerteza e) = Some ALTA
          /\ ent_id (forcarCerteza e) = ent_id e
          /\ ent_tipo (forcarCerteza e) = ent_tipo e
          /\ ent_sujeito (forcarCerteza e) = ent_sujeito e
          /\ ent_predicado (forcarCerteza e) = ent_predicado e
          /\ ent_objeto (forcarCerteza e) = ent_objeto e)
  /\ (forall recebidas,
        entradasRecebidas jsonData = Some recebidas ->
        In None recebidas -> r = Falha)
  /\ (entradasRecebidas jsonData = None ->
      match extrairConhecimentoBasico userMessage senderInfo with
      | Ok entrada =>
          r = Sucesso (comConhecimento jsonData
                         {| armazenar := true;
                            entradas := Some [Some entrada] |})
          /\ certezaDe entrada = Some ALTA
          /\ ent_id entrada = Some (js "entrada_manual")
      | Lancou => r = Falha
      end)
  /\ (forall si,
        senderInfo = Some si ->
        strIncludes (js "meu nome") conteudo = true ->
        exists nome,
          extrairConhecimentoBasico userMessage senderInfo =
          Ok (entradaManual (js "fato_identidade")
                (sujeitoDe USUARIO (si_id si))
                (predicadoDe (js "nome") nome)))
  /\ (strIncludes (js "meu nome") conteudo = false ->
      strIncludes (js " significa ") conteudo = true ->
      exists conceito significado,
        extrairConhecimentoBasico userMessage senderInfo =
        Ok (entradaManual (js "fato_definicao")
              (sujeitoDe CONCEITO (Some conceito))
              (predicadoDe (js "significado") significado))).
Proof.
  intros Hl Hk Ht Hr Hc r conteudo.
  assert (Er : r = match entradasRecebidas jsonData with
                   | None =>
                       match extrairConhecimentoBasico userMessage senderInfo
                       with
                       | Ok entrada =>
                           Sucesso (comConhecimento jsonData
                                      {| armazenar := true;
                                         entradas := Some [Some entrada] |})
                       | Lancou => Falha
                       end
                   | Some es =>
                       match forcarEntradas es with
                       | Ok es' =>
                           Sucesso (comConhecimento jsonData
                                      {| armazenar := true;
                                         entradas := Some es' |})
                       | Lancou => Falha
                       end
                   end).
  { subst r. unfold getOpenAIResponse. rewrite Hl, Hk, Ht, Hr, Hc.
    reflexivity. }
  split; [|split; [|split; [|split]]].
  - intros es He. rewrite Er, He, forcarEntradas_todas.
    split; [reflexivity|]. intros e _. apply forcarCerteza_campos.
  - intros recebidas He Hn. rewrite Er, He, (forcarEntradas_null _ Hn).
    reflexivity.
  - intros He. rewrite Er, He.
    destruct (extrairConhecimentoBasico userMessage senderInfo)
      as [entrada|] eqn:Ee; [|reflexivity].
    split; [reflexivity|].
    split; [apply (extrair_certeza _ _ Ee)|].
    revert Ee. unfold extrairConhecimentoBasico. intros H.
    repeat match type of H with
           | (if ?c then _ else _) = _ => destruct c
           | match ?x with _ => _ end = _ => destruct x
           end;
      try discriminate; inversion H; reflexivity.
  - intros si Hs Hm. subst senderInfo conteudo.
    unfold extrairConhecimentoBasico. rewrite Hm.
    eexists; reflexivity.
  - intros Hm Hsig. subst conteudo.
    unfold extrairConhecimentoBasico. rewrite Hm, Hsig.
    destruct (strMatch reSignifica (trim (skipn 10 userMessage)));
      eexists; eexists; reflexivity.
Qed.

(** X17: the identifier of the sender is the part of the JID (of the
    participant, where there is one, else of the chat) before its first
    [@]: it holds no [@], and the JID is the identifier alone or the
    identifier, [@] and a rest. *)
Theorem extractSenderInfo_id (message : Mensagem) :
  let jid := ouPadrao (m_participant message) (m_remoteJid message) in
  exists id,
    si_id (extractSenderInfo message) = Some id
    /\ ~ In 64%N id
    /\ (jid = id \/ exists resto, jid = id ++ 64%N :: resto).
Proof.
  intros jid. unfold extractSenderInfo. cbn [si_id]. fold jid.
  eexists. split; [reflexivity|].
  unfold split. change (js "@") with [64%N].
  apply (split_arroba jid []). intros [].
Qed.

(* ------------------------------------------------------------------ *)
(** *** The query analyser *)

(** X18: what the analyser returns is a query of one of four types about the
    user, a third party or a concept; a query about a third party or a
    concept names it ([valor] is not empty), and a query about a concept
    is a definition or a property. Only a question is analysed as a
    query. *)
Theorem analisarTaxonomia_forma (taxonomia : option Taxonomia)
    (mensagemOriginal : jsstring) (q : Consulta) :
  analisarTaxonomia taxonomia mensagemOriginal = Some q ->
  (exists tx, taxonomia = Some tx
              /\ tipo_interacao tx = Some (js "pergunta")
              /\ tipoConsulta (categoria_conhecimento tx) = Some (c_tipo q))
  /\ In (c_tipo q)
        [js "identidade"; js "relacao"; js "definicao"; js "propriedade"]
  /\ ((c_alvo q = js "usuario" /\ cp_valor q = None)
      \/ (c_alvo q = js "terceiro" /\ truthy (cp_valor q) = true
          /\ cp_propriedade q = None)
      \/ (c_alvo q = js "conceito" /\ truthy (cp_valor q) = true
          /\ In (c_tipo q) [js "definicao"; js "propriedade"])).
Proof.
  unfold analisarTaxonomia. destruct taxonomia as [tx|]; [|discriminate].
  destruct (eqOpt (tipo_interacao tx) (js "pergunta")) eqn:E1;
    [|discriminate].
  cbn [negb]. apply eqOpt_true in E1.
  destruct (tipoConsulta (categoria_conhecimento tx)) as [tipo|] eqn:E2;
    [|discriminate].
  assert (Htipo : In tipo [js "identidade"; js "relacao"; js "definicao";
                           js "propriedade"]).
  { unfold tipoConsulta in E2.
    destruct (eqOpt _ (js "IDENTIDADE"));
      [inversion E2; left; reflexivity|].
    destruct (eqOpt _ (js "RELAÇÃO"));
      [inversion E2; right; left; reflexivity|].
    destruct (eqOpt _ (js "DEFINIÇÃO"));
      [inversion E2; right; right; left; reflexivity|].
    destruct (eqOpt _ (js "PROPRIEDADE")); [|discriminate].
    inversion E2; right; right; right; left; reflexivity. }
  destruct (eqOpt (sujeito_principal tx) USUARIO).
  { intros H; inversion H; subst; clear H. cbn [c_tipo c_alvo cp_valor].
    split; [exists tx; repeat split; assumption|].
    split; [exact Htipo|]. left. split; reflexivity. }
  destruct (eqOpt (sujeito_principal tx) TERCEIRO).
  { destruct (strMatch reTerceiro mensagemOriginal) as [cap|];
      [|discriminate].
    destruct (truthy (captura 1 cap)); [|discriminate]. cbn [andb].
    destruct (truthy (minusculas (captura 1 cap))) eqn:Ev; [|discriminate].
    intros H; inversion H; subst; clear H.
    cbn [c_tipo c_alvo cp_valor cp_propriedade].
    split; [exists tx; repeat split; assumption|].
    split; [exact Htipo|]. right. left.
    split; [reflexivity|]. split; [exact Ev | reflexivity]. }
  destruct (eqOpt (sujeito_principal tx) CONCEITO); [|discriminate].
  cbv zeta.
  destruct (streq tipo (js "definicao")) eqn:T1.
  { apply streq_eq in T1.
    match goal with
    | |- (if truthy (fst ?x) then _ else _) = _ -> _ =>
        destruct (truthy (fst x)) eqn:Ev; [|discriminate]
    end.
    intros H; inversion H; subst; clear H.
    cbn [c_tipo c_alvo cp_valor cp_propriedade].
    split; [exists tx; repeat split; assumption|].
    split; [exact Htipo|]. right. right.
    split; [reflexivity|]. split; [exact Ev|]. left; reflexivity. }
  destruct (streq tipo (js "propriedade")) eqn:T2; [|discriminate].
  apply streq_eq in T2.
  match goal with
  | |- (if truthy (fst ?x) then _ else _) = _ -> _ =>
      destruct (truthy (fst x)) eqn:Ev; [|discriminate]
  end.
  intros H; inversion H; subst; clear H.
  cbn [c_tipo c_alvo cp_valor cp_propriedade].
  split; [exists tx; repeat split; assumption|].
  split; [exact Htipo|]. right. right.
  split; [reflexivity|]. split; [exact Ev|]. right; left; reflexivity.
Qed.

(* ------------------------------------------------------------------ *)
(** *** The connection supervisor *)

Lemma aoEvento_limite (n : nat) (ev : EventoConexao) :
  n <= MAX_RECONNECT_ATTEMPTS ->
  fst (aoEvento n ev) <= MAX_RECONNECT_ATTEMPTS.
Proof.
  intros H. unfold aoEvento, MAX_RECONNECT_ATTEMPTS in *.
  destruct ev as [[|]| | |]; cbn [negb andb fst]; try exact H;
    try apply Nat.le_0_l;
    destruct (n <? 5) eqn:E; cbn [fst]; try exact H;
    apply Nat.ltb_lt in E; rewrite Nat.add_1_r; exact E.
Qed.

(** X19: the supervisor gives up after five attempts: from a counter of at
    most five, through any sequence of events, the counter stays at most
    five; through a sequence in which the connection never opens, every
    start scheduled is counted, so that at most five less the counter are
    scheduled; and at five none is scheduled any more. *)
Theorem reconexoes_limitadas (evs : list EventoConexao) :
  forall n,
    n <= MAX_RECONNECT_ATTEMPTS ->
    fst (aoEventos n evs) <= MAX_RECONNECT_ATTEMPTS
    /\ (forallb (fun ev => negb (eAbertura ev)) evs = true ->
        fst (aoEventos n evs) = n + snd (aoEventos n evs)
        /\ (n = MAX_RECONNECT_ATTEMPTS -> snd (aoEventos n evs) = 0)).
Proof.
  induction evs as [|ev r IH]; intros n Hn; cbn [aoEventos forallb].
  - split; [exact Hn|]. intros _. split; [|reflexivity].
    cbn [fst snd]. rewrite Nat.add_0_r. reflexivity.
  - pose proof (aoEvento_limite ev Hn) as H1.
    destruct (aoEvento n ev) as [n1 ag] eqn:E1. cbn [fst] in H1.
    destruct (IH n1 H1) as [I1 I2].
    destruct (aoEventos n1 r) as [n2 k] eqn:E2. cbn [fst snd] in *.
    split; [exact I1|]. intros Hab. apply andb_prop in Hab.
    destruct Hab as [Ha Hr]. destruct (I2 Hr) as [I3 I4].
    assert (Hpasso : n1 = n + (if ag then 1 else 0)
                     /\ (n = MAX_RECONNECT_ATTEMPTS -> ag = false)).
    { unfold aoEvento, MAX_RECONNECT_ATTEMPTS in E1.
      destruct ev as [[|]| | |]; cbn [negb andb eAbertura] in *;
        try discriminate;
        try (inversion E1; subst; split;
             [rewrite Nat.add_0_r; reflexivity | reflexivity]);
        destruct (n <? 5) eqn:E; inversion E1; subst;
        (split; [first [reflexivity | rewrite Nat.add_0_r; reflexivity]|]);
        intros Hm; try reflexivity;
        rewrite Hm in E; discriminate. }
    destruct Hpasso as [P1 P2]. split.
    + rewrite I3, P1. apply eq_sym, Nat.add_assoc.
    + intros Hm. rewrite (P2 Hm) in *. rewrite Nat.add_0_r in P1.
      rewrite I4; [reflexivity|]. rewrite P1. exact Hm.
Qed.

(* ------------------------------------------------------------------ *)
(** *** Normalisation of values *)

Lemma isWhite_naoWord (c : jschar) : isWord c = true -> isWhite c = false.
Proof.
  unfold isWord, isAlpha, isUpperAZ, isLowerAZ, isDigit, isWhite.
  intros H. apply Bool.not_true_is_false. intros W.
  repeat rewrite ?Bool.orb_true_iff, ?Bool.andb_true_iff, ?N.leb_le,
    ?N.eqb_eq in H.
  repeat rewrite ?Bool.orb_true_iff, ?Bool.andb_true_iff, ?N.leb_le,
    ?N.eqb_eq in W.
  lia.
Qed.

Lemma dropWhile_todos (p : jschar -> bool) (s : jsstring) :
  forallb p s = true -> dropWhile p s = [].
Proof.
  induction s as [|c r IH]; simpl; [reflexivity|].
  intros H. apply andb_prop in H. destruct H as [H1 H2].
  rewrite H1. apply IH; exact H2.
Qed.

Lemma dropWhile_snoc (p : jschar -> bool) (s : jsstring) (c : jschar) :
  dropWhile p (s ++ [c]) =
  if forallb p s then (if p c then [] else [c]) else dropWhile p s ++ [c].
Proof.
  induction s as [|x r IH]; simpl; [reflexivity|].
  destruct (p x); simpl; [exact IH | reflexivity].
Qed.

Lemma dropWhile_cabeca (p : jschar -> bool) (s : jsstring) :
  dropWhile p s = []
  \/ exists c r, dropWhile p s = c :: r /\ p c = false.
Proof.
  induction s as [|x r IH]; simpl; [left; reflexivity|].
  destruct (p x) eqn:E; [exact IH|].
  right. exists x, r. split; [reflexivity | exact E].
Qed.

Lemma dropWhileEnd_snoc (p : jschar -> bool) (s : jsstring) (c : jschar) :
  dropWhileEnd p (s ++ [c]) = if p c then dropWhileEnd p s else s ++ [c].
Proof.
  unfold dropWhileEnd. rewrite rev_app_distr. simpl.
  destruct (p c); [reflexivity|].
  simpl. rewrite rev_involutive. reflexivity.
Qed.

Lemma dropWhileEnd_fim (p : jschar -> bool) (s : jsstring) :
  dropWhileEnd p s = []
  \/ exists ini c, dropWhileEnd p s = ini ++ [c] /\ p c = false.
Proof.
  induction s as [|c s IH] using rev_ind; [left; reflexivity|].
  rewrite dropWhileEnd_snoc. destruct (p c) eqn:E; [exact IH|].
  right. exists s, c. split; [reflexivity | exact E].
Qed.

Lemma dropWhileEnd_cabeca (p : jschar -> bool) (c : jschar) (s : jsstring) :
  p c = false -> exists r, dropWhileEnd p (c :: s) = c :: r.
Proof.
  intros Hc. induction s as [|z s IH] using rev_ind.
  - exists []. change [c] with ([] ++ [c]). rewrite dropWhileEnd_snoc, Hc.
    reflexivity.
  - change (c :: s ++ [z]) with ((c :: s) ++ [z]).
    rewrite dropWhileEnd_snoc. destruct (p z); [exact IH|].
    exists (s ++ [z]). reflexivity.
Qed.

Lemma aparar_redundante (s : jsstring) :
  dropWhileEnd (fun c => negb (isWord c))
    (dropWhile (fun c => negb (isWord c)) (dropWhileEnd isWhite s)) =
  dropWhileEnd (fun c => negb (isWord c))
    (dropWhile (fun c => negb (isWord c)) s).
Proof.
  induction s as [|z s IH] using rev_ind; [reflexivity|].
  rewrite dropWhileEnd_snoc. destruct (isWhite z) eqn:Ez; [|reflexivity].
  rewrite IH, dropWhile_snoc.
  assert (Hz : negb (isWord z) = true).
  { destruct (isWord z) eqn:Ew; [|reflexivity].
    rewrite (isWhite_naoWord _ Ew) in Ez. discriminate. }
  rewrite Hz. destruct (forallb _ s) eqn:Ef.
  - rewrite (dropWhile_todos _ _ Ef). reflexivity.
  - rewrite dropWhileEnd_snoc, Hz. reflexivity.
Qed.

Lemma forallb_implica (p q : jschar -> bool) (s : jsstring) :
  (forall c, p c = true -> q c = true) ->
  forallb p s = true -> forallb q s = true.
Proof.
  intros H. induction s as [|c r IH]; simpl; [reflexivity|].
  intros Hs. apply andb_prop in Hs. destruct Hs as [H1 H2].
  rewrite (H _ H1), (IH H2). reflexivity.
Qed.

Lemma branco_naoWord (c : jschar) :
  isWhite c = true -> negb (isWord c) = true.
Proof.
  intros H. destruct (isWord c) eqn:E; [|reflexivity].
  rewrite (isWhite_naoWord _ E) in H. discriminate.
Qed.

(** X20: [normalizarValor] cuts a value down to what lies between its first
    and its last code unit of the class [\w]: the result begins and ends
    with such a code unit (or is empty), normalising it again changes
    nothing, and a code unit outside [\w] at the end of a value (a space,
    a full stop, but an accented letter as well) is lost. *)
Theorem normalizarValor_bordas (v : jsstring) :
  let r := normalizarValor v in
  normalizarValor r = r
  /\ (forall c rest, r = c :: rest -> isWord c = true)
  /\ (forall ini c, r = ini ++ [c] -> isWord c = true)
  /\ (forall c, isWord c = false -> normalizarValor (v ++ [c]) = r).
Proof.
  set (nw := fun c => negb (isWord c)).
  assert (Hforma : normalizarValor v = []
                   \/ exists c rest ini z,
                        normalizarValor v = c :: rest
                        /\ normalizarValor v = ini ++ [z]
                        /\ isWord c = true /\ isWord z = true).
  { unfold normalizarValor. fold nw.
    destruct (dropWhile_cabeca nw (trim v)) as [E|(c & r & E & Hc)].
    - left. rewrite E. reflexivity.
    - rewrite E. destruct (dropWhileEnd_cabeca nw c r Hc) as [r' E'].
      destruct (dropWhileEnd_fim nw (c :: r)) as [E2|(ini & z & E2 & Hz)].
      + rewrite E2 in E'. discriminate.
      + right. exists c, r', ini, z. split; [exact E'|].
        split; [exact E2|]. unfold nw in Hc, Hz.
        apply Bool.negb_false_iff in Hc, Hz. split; assumption. }
  cbv zeta. split.
  { destruct Hforma as [E|(c & rest & ini & z & E1 & E2 & Hc & Hz)].
    - rewrite E. reflexivity.
    - assert (T : trim (normalizarValor v) = normalizarValor v).
      { unfold trim. rewrite E1. cbn [dropWhile].
        rewrite (isWhite_naoWord _ Hc). rewrite <- E1, E2.
        rewrite dropWhileEnd_snoc, (isWhite_naoWord _ Hz). reflexivity. }
      unfold normalizarValor at 1. rewrite T. fold nw.
      rewrite E1. cbn [dropWhile]. unfold nw at 2. rewrite Hc.
      cbn [negb]. rewrite <- E1, E2, dropWhileEnd_snoc. unfold nw.
      rewrite Hz. reflexivity. }
  split.
  { intros c rest E.
    destruct Hforma as [E0|(c' & rest' & ini & z & E1 & _ & Hc & _)].
    - rewrite E0 in E. discriminate.
    - rewrite E1 in E. inversion E; subst. exact Hc. }
  split.
  { intros ini c E.
    destruct Hforma as [E0|(c' & rest' & ini' & z & _ & E2 & _ & Hz)].
    - rewrite E0 in E. destruct ini; discriminate.
    - rewrite E2 in E. apply app_inj_tail in E. destruct E as [_ E].
      subst. exact Hz. }
  intros c Hc.
  assert (Hn : nw c = true) by (unfold nw; rewrite Hc; reflexivity).
  unfold normalizarValor, trim. fold nw.
  rewrite !aparar_redundante. fold nw.
  assert (G : forall s,
            dropWhileEnd nw (dropWhile nw (dropWhile isWhite s)) =
            dropWhileEnd nw (dropWhile nw s)).
  { intros s. induction s as [|x s IH]; [reflexivity|].
    cbn [dropWhile]. destruct (isWhite x) eqn:Ex; [|reflexivity].
    unfold nw at 4. rewrite (branco_naoWord _ Ex). exact IH. }
  rewrite !G. rewrite dropWhile_snoc, Hn.
  destruct (forallb nw v) eqn:Ef.
  - rewrite (dropWhile_todos _ _ Ef). reflexivity.
  - rewrite dropWhileEnd_snoc, Hn. reflexivity.
Qed.

(* ------------------------------------------------------------------ *)
(** *** Learning and the cache *)

Lemma col_saveFact X (p : Db -> X) (f : Fato) (agora : instante) :
  (forall d l, p (comFatos d l) = p d) ->
  fixa (fun st => p (db st)) (saveFact f agora).
Proof.
  intros H. unfold saveFact.
  repeat first
    [ apply fixa_ret | apply fixa_col_consoleErro
    | apply fixa_col_operacao; intros; first [reflexivity | apply H]
    | apply fixa_col_updateOne; exact H
    | apply fixa_tentar | apply fixa_bind
    | match goal with |- forall _, _ => intro end
    | match goal with
      | |- fixa _ (match ?x with _ => _ end) => destruct x
      | |- fixa _ (let (_, _) := ?x in _) => destruct x
      end ].
Qed.

Lemma col_salvarFatos (fatos : list Fato) (agora : instante) :
  fixa (fun st => responses (db st)) (salvarFatos fatos agora).
Proof.
  induction fatos as [|f r IH]; cbn [salvarFatos]; [apply fixa_ret|].
  apply fixa_bind; [|intros _; exact IH].
  apply fixa_tentar; [|apply fixa_col_consoleErro].
  apply fixa_bind; [apply fixa_col_registrar|intros _].
  apply fixa_bind; [|intros; apply fixa_ret].
  apply col_saveFact. intros d l. reflexivity.
Qed.

(** The state a learning command ends in, where the translator returned
    and no operation on the store fails: its responses are those the save
    of the classifier's answer left. *)
Lemma aprender_estado_cache (message : Mensagem) (c : jschar) (t : jsstring)
    (api : RespostaApi) (agora : instante) (st : Estado)
    (data : RespostaJson) (fatos : list Fato) :
  extractMessageText message = Some (c :: t) ->
  startsWith (js "/aprender ") (c :: t) = true ->
  getOpenAIResponse (textoProcessado (c :: t))
    (Some (extractSenderInfo message)) api = Sucesso data ->
  traduzirParaModeloDados (conhecimento data)
    (textoUndef (si_id (extractSenderInfo message))) (toISOString agora) =
    Ok fatos ->
  falhas st = [] ->
  exists stA,
    falhas stA = []
    /\ falhas (snd (processMessage message api agora st)) = []
    /\ responses (db (snd (processMessage message api agora st))) =
       responses
         (db (snd (saveResponse
                     {| rd_palavras_chave := palavras_chave data;
                        rd_resposta := resposta data;
                        rd_classificacao := classificacao data |}
                     agora stA))).
Proof.
  intros Ht Hl Ho Htr Hf.
  destruct (processMessage_passos message api agora st Ht)
    as (ex & st1 & D1 & C1 & F1 & N1 & S1 & E).
  cbv zeta in E. rewrite Hl in E. rewrite Hf in F1. cbn [tl] in F1.
  set (ptxt := textoProcessado (c :: t)) in *.
  set (senderId := textoUndef (si_id (extractSenderInfo message))) in *.
  set (rd := {| rd_palavras_chave := palavras_chave data;
                rd_resposta := resposta data;
                rd_classificacao := classificacao data |}).
  set (stA := comChamada
                (comChamada
                   (comChamada st1 (ChGetOpenAIResponse ptxt))
                   ChTraduzirParaModeloDados)
                ChSaveResponse).
  destruct (sem_saveResponse rd agora stA) as (r & stB & EB).
  assert (FB : falhas stB = []).
  { pose proof (semFalha_saveResponse rd agora stA F1) as H.
    rewrite EB in H. exact H. }
  destruct (salvarFatos_chamadas fatos agora stB) as (stC & EC & _).
  assert (FC : falhas stC = []).
  { pose proof (semFalha_salvarFatos fatos agora stB FB) as H.
    rewrite EC in H. exact H. }
  assert (RC : responses (db stC) = responses (db stB)).
  { pose proof (col_salvarFatos fatos agora stB) as H.
    rewrite EC in H. exact H. }
  exists stA. split; [exact F1|].
  assert (E2 : consultarClassificador message true ptxt api agora st1 =
               (Ok (Some (respostaAprendizado (length fatos))), stC)).
  { unfold consultarClassificador. cbv zeta. apply tentar_ok.
    rewrite bind_registrar, Ho. fold senderId.
    unfold bind at 1. unfold ret at 1. cbv iota.
    unfold aprenderOuResponder. rewrite bind_registrar. fold senderId.
    rewrite Htr. unfold elevar. unfold bind at 1. unfold ret at 1.
    apply tentar_ok. rewrite bind_registrar. fold rd. fold stA.
    rewrite (bind_ok _ _ _ EB). rewrite (bind_ok _ _ _ EC). reflexivity. }
  assert (E3 : processMessage message api agora st =
               (Ok (Some (formatarResposta
                            (Some (respostaAprendizado (length fatos))))),
                stC)).
  { rewrite E. destruct ex as [[i r0]|]; rewrite (bind_ok _ _ _ E2);
      reflexivity. }
  rewrite E3. cbn [snd]. split; [exact FC|].
  rewrite RC, EB. reflexivity.
Qed.

(** X21: the acknowledgement of a learning command is cached under the
    keywords of the classifier and answers later messages: where no
    operation on the store fails, after a learning command whose
    classification was translated and has keywords, a message that is no
    learning command and whose extracted keywords are those keywords is
    answered with the [resposta] of that classification, whatever the
    classifier would say of it. *)
Theorem aprendizado_responde_do_cache (m1 m2 : Mensagem) (c1 c2 : jschar)
    (t1 t2 : jsstring) (api1 api2 : RespostaApi) (agora1 agora2 : instante)
    (st : Estado) (data : RespostaJson) (fatos : list Fato)
    (kws : list jsstring) :
  extractMessageText m1 = Some (c1 :: t1) ->
  startsWith (js "/aprender ") (c1 :: t1) = true ->
  getOpenAIResponse (textoProcessado (c1 :: t1))
    (Some (extractSenderInfo m1)) api1 = Sucesso data ->
  traduzirParaModeloDados (conhecimento data)
    (textoUndef (si_id (extractSenderInfo m1))) (toISOString agora1) =
    Ok fatos ->
  palavras_chave data = Some kws ->
  kws <> [] ->
  falhas st = [] ->
  extractMessageText m2 = Some (c2 :: t2) ->
  startsWith (js "/aprender ") (c2 :: t2) = false ->
  extractKeywords (JStr (c2 :: t2)) 10 = kws ->
  fst (processMessage m2 api2 agora2
         (snd (processMessage m1 api1 agora1 st))) =
    Ok (Some (formatarResposta (resposta data))).
Proof.
  intros Ht1 Hl1 Ho Htr Hk Hne Hf Ht2 Hl2 Hk2.
  destruct (aprender_estado_cache m1 api1 agora1 st Ht1 Hl1 Ho Htr Hf)
    as (stA & FA & FF & RF).
  set (stF := snd (processMessage m1 api1 agora1 st)) in *.
  destruct (saveResponse_grava
              {| rd_palavras_chave := palavras_chave data;
                 rd_resposta := resposta data;
                 rd_classificacao := classificacao data |}
              agora1 stA FA Hk Hne) as (_ & i & r & Hp & Hr & _).
  cbn [rd_resposta] in Hr.
  destruct (processMessage_passos m2 api2 agora2 stF Ht2)
    as (ex & st1 & D1 & C1 & F1 & N1 & S1 & E).
  unfold textoProcessado in *. rewrite Hl2 in *. rewrite Hk2 in *.
  rewrite (S1 FF), respostaEmCache_primeiro, RF, Hp in E.
  rewrite E. unfold bind, ret. cbn [fst]. rewrite Hr. reflexivity.
Qed.

End Marvin.

(* ================================================================== *)
(** ** The properties at concrete inputs *)
(* ================================================================== *)

(** The characterisation of the extractor at the text
    "pedido 456 casa 123 casa", whose words of frequency one come as
    [Object.keys] lists them, the numerals first; and at the text
    "nome usuario nome cadastro", which has no numeral, where the result is
    that of the specification. *)
Lemma extractKeywords_caracterizacao_witness :
  let text := js "pedido 456 casa 123 casa" in
  let toks := filteredWords lowerLatin1 text in
  let distintas := primeirasOcorrencias toks in
  let r := extractKeywords lowerLatin1 (JStr text) 10 in
  (text <> []
   /\ (forall w, In w toks -> includes objectPrototypeKeys w = false)
   /\ r = [js "casa"; js "123"; js "456"; js "pedido"]
   /\ exists todas indices,
        r = firstn 10 todas
        /\ Permutation todas distintas
        /\ Permutation indices (filter isArrayIndex distintas)
        /\ StronglySorted
             (fun a b => (valorDecimal a <= valorDecimal b)%N) indices
        /\ StronglySorted
             (fun a b => frequencia toks b <= frequencia toks a) todas
        /\ forall n,
             filter (fun w => frequencia toks w =? n) todas =
             filter (fun w => frequencia toks w =? n)
               (indices
                ++ filter (fun w => negb (isArrayIndex w)) distintas))
  /\ (forall w,
        In w (filteredWords lowerLatin1 (js "nome usuario nome cadastro")) ->
        isArrayIndex w = false /\ includes objectPrototypeKeys w = false)
  /\ extractKeywords lowerLatin1 (JStr (js "nome usuario nome cadastro")) 10 =
     extractKeywords_spec lowerLatin1 (JStr (js "nome usuario nome cadastro")) 10.
Proof.
  cbv zeta.
  assert (Hp : forall w,
             In w (filteredWords lowerLatin1 (js "pedido 456 casa 123 casa")) ->
             includes objectPrototypeKeys w = false).
  { intros w Hw.
    assert (Hb : forallb (fun x => negb (includes objectPrototypeKeys x))
                   (filteredWords lowerLatin1
                      (js "pedido 456 casa 123 casa")) = true)
      by (vm_compute; reflexivity).
    rewrite forallb_forall in Hb. specialize (Hb w Hw).
    destruct (includes objectPrototypeKeys w);
      [discriminate | reflexivity]. }
  assert (Hne : js "pedido 456 casa 123 casa" <> [])
    by (intros E; vm_compute in E; discriminate E).
  assert (H : forall w,
             In w (filteredWords lowerLatin1 (js "nome usuario nome cadastro")) ->
             isArrayIndex w = false /\ includes objectPrototypeKeys w = false).
  { intros w Hw.
    assert (Hb : forallb (fun x => negb (isArrayIndex x)
                                   && negb (includes objectPrototypeKeys x))
                   (filteredWords lowerLatin1
                      (js "nome usuario nome cadastro")) = true)
      by (vm_compute; reflexivity).
    rewrite forallb_forall in Hb. specialize (Hb w Hw).
    destruct (isArrayIndex w), (includes objectPrototypeKeys w);
      try discriminate. split; reflexivity. }
  split.
  - split; [exact Hne|]. split; [exact Hp|].
    split; [vm_compute; reflexivity|].
    destruct (proj1 (proj2 (proj2 (proj2
                (extractKeywords_caracterizacao lowerLatin1
                   (js "pedido 456 casa 123 casa") 10)))) Hne)
      as (todas & indices & H1 & H2 & H3 & H4 & H5).
    destruct (H5 Hp) as [H6 H7].
    exists todas, indices.
    split; [exact H1|]. split; [exact H2|]. split; [exact H3|].
    split; [exact H4|]. split; [exact H6 | exact H7].
  - split; [exact H|].
    exact (proj1 (proj2 (proj2 (proj2 (proj2
             (extractKeywords_caracterizacao lowerLatin1
                (js "nome usuario nome cadastro") 10))))) H).
Defined.

(** C10, as stated, fails on "pedido 123": both words occur once and
    "pedido" is seen first, yet [Object.keys] lists the array index "123"
    before it. *)
Lemma extractKeywords_contraexemplo :
  extractKeywords lowerLatin1 (JStr (js "pedido 123")) 10 =
    [js "123"; js "pedido"]
  /\ extractKeywords_spec lowerLatin1 (JStr (js "pedido 123")) 10 =
    [js "pedido"; js "123"]
  /\ extractKeywords lowerLatin1 (JStr (js "pedido 123")) 10 <>
     extractKeywords_spec lowerLatin1 (JStr (js "pedido 123")) 10.
Proof.
  vm_compute. split; [reflexivity|]. split; [reflexivity|]. discriminate.
Qed.

(** At the cached entry with keywords nome, usuario, cadastro: a hit for
    nome, usuario, endereco and a miss for nome, endereco. *)
Lemma findResponseByKeywords_limiar_witness :
  hd false (falhas (estadoDe dbCadastro)) = false
  /\ fst (findResponseByKeywords
            (Some [js "nome"; js "usuario"; js "endereco"])
            (estadoDe dbCadastro)) = Ok (Some (0, respostaCadastro))
  /\ fst (findResponseByKeywords (Some [js "nome"; js "endereco"])
            (estadoDe dbCadastro)) = Ok None.
Proof.
  split; [reflexivity|].
  exact (proj2 (proj2 (findResponseByKeywords_limiar
                         [js "nome"; js "usuario"; js "endereco"]
                         (estadoDe dbCadastro) eq_refl)) eq_refl).
Defined.

(** C5, as stated, fails on the empty keyword list: [minMatches] is 0 and
    every stored response has at least 0 keywords in common with the
    input, yet the query for candidates finds none and nothing is
    returned. *)
Lemma findResponseByKeywords_contraexemplo :
  fst (findResponseByKeywords (Some []) (estadoDe dbCadastro)) = Ok None
  /\ findResponseByKeywords_spec [] (responses dbCadastro) =
     Some (0, respostaCadastro)
  /\ fst (findResponseByKeywords (Some []) (estadoDe dbCadastro)) <>
     Ok (findResponseByKeywords_spec [] (responses dbCadastro)).
Proof.
  split; [reflexivity|]. split; [reflexivity|].
  intros H. vm_compute in H. discriminate H.
Qed.

(** An entry of certainty MÉDIA is passed over. *)
Lemma certeza_nao_alta_descartada_witness :
  certezaDe entradaMedia <> Some ALTA
  /\ traduzirEntrada lowerLatin1 (js "5511999") (isoFixo 0)
       (Some entradaMedia) = None.
Proof.
  assert (H : certezaDe entradaMedia <> Some ALTA).
  { intros E. vm_compute in E. discriminate E. }
  split; [exact H|].
  exact (proj1 (certeza_nao_alta_descartada lowerLatin1 (js "5511999")
                  (isoFixo 0) entradaMedia H)).
Defined.

(** A value of 600 code units is kept as its first 500 and "...". *)
Lemma valor_truncado_witness :
  exists fato,
    traduzirParaModeloDados lowerLatin1
      (Some {| armazenar := true; entradas := Some [Some entrada600] |})
      (js "5511999") (isoFixo 0) = Ok [fato]
    /\ In fato [fato]
    /\ f_valor fato = Some (repeat 97%N 500 ++ js "...")
    /\ exists es entrada bruto v,
         Some [Some entrada600] = Some es /\ In entrada es
         /\ fatoMapeado lowerLatin1 (js "5511999") (isoFixo 0) entrada =
            Some bruto
         /\ f_valor bruto = Some v
         /\ traduzirEntrada lowerLatin1 (js "5511999") (isoFixo 0) entrada =
            Some fato
         /\ (500 < length (trim v) ->
             f_valor fato = Some (firstn 500 (trim v) ++ js "..."))
         /\ (length (trim v) = 600 ->
             f_valor fato = Some (firstn 500 (trim v) ++ js "..."))
         /\ (length (trim v) <= 500 -> f_valor fato = Some (trim v)).
Proof.
  eexists. split; [vm_compute; reflexivity|].
  split; [left; reflexivity|]. split; [vm_compute; reflexivity|].
  eapply (valor_truncado lowerLatin1
            {| armazenar := true; entradas := Some [Some entrada600] |}
            (js "5511999") (isoFixo 0)).
  - vm_compute; reflexivity.
  - left; reflexivity.
Defined.


(** A question whose keywords hit the cached entry. *)
Lemma resposta_em_cache_witness :
  extractMessageText (mensagemCom "qual o nome do usuario no cadastro") =
    Some (js "qual o nome do usuario no cadastro")
  /\ startsWith (js "/aprender ") (js "qual o nome do usuario no cadastro") =
     false
  /\ fst (findResponseByKeywords
            (Some (extractKeywords lowerLatin1
                     (JStr (js "qual o nome do usuario no cadastro")) 10))
            (estadoDe dbCadastro)) = Ok (Some (0, respostaCadastro))
  /\ fst (processMessage lowerLatin1 upperLatin1 isoFixo None
            (mensagemCom "qual o nome do usuario no cadastro") ApiErro 0
            (estadoDe dbCadastro)) =
     Ok (Some (formatarResposta None (r_resposta respostaCadastro))).
Proof.
  assert (H1 : extractMessageText
                 (mensagemCom "qual o nome do usuario no cadastro") =
               Some (js "qual o nome do usuario no cadastro"))
    by (vm_compute; reflexivity).
  assert (H2 : startsWith (js "/aprender ")
                 (js "qual o nome do usuario no cadastro") = false)
    by (vm_compute; reflexivity).
  assert (H3 : fst (findResponseByKeywords
                      (Some (extractKeywords lowerLatin1
                               (JStr (js "qual o nome do usuario no cadastro"))
                               10))
                      (estadoDe dbCadastro)) = Ok (Some (0, respostaCadastro)))
    by (vm_compute; reflexivity).
  split; [exact H1|]. split; [exact H2|]. split; [exact H3|].
  exact (proj1 (resposta_em_cache lowerLatin1 upperLatin1 isoFixo None
                  (mensagemCom "qual o nome do usuario no cadastro")
                  (estadoDe dbCadastro) H1 H2 H3 ApiErro 0)).
Defined.

(** The learning command "/aprender meu nome é Ana" in a state where the
    save of the fact fails. *)
Lemma aprendizado_conta_traduzidos_witness :
  extractMessageText (mensagemCom "/aprender meu nome é Ana") =
    Some (js "/aprender meu nome é Ana")
  /\ startsWith (js "/aprender ") (js "/aprender meu nome é Ana") = true
  /\ fst (processMessage lowerLatin1 upperLatin1 isoFixo None
            (mensagemCom "/aprender meu nome é Ana") (ApiJson jsonAna) 0
            estadoQuartaFalha) =
     Ok (Some (formatarResposta None (Some (respostaAprendizado 1)))).
Proof.
  assert (H1 : extractMessageText (mensagemCom "/aprender meu nome é Ana") =
               Some (js "/aprender meu nome é Ana"))
    by (vm_compute; reflexivity).
  assert (H2 : startsWith (js "/aprender ") (js "/aprender meu nome é Ana") =
               true) by (vm_compute; reflexivity).
  assert (H3 : getOpenAIResponse lowerLatin1
                 (trim (skipn 10 (js "/aprender meu nome é Ana")))
                 (Some (extractSenderInfo
                          (mensagemCom "/aprender meu nome é Ana")))
                 (ApiJson jsonAna) = Sucesso jsonAna)
    by (vm_compute; reflexivity).
  assert (H4 : exists fato,
             traduzirParaModeloDados lowerLatin1 (conhecimento jsonAna)
               (textoUndef (si_id (extractSenderInfo
                                     (mensagemCom "/aprender meu nome é Ana"))))
               (isoFixo 0) = Ok [fato])
    by (eexists; vm_compute; reflexivity).
  destruct H4 as [fato H4].
  split; [exact H1|]. split; [exact H2|].
  exact (proj1 (proj1 (aprendizado_conta_traduzidos lowerLatin1 upperLatin1
                         isoFixo None
                         (mensagemCom "/aprender meu nome é Ana")
                         (ApiJson jsonAna) 0 H1 H2 H3 H4)
                  estadoQuartaFalha)).
Defined.

(** C4, as stated, fails where the save of the one translated fact fails:
    the failure is logged and nothing is stored, yet the reply reports one
    stored fact, not none. *)
Lemma aprendizado_contraexemplo :
  let r := processMessage lowerLatin1 upperLatin1 isoFixo None
             (mensagemCom "/aprender meu nome é Ana") (ApiJson jsonAna) 0
             estadoQuartaFalha in
  fst r = Ok (Some (formatarResposta None (Some (respostaAprendizado 1))))
  /\ facts (db (snd r)) = []
  /\ consoleError (snd r) = [js "Erro ao salvar fato:"]
  /\ fst r <> Ok (Some (formatarResposta None (Some (respostaAprendizado 0)))).
Proof.
  vm_compute. split; [reflexivity|]. split; [reflexivity|].
  split; [reflexivity|]. discriminate.
Qed.

(** C1 at an entry whose predicate type is two spaces: the translator
    makes a fact of it whose key is empty; the store manager rejects the
    fact both times, and no record is stored. *)
Theorem chave_em_branco_nao_gravada :
  exists fato,
    traduzirEntrada lowerLatin1 (js "5511999") (isoFixo 0)
      (Some entradaEspacos) = Some fato
    /\ f_chave fato = Some []
    /\ fst (saveFact lowerLatin1 isoFixo fato 0 (estadoDe dbVazio)) =
       Ok NaoGravado
    /\ fst (saveFact lowerLatin1 isoFixo fato 1
              (snd (saveFact lowerLatin1 isoFixo fato 0 (estadoDe dbVazio)))) =
       Ok NaoGravado
    /\ facts (db (snd (saveFact lowerLatin1 isoFixo fato 1
                         (snd (saveFact lowerLatin1 isoFixo fato 0
                                 (estadoDe dbVazio)))))) = [].
Proof.
  eexists. split; [vm_compute; reflexivity|].
  vm_compute. repeat split; reflexivity.
Qed.

(** C3 at an answer of the classifier without [conhecimento]: the message
    is no learning command, nothing is cached and the answer is no
    question, yet the reply is not the classifier's answer text but the
    notice of a failed request. The store is left as it was. *)
Theorem resposta_sem_conhecimento :
  let r := processMessage lowerLatin1 upperLatin1 isoFixo None
             (mensagemCom "bom dia pessoal") (ApiJson jsonSemConhecimento) 0
             (estadoDe dbVazio) in
  fst r = Ok (Some (formatarResposta None (Some respostaErroSolicitacao)))
  /\ fst r <> Ok (Some (formatarResposta None (resposta jsonSemConhecimento)))
  /\ consoleError (snd r) = [js "Erro ao solicitar resposta da OpenAI:"]
  /\ db (snd r) = dbVazio.
Proof.
  vm_compute. split; [reflexivity|]. split; [discriminate|].
  split; reflexivity.
Qed.

(** C7 at the learning command "/aprender meu nome é Ana", which the
    classifier answers with [armazenar: false] and one entry of certainty
    "MÉDIA". The orchestrator strips "/aprender " from the text before it
    calls the adapter, the one call of the run being made with
    "meu nome é Ana"; the adapter, which tests its argument for that
    prefix, sees no learning command and returns the answer as it came:
    [armazenar] is false and the certainty of the entry is "MÉDIA". No
    fact is stored and the reply counts 0 facts. Called with the message
    itself, the adapter sets [armazenar] and overwrites the certainty. *)
Theorem aprendizado_sem_prefixo :
  let message := mensagemCom "/aprender meu nome é Ana" in
  let r := processMessage lowerLatin1 upperLatin1 isoFixo None message
             (ApiJson jsonMedia) 0 (estadoDe dbVazio) in
  extractMessageText message = Some (js "/aprender meu nome é Ana")
  /\ startsWith (js "/aprender ") (js "/aprender meu nome é Ana") = true
  /\ extractSenderInfo message = remetenteAna
  /\ chamadas (snd r) =
     [ChFindResponseByKeywords [js "nome"; js "ana"];
      ChGetOpenAIResponse (js "meu nome é Ana");
      ChTraduzirParaModeloDados; ChSaveResponse]
  /\ getOpenAIResponse lowerLatin1 (js "meu nome é Ana") (Some remetenteAna)
       (ApiJson jsonMedia) = Sucesso jsonMedia
  /\ conhecimento jsonMedia =
     Some {| armazenar := false; entradas := Some [Some entradaMedia] |}
  /\ certezaDe entradaMedia = Some (js "MÉDIA")
  /\ certezaDe entradaMedia <> Some ALTA
  /\ fst r = Ok (Some (formatarResposta None (Some (respostaAprendizado 0))))
  /\ facts (db (snd r)) = []
  /\ getOpenAIResponse lowerLatin1 (js "/aprender meu nome é Ana")
       (Some remetenteAna) (ApiJson jsonMedia) =
     Sucesso (comConhecimento jsonMedia
                {| armazenar := true;
                   entradas := Some [Some (forcarCerteza entradaMedia)] |})
  /\ certezaDe (forcarCerteza entradaMedia) = Some ALTA.
Proof.
  vm_compute. repeat (split; [first [reflexivity | discriminate]|]).
  reflexivity.
Qed.
(* ================================================================== *)
(** ** Further properties at concrete inputs *)
(* ================================================================== *)

(** "Ana" saved at time 1, then "Ana Maria" under the same key at time 2:
    the second save is rejected and the record keeps "Ana" and time 1. *)
Lemma saveFact_segunda_rejeitada_witness :
  let r1 := saveFact lowerLatin1 isoFixo fatoAna 1 (estadoDe dbVazio) in
  let r2 := saveFact lowerLatin1 isoFixo fatoAnaMaria 2 (snd r1) in
  falhas (estadoDe dbVazio) = []
  /\ camposEssenciais fatoAna =
     Some (js "nome", js "nome", js "5511999", js "Ana")
  /\ camposEssenciais fatoAnaMaria =
     Some (js "nome", js "nome", js "5511999", js "Ana Maria")
  /\ fst r1 = Ok (Gravado false)
  /\ fst r2 = Ok NaoGravado
  /\ db (snd r2) = db (snd r1)
  /\ exists id d,
       primeiro
         (casaFato (consultaDe lowerLatin1 (js "nome") (js "nome")
                      (js "5511999") (f_conceito fatoAna)))
         (indexar (facts (db (snd r2)))) = Some (id, d)
       /\ d_valor d = js "Ana" /\ d_last_updated d = 1.
Proof.
  cbv zeta.
  assert (H1 : falhas (estadoDe dbVazio) = []) by reflexivity.
  assert (H2 : camposEssenciais fatoAna =
               Some (js "nome", js "nome", js "5511999", js "Ana"))
    by (vm_compute; reflexivity).
  assert (H3 : camposEssenciais fatoAnaMaria =
               Some (js "nome", js "nome", js "5511999", js "Ana Maria"))
    by (vm_compute; reflexivity).
  assert (H4 : consultaDe lowerLatin1 (js "nome") (js "nome") (js "5511999")
                 (f_conceito fatoAnaMaria) =
               consultaDe lowerLatin1 (js "nome") (js "nome") (js "5511999")
                 (f_conceito fatoAna)) by reflexivity.
  destruct (@saveFact_segunda_rejeitada lowerLatin1 isoFixo fatoAna
              fatoAnaMaria 1 2 (estadoDe dbVazio) _ _ _ _ _ _ _ _
              H1 H2 H3 H4)
    as (R2 & D2 & _ & Hnovo & _).
  destruct (Hnovo eq_refl) as (R1 & _ & Hd).
  split; [exact H1|]. split; [exact H2|]. split; [exact H3|].
  split; [exact R1|]. split; [exact R2|]. split; [exact D2 | exact Hd].
Defined.

(** After "Ana" is saved into an empty store at time 1, [findFact] finds
    the record with that value and that time. *)
Lemma findFact_apos_saveFact_witness :
  falhas (estadoDe dbVazio) = []
  /\ camposEssenciais fatoAna =
     Some (js "nome", js "nome", js "5511999", js "Ana")
  /\ q_conceito (consultaDe lowerLatin1 (js "nome") (js "nome")
                   (js "5511999") (f_conceito fatoAna)) = None
  /\ exists d,
       fst (findFact
              (normalizarChave lowerLatin1 (js "nome"))
              (normalizarChave lowerLatin1 (js "nome"))
              (normalizarChave lowerLatin1 (js "5511999"))
              (snd (saveFact lowerLatin1 isoFixo fatoAna 1
                      (estadoDe dbVazio)))) = Ok (BuscaFato d)
       /\ d_valor d = js "Ana" /\ d_created_at d = 1
       /\ d_last_updated d = 1.
Proof.
  assert (H1 : falhas (estadoDe dbVazio) = []) by reflexivity.
  assert (H2 : camposEssenciais fatoAna =
               Some (js "nome", js "nome", js "5511999", js "Ana"))
    by (vm_compute; reflexivity).
  assert (H3 : q_conceito (consultaDe lowerLatin1 (js "nome") (js "nome")
                             (js "5511999") (f_conceito fatoAna)) = None)
    by (vm_compute; reflexivity).
  split; [exact H1|]. split; [exact H2|]. split; [exact H3|].
  destruct (findFact_apos_saveFact lowerLatin1 isoFixo fatoAna 1
              (estadoDe dbVazio) H1 H2 H3) as (d & Hd & Hnovo & _).
  exists d. split; [exact Hd|]. exact (Hnovo eq_refl).
Defined.

(** The translator on the entries "meu nome é Ana" of certainty ALTA and
    of certainty MÉDIA. *)
Lemma traducao_invariantes_witness :
  exists fatos,
    traduzirParaModeloDados lowerLatin1
      (Some {| armazenar := true;
               entradas := Some [Some entradaAna; Some entradaMedia] |})
      (js "5511999") (isoFixo 0) = Ok fatos
    /\ length fatos <= 2
    /\ NoDup (map chaveUnica fatos)
    /\ forall f, In f fatos ->
         truthy (f_entidade f) = true /\ truthy (f_valor f) = true.
Proof.
  eexists. split; [vm_compute; reflexivity|].
  match goal with
  | |- length ?l <= _ /\ _ =>
      destruct (traducao_invariantes lowerLatin1
                  {| armazenar := true;
                     entradas := Some [Some entradaAna; Some entradaMedia] |}
                  (js "5511999") (isoFixo 0) (fatos := l)
                  ltac:(vm_compute; reflexivity)) as (H1 & H2 & H3)
  end.
  split; [exact H1|]. split; [exact H2|].
  intros f Hf. destruct (H3 f Hf) as (_ & _ & H4 & H5 & _).
  split; [exact H4 | exact H5].
Defined.

Lemma processMessage_sem_escrita_witness :
  (forall texto,
     extractMessageText (mensagemCom "bom dia pessoal") = Some texto ->
     startsWith (js "/aprender ") texto = false)
  /\ db (snd (processMessage lowerLatin1 upperLatin1 isoFixo None
                (mensagemCom "bom dia pessoal") (ApiJson jsonAna) 0
                (estadoDe dbCadastro))) = dbCadastro.
Proof.
  assert (H : forall texto,
            extractMessageText (mensagemCom "bom dia pessoal") = Some texto ->
            startsWith (js "/aprender ") texto = false).
  { intros texto E. vm_compute in E. inversion E. vm_compute. reflexivity. }
  split; [exact H|].
  exact (processMessage_sem_escrita lowerLatin1 upperLatin1 isoFixo None
           (mensagemCom "bom dia pessoal") (ApiJson jsonAna) 0
           (estadoDe dbCadastro) H).
Defined.

Lemma entrada_invalida_descartada_witness :
  ent_tipo entradaCircular = Some (js "fato_relacao")
  /\ traduzirParaModeloDados lowerLatin1
       (Some {| armazenar := true;
                entradas := Some ([Some entradaAna] ++
                                  Some entradaCircular :: []) |})
       (js "5511999") (isoFixo 0) =
     traduzirParaModeloDados lowerLatin1
       (Some {| armazenar := true;
                entradas := Some ([Some entradaAna] ++ []) |})
       (js "5511999") (isoFixo 0).
Proof.
  assert (H1 : ent_tipo entradaCircular = Some (js "fato_relacao"))
    by reflexivity.
  split; [exact H1|].
  apply (entrada_invalida_descartada lowerLatin1 true [Some entradaAna] []
           entradaCircular (js "5511999") (isoFixo 0) H1 eq_refl eq_refl).
  do 5 right. left. split; [reflexivity|].
  split; reflexivity.
Defined.


Lemma classificador_falha_witness :
  extractMessageText (mensagemCom "/aprender meu nome é Ana") =
    Some (47%N :: js "aprender meu nome é Ana")
  /\ fst (processMessage lowerLatin1 upperLatin1 isoFixo None
            (mensagemCom "/aprender meu nome é Ana") ApiErro 0
            (estadoDe dbVazio)) =
     Ok (Some (formatarResposta None (Some respostaErroOpenAI)))
  /\ db (snd (processMessage lowerLatin1 upperLatin1 isoFixo None
                (mensagemCom "/aprender meu nome é Ana") ApiErro 0
                (estadoDe dbVazio))) = dbVazio.
Proof.
  assert (H1 : extractMessageText (mensagemCom "/aprender meu nome é Ana") =
               Some (47%N :: js "aprender meu nome é Ana"))
    by (vm_compute; reflexivity).
  split; [exact H1|].
  refine (classificador_falha lowerLatin1 upperLatin1 isoFixo None
            (mensagemCom "/aprender meu nome é Ana") ApiErro 0
            (estadoDe dbVazio) H1 _ _).
  - reflexivity.
  - left. vm_compute; reflexivity.
Defined.

Lemma consulta_identidade_witness :
  extractMessageText (mensagemCom "qual é o meu nome") =
    Some (113%N :: js "ual é o meu nome")
  /\ fst (processMessage lowerLatin1 upperLatin1 isoFixo None
            (mensagemCom "qual é o meu nome") (ApiJson jsonPergunta) 5
            (snd (saveFact lowerLatin1 isoFixo fatoAna 1
                    (estadoDe dbVazio)))) =
     Ok (Some (formatarResposta None (Some (js "Seu nome é Ana.")))).
Proof.
  assert (H1 : extractMessageText (mensagemCom "qual é o meu nome") =
               Some (113%N :: js "ual é o meu nome"))
    by (vm_compute; reflexivity).
  split; [exact H1|].
  refine (proj1 (consulta_identidade lowerLatin1 upperLatin1 isoFixo None
                   (mensagemCom "qual é o meu nome") (ApiJson jsonPergunta) 5
                   (snd (saveFact lowerLatin1 isoFixo fatoAna 1
                           (estadoDe dbVazio)))
                   (tx := taxonomiaPergunta) (id := 0)
                   (d := novoDoc fatoAna
                           (consultaDe lowerLatin1 (js "nome") (js "nome")
                              (js "5511999") None)
                           (js "Ana") 1)
                   H1 _ _ _ _ _ _ _ _ _)).
  - vm_compute; reflexivity.
  - vm_compute; reflexivity.
  - vm_compute; reflexivity.
  - reflexivity.
  - reflexivity.
  - reflexivity.
  - reflexivity.
  - vm_compute; reflexivity.
  - vm_compute; reflexivity.
Defined.

Lemma saveResponse_depois_encontra_witness :
  falhas (estadoDe dbCadastro) = []
  /\ rd_palavras_chave respostaAna = Some [js "nome"; js "ana"]
  /\ exists i r,
       fst (findResponseByKeywords (Some [js "nome"; js "ana"])
              (snd (saveResponse respostaAna 3 (estadoDe dbCadastro)))) =
         Ok (Some (i, r))
       /\ r_resposta r = rd_resposta respostaAna
       /\ r_last_updated r = 3.
Proof.
  assert (H1 : falhas (estadoDe dbCadastro) = []) by reflexivity.
  assert (H2 : rd_palavras_chave respostaAna = Some [js "nome"; js "ana"])
    by reflexivity.
  split; [exact H1|]. split; [exact H2|].
  apply (saveResponse_depois_encontra respostaAna 3 (estadoDe dbCadastro)
           H1 H2).
  discriminate.
Defined.

(** "/aprender meu nome é Ana" on an empty store: the name is found
    afterwards. *)
Lemma aprender_grava_ultimo_fato_witness :
  extractMessageText (mensagemCom "/aprender meu nome é Ana") =
    Some (47%N :: js "aprender meu nome é Ana")
  /\ camposEssenciais fatoAna =
     Some (js "nome", js "nome", js "5511999", js "Ana")
  /\ exists d,
       fst (findFact
              (normalizarChave lowerLatin1 (js "nome"))
              (normalizarChave lowerLatin1 (js "nome"))
              (normalizarChave lowerLatin1 (js "5511999"))
              (snd (processMessage lowerLatin1 upperLatin1 isoFixo None
                      (mensagemCom "/aprender meu nome é Ana")
                      (ApiJson jsonAna) 7 (estadoDe dbVazio)))) =
         Ok (BuscaFato d)
       /\ d_valor d = js "Ana" /\ d_last_updated d = 7.
Proof.
  assert (H1 : extractMessageText (mensagemCom "/aprender meu nome é Ana") =
               Some (47%N :: js "aprender meu nome é Ana"))
    by (vm_compute; reflexivity).
  assert (H2 : camposEssenciais fatoAna =
               Some (js "nome", js "nome", js "5511999", js "Ana"))
    by (vm_compute; reflexivity).
  split; [exact H1|]. split; [exact H2|].
  destruct (aprender_grava_ultimo_fato lowerLatin1 upperLatin1 isoFixo None
              (mensagemCom "/aprender meu nome é Ana") (ApiJson jsonAna) 7
              (estadoDe dbVazio) [] fatoAna (data := jsonAna)
              H1 ltac:(vm_compute; reflexivity)
              ltac:(vm_compute; reflexivity)
              ltac:(vm_compute; reflexivity) H2
              ltac:(vm_compute; reflexivity) eq_refl)
    as (d & Hd & _ & Hnovo).
  exists d. split; [exact Hd|].
  apply (Hnovo eq_refl). intros g tg cg eg vg [].
Defined.

Lemma getOpenAIResponse_campos_witness :
  getOpenAIResponse lowerLatin1 (js "qual é o meu nome") None
    (ApiJson jsonPergunta) = Sucesso jsonPergunta
  /\ truthy (resposta jsonPergunta) = true.
Proof.
  assert (H : getOpenAIResponse lowerLatin1 (js "qual é o meu nome") None
                (ApiJson jsonPergunta) = Sucesso jsonPergunta)
    by (vm_compute; reflexivity).
  split; [exact H|].
  exact (proj1 (proj2 (proj2 (proj2
           (getOpenAIResponse_campos lowerLatin1 (js "qual é o meu nome")
              None (ApiJson jsonPergunta) H))))).
Defined.

Lemma analisarTaxonomia_forma_witness :
  analisarTaxonomia lowerLatin1 (Some taxonomiaPergunta)
    (js "qual é o meu nome") =
    Some {| c_tipo := js "identidade"; c_alvo := js "usuario";
            cp_entidade := Some (js "usuario");
            cp_valor := None; cp_propriedade := None |}
  /\ In (js "identidade")
        [js "identidade"; js "relacao"; js "definicao"; js "propriedade"].
Proof.
  assert (H : analisarTaxonomia lowerLatin1 (Some taxonomiaPergunta)
                (js "qual é o meu nome") =
              Some {| c_tipo := js "identidade"; c_alvo := js "usuario";
                      cp_entidade := Some (js "usuario");
                      cp_valor := None; cp_propriedade := None |})
    by (vm_compute; reflexivity).
  split; [exact H|].
  exact (proj1 (proj2 (analisarTaxonomia_forma lowerLatin1
                         (Some taxonomiaPergunta) (js "qual é o meu nome")
                         H))).
Defined.

Lemma reconexoes_limitadas_witness :
  0 <= MAX_RECONNECT_ATTEMPTS
  /\ fst (aoEventos 0
            [InicioFalhou; ConexaoFechada false; ConexaoFechada false;
             InicioFalhou; ConexaoFechada false; ConexaoFechada false;
             ConexaoFechada true]) <= MAX_RECONNECT_ATTEMPTS.
Proof.
  assert (H : 0 <= MAX_RECONNECT_ATTEMPTS)
    by (unfold MAX_RECONNECT_ATTEMPTS; lia).
  split; [exact H|].
  exact (proj1 (reconexoes_limitadas
                  [InicioFalhou; ConexaoFechada false; ConexaoFechada false;
                   InicioFalhou; ConexaoFechada false; ConexaoFechada false;
                   ConexaoFechada true] H)).
Defined.

Lemma aprendizado_responde_do_cache_witness :
  extractMessageText (mensagemCom "/aprender meu nome é Ana") =
    Some (47%N :: js "aprender meu nome é Ana")
  /\ extractMessageText (mensagemCom "qual é o nome da ana") =
     Some (113%N :: js "ual é o nome da ana")
  /\ extractKeywords lowerLatin1 (JStr (113%N :: js "ual é o nome da ana")) 10 =
     [js "nome"; js "ana"]
  /\ fst (processMessage lowerLatin1 upperLatin1 isoFixo None
            (mensagemCom "qual é o nome da ana") (ApiJson jsonPergunta) 9
            (snd (processMessage lowerLatin1 upperLatin1 isoFixo None
                    (mensagemCom "/aprender meu nome é Ana")
                    (ApiJson jsonAna) 7 (estadoDe dbVazio)))) =
     Ok (Some (formatarResposta None (resposta jsonAna))).
Proof.
  assert (H1 : extractMessageText (mensagemCom "/aprender meu nome é Ana") =
               Some (47%N :: js "aprender meu nome é Ana"))
    by (vm_compute; reflexivity).
  assert (H2 : extractMessageText (mensagemCom "qual é o nome da ana") =
               Some (113%N :: js "ual é o nome da ana"))
    by (vm_compute; reflexivity).
  assert (H3 : extractKeywords lowerLatin1
                 (JStr (113%N :: js "ual é o nome da ana")) 10 =
               [js "nome"; js "ana"])
    by (vm_compute; reflexivity).
  split; [exact H1|]. split; [exact H2|]. split; [exact H3|].
  refine (aprendizado_responde_do_cache lowerLatin1 upperLatin1 isoFixo None
            (mensagemCom "/aprender meu nome é Ana")
            (mensagemCom "qual é o nome da ana")
            (ApiJson jsonAna) (ApiJson jsonPergunta) 7 9 (estadoDe dbVazio)
            (data := comConhecimento jsonAna
                       {| armazenar := true;
                          entradas := Some [Some (forcarCerteza entradaAna)] |})
            (fatos := [fatoAna])
            H1 _ _ _ _ _ _ H2 _ H3).
  - vm_compute; reflexivity.
  - vm_compute; reflexivity.
  - vm_compute; reflexivity.
  - reflexivity.
  - discriminate.
  - reflexivity.
  - vm_compute; reflexivity.
Defined.

(** The adapter on "/aprender meu nome é Ana": the entry of certainty
    MÉDIA comes back with certainty ALTA, to be stored; where the answer
    carries no [conhecimento], the entry is built from the text. *)
Lemma adaptador_forca_certeza_witness :
  startsWith (js "/aprender ") (js "/aprender meu nome é Ana") = true
  /\ entradasRecebidas jsonMedia = Some (map Some [entradaMedia])
  /\ certezaDe entradaMedia = Some (js "MÉDIA")
  /\ getOpenAIResponse lowerLatin1 (js "/aprender meu nome é Ana")
       (Some remetenteAna) (ApiJson jsonMedia) =
     Sucesso (comConhecimento jsonMedia
                {| armazenar := true;
                   entradas := Some [Some (forcarCerteza entradaMedia)] |})
  /\ certezaDe (forcarCerteza entradaMedia) = Some ALTA
  /\ entradasRecebidas jsonSemConhecimento = None
  /\ exists nome,
       extrairConhecimentoBasico lowerLatin1 (js "/aprender meu nome é Ana")
         (Some remetenteAna) =
       Ok (entradaManual (js "fato_identidade")
             (sujeitoDe USUARIO (Some (js "5511999")))
             (predicadoDe (js "nome") nome)).
Proof.
  assert (H1 : startsWith (js "/aprender ") (js "/aprender meu nome é Ana")
               = true) by reflexivity.
  assert (H2 : entradasRecebidas jsonMedia = Some (map Some [entradaMedia]))
    by reflexivity.
  assert (H3 : entradasRecebidas jsonSemConhecimento = None) by reflexivity.
  destruct (adaptador_forca_certeza lowerLatin1
              (js "/aprender meu nome é Ana") (Some remetenteAna) jsonMedia
              (kws := [js "nome"; js "ana"])
              H1 eq_refl eq_refl eq_refl eq_refl) as (A1 & _).
  destruct (A1 [entradaMedia] H2) as (A2 & A3).
  destruct (adaptador_forca_certeza lowerLatin1
              (js "/aprender meu nome é Ana") (Some remetenteAna)
              jsonSemConhecimento (kws := [js "bom"; js "dia"])
              H1 eq_refl eq_refl eq_refl eq_refl) as (_ & _ & _ & B1 & _).
  split; [exact H1|]. split; [exact H2|]. split; [reflexivity|].
  split; [exact A2|].
  split; [exact (proj1 (A3 entradaMedia (or_introl eq_refl)))|].
  split; [exact H3|].
  exact (B1 remetenteAna eq_refl ltac:(vm_compute; reflexivity)).
Defined.
